(** * Prosperity trading engines: fair values, quoting and position limits

  A shallow embedding of the [Trader] variants of the repository
  ([run.py], [Run2.0.py], [run3.py], [run5.py], [Run6.py], [Run7.py]).

  Conventions of the embedding.
  - Python [int] is [Z]; [//] is [Z.div] (both round towards minus infinity).
  - Python [float] is idealised as an exact rational [Q]: additions,
    multiplications, divisions and comparisons are the exact ones.  The
    transcendental library calls ([math.exp], [np.exp], [**], [np.std] of
    [np.log]) are Section variables, so every definition stays executable
    once they are instantiated.
  - A raised exception ([ZeroDivisionError], [KeyError], [IndexError]) is
    [None] in the [option] monad.
  - A price book ([Dict[int, int]]) is the list of its [items()], keys
    pairwise distinct; the per-product dictionaries of the traders are
    [gmap string _]. *)

From Stdlib Require Import ZArith QArith Qround Qabs Qminmax List Bool Lia Lqa.
From stdpp Require Import gmap strings.
Import ListNotations.

#[local] Open Scope Z_scope.

(** ** Python primitives *)

Module Py.

(** [x < y] on floats. *)
Definition Qltb (x y : Q) : bool := negb (Qle_bool y x).

(** [round(x)]: nearest integer, ties to the even one. *)
Definition round (x : Q) : Z :=
  let f := Qfloor x in
  match (x - inject_Z f ?= 1 # 2)%Q with
  | Lt => f
  | Gt => f + 1
  | Eq => if Z.even f then f else f + 1
  end.

(** [int(x)]: truncation towards zero. *)
Definition int (x : Q) : Z :=
  if Qle_bool 0 x then Qfloor x else Qceiling x.

(** [a / b] on two ints (true division); [None] is [ZeroDivisionError]. *)
Definition truediv (a b : Z) : option Q :=
  if b =? 0 then None else Some (inject_Z a / inject_Z b)%Q.

(** [x / y] on floats; [None] when the divisor is zero: a Python float
    raises [ZeroDivisionError], a numpy one yields [inf], which the
    enclosing [int()] refuses. *)
Definition fdiv (x y : Q) : option Q :=
  if Qeq_bool y 0 then None else Some (x / y)%Q.

(** [d.keys()], [d.values()]. *)
Definition keys {K V} (d : list (K * V)) : list K := map fst d.
Definition values {K V} (d : list (K * V)) : list V := map snd d.

(** [d[k]] and [d.get(k)]: [None] is [KeyError], respectively Python's
    [None]. *)
Fixpoint getitem `{EqDecision K} {V} (d : list (K * V)) (k : K) : option V :=
  match d with
  | [] => None
  | (k', v) :: d' => if decide (k' = k) then Some v else getitem d' k
  end.

(** [max(l, default=dflt)] and [min(l, default=dflt)]. *)
Definition max_default {A} (inj : Z -> A) (dflt : A) (l : list Z) : A :=
  match l with
  | [] => dflt
  | k :: ks => inj (fold_left Z.max ks k)
  end.

Definition min_default {A} (inj : Z -> A) (dflt : A) (l : list Z) : A :=
  match l with
  | [] => dflt
  | k :: ks => inj (fold_left Z.min ks k)
  end.

(** [sum(abs(amt) for amt in l)]. *)
Definition sum_abs (l : list Z) : Z :=
  fold_left (fun acc amt => acc + Z.abs amt) l 0.

(** [sorted(l)] and [sorted(l, reverse=True)] on ints. *)
Fixpoint insert_sorted (leb : Z -> Z -> bool) (x : Z) (l : list Z) : list Z :=
  match l with
  | [] => [x]
  | y :: l' => if leb x y then x :: l else y :: insert_sorted leb x l'
  end.

Definition sorted (l : list Z) : list Z :=
  fold_right (insert_sorted Z.leb) [] l.

Definition sorted_reverse (l : list Z) : list Z :=
  fold_right (insert_sorted Z.geb) [] l.

(** [l[-n:]] for a positive [n]. *)
Definition last_n {A} (n : nat) (l : list A) : list A :=
  skipn (length l - n) l.

End Py.

(** ** The exchange's data model ([datamodel]) *)

Record Order := mkOrder { symbol : string; price : Z; quantity : Z }.

(** [buy_orders] maps a bid price to a positive quantity, [sell_orders] an
    ask price to a negative quantity (the traders negate it or take its
    absolute value before use). *)
Record OrderDepth := mkOrderDepth
  { buy_orders : list (Z * Z); sell_orders : list (Z * Z) }.

(** [order_depths] is the list of [state.order_depths.items()]. *)
Record TradingState := mkTradingState
  { timestamp : Z;
    order_depths : list (string * OrderDepth);
    position : gmap string Z }.

Definition bids_positive (od : OrderDepth) : Prop :=
  Forall (fun pv => 0 < snd pv) (buy_orders od).

Definition asks_negative (od : OrderDepth) : Prop :=
  Forall (fun pv => snd pv < 0) (sell_orders od).

(** Total filled quantity if every order of the list fully fills. *)
Definition total_quantity (orders : list Order) : Z :=
  fold_right (fun o acc => quantity o + acc) 0 orders.

(** The optimistic position after every order of the list has filled. *)
Definition filled_position (current_position : Z) (orders : list Order) : Z :=
  current_position + total_quantity orders.

(** ** Specification-side book statistics *)

(** [Σ price·|qty|] and [Σ |qty|] over a list of price levels. *)
Definition abs_value (levels : list (Z * Z)) : Z :=
  fold_right (fun pv acc => fst pv * Z.abs (snd pv) + acc) 0 levels.

Definition abs_volume (levels : list (Z * Z)) : Z :=
  fold_right (fun pv acc => Z.abs (snd pv) + acc) 0 levels.

Definition all_levels (od : OrderDepth) : list (Z * Z) :=
  buy_orders od ++ sell_orders od.

Definition one_sided (od : OrderDepth) : Prop :=
  buy_orders od = [] \/ sell_orders od = [].

(** ** [calculate_vwap] ([run.py] 93-106, identical in [Run2.0.py] 111-124) *)

Definition vwap_buy_loop (d : list (Z * Z)) (acc : Z * Z) : Z * Z :=
  fold_left (fun '(total_value, total_volume) '(price, volume) =>
               (total_value + price * volume, total_volume + volume)) d acc.

Definition vwap_sell_loop (d : list (Z * Z)) (acc : Z * Z) : Z * Z :=
  fold_left (fun '(total_value, total_volume) '(price, volume) =>
               (total_value + price * Z.abs volume, total_volume + Z.abs volume)) d acc.

Definition calculate_vwap (order_depth : OrderDepth) : Q :=
  let '(total_value, total_volume) :=
    vwap_sell_loop (sell_orders order_depth)
      (vwap_buy_loop (buy_orders order_depth) (0, 0)) in
  if total_volume =? 0 then 0%Q
  else (inject_Z total_value / inject_Z total_volume)%Q.

(** The book of the specification's example. *)
Definition example_book : OrderDepth :=
  {| buy_orders := [(10, 5); (9, 3)]; sell_orders := [(11, 4)] |}.

(** ** Numpy vector helpers *)

Definition np_sum (v : list Q) : Q := fold_right Qplus 0%Q v.

(** [np.dot(a, b)] on two vectors of the same length. *)
Fixpoint np_dot (a b : list Q) : Q :=
  match a, b with
  | x :: a', y :: b' => (x * y + np_dot a' b')%Q
  | _, _ => 0%Q
  end.

(** [np.linspace(start, stop, num)]: [num] evenly spaced samples, end
    points included; a single sample is [start]. *)
Definition np_linspace (start stop : Q) (num : nat) : list Q :=
  match num with
  | 1%nat => [start]
  | _ =>
      let step := ((stop - start) / inject_Z (Z.of_nat num - 1))%Q in
      map (fun i => (start + inject_Z (Z.of_nat i) * step)%Q) (seq 0 num)
  end.

(** [weights /= weights.sum()]. *)
Definition normalize (weights : list Q) : list Q :=
  let total := np_sum weights in
  map (fun w => (w / total)%Q) weights.

(** ** Trader state shared by [run.py] and [Run2.0.py] *)

(** [self.historical_data[product]]: the three per-product series. *)
Record History := mkHistory
  { prices : list Q; spreads : list Z; volumes : list Z }.

Record Trader := mkTrader
  { fair_values : gmap string Q;
    historical_data : gmap string History;
    volatility : gmap string Q;
    spread_thresholds : gmap string Z }.

Definition empty_history : History :=
  {| prices := []; spreads := []; volumes := [] |}.

(** The trader right after [__init__]. *)
Definition new_trader : Trader :=
  {| fair_values := ∅; historical_data := ∅;
     volatility := ∅; spread_thresholds := ∅ |}.

(** The history a product has when a tick starts: the stored one, or the
    freshly initialised one for a product never seen before. *)
Definition history_of (self : Trader) (product : string) : History :=
  default empty_history (historical_data self !! product).

Definition set_fair_value (self : Trader) (product : string) (value : Q) : Trader :=
  {| fair_values := <[product := value]> (fair_values self);
     historical_data := historical_data self;
     volatility := volatility self;
     spread_thresholds := spread_thresholds self |}.

(** [max(d.buy_orders.keys()) if d.buy_orders else 0] and its ask twin. *)
Definition best_bid_or_0 (order_depth : OrderDepth) : Z :=
  Py.max_default id 0 (Py.keys (buy_orders order_depth)).

Definition best_ask_or_0 (order_depth : OrderDepth) : Z :=
  Py.min_default id 0 (Py.keys (sell_orders order_depth)).

(** [initialize_product_state] ([run.py] 59-67). *)
Definition initialize_product_state (self : Trader) (product : string) : Trader :=
  {| fair_values := fair_values self;
     historical_data := <[product := empty_history]> (historical_data self);
     volatility := <[product := 0.1%Q]> (volatility self);
     spread_thresholds := <[product := 2]> (spread_thresholds self) |}.

Definition ensure_product_state (self : Trader) (product : string) : Trader :=
  match historical_data self !! product with
  | Some _ => self
  | None => initialize_product_state self product
  end.

Section HistoryTracker.

(** [np.std(np.diff(np.log(prices))) * np.sqrt(252)]. *)
Variable np_annualized_volatility : list Q -> Q.

(** Lines 78-86: the branch taken when both best prices are truthy. *)
Definition record_mid_price (self : Trader) (product : string)
    (best_bid best_ask : Z) : Trader :=
  let mid_price := (inject_Z (best_bid + best_ask) / 2)%Q in
  let data :=
    alter (fun h => {| prices := prices h ++ [mid_price];
                       spreads := spreads h ++ [best_ask - best_bid];
                       volumes := volumes h |})
          product (historical_data self) in
  let recorded := prices (default empty_history (data !! product)) in
  {| fair_values := fair_values self;
     historical_data := data;
     volatility :=
       if (1 <? length recorded)%nat
       then <[product := np_annualized_volatility recorded]> (volatility self)
       else volatility self;
     spread_thresholds := spread_thresholds self |}.

(** Lines 88-91: the volume is recorded on every tick. *)
Definition record_volume (self : Trader) (product : string)
    (order_depth : OrderDepth) : Trader :=
  let total_volume :=
    Py.sum_abs (Py.values (buy_orders order_depth)) +
    Py.sum_abs (Py.values (sell_orders order_depth)) in
  {| fair_values := fair_values self;
     historical_data :=
       alter (fun h => {| prices := prices h; spreads := spreads h;
                          volumes := volumes h ++ [total_volume] |})
             product (historical_data self);
     volatility := volatility self;
     spread_thresholds := spread_thresholds self |}.

(** One iteration of the loop of [update_historical_data]. *)
Definition update_product (self : Trader) (product : string)
    (order_depth : OrderDepth) : Trader :=
  let self := ensure_product_state self product in
  let best_bid := best_bid_or_0 order_depth in
  let best_ask := best_ask_or_0 order_depth in
  let self :=
    if negb (best_bid =? 0) && negb (best_ask =? 0)
    then record_mid_price self product best_bid best_ask
    else self in
  record_volume self product order_depth.

(** [update_historical_data] ([run.py] 69-91, [Run2.0.py] 87-109). *)
Definition update_historical_data (self : Trader) (state : TradingState) : Trader :=
  fold_left (fun self '(product, order_depth) =>
               update_product self product order_depth)
            (order_depths state) self.

(** The history tracker run on the same snapshot for [n] ticks. *)
Definition replay_ticks (n : nat) (self : Trader) (state : TradingState) : Trader :=
  Nat.iter n (fun self => update_historical_data self state) self.

End HistoryTracker.

(** [calculate_pearls_fair_value]. *)
Definition calculate_pearls_fair_value : Q := 10000%Q.

(** ** [run.py] *)

Module Run.

Definition position_limits : gmap string Z :=
  <["PEARLS"%string := 20]> (<["BANANAS"%string := 20]> ∅).

Section Numpy.

Variable np_annualized_volatility : list Q -> Q.
Variable np_exp : Q -> Q.

(** [weights = np.exp(np.linspace(0, 1, len(prices)))], normalised
    (lines 121-122). *)
Definition recency_weights (n : nat) : list Q :=
  normalize (map np_exp (np_linspace 0 1 n)).

(** [calculate_bananas_fair_value] (lines 113-123). *)
Definition calculate_bananas_fair_value (self : Trader) (state : TradingState)
    (product : string) : option Q :=
  history ← historical_data self !! product;
  let prices := prices history in
  match prices with
  | [] => order_depth ← Py.getitem (order_depths state) product;
          Some (calculate_vwap order_depth)
  | _ => Some (np_dot prices (recency_weights (length prices)))
  end.

(** Lines 146-176.  The locals [spread] and [avg_spread] are computed by
    the source and never read; they are left out. *)
Definition market_making (self : Trader) (product : string)
    (fair_value : Q) (current_position position_limit : Z)
    (best_bid best_ask max_buy max_sell : Z) (orders : list Order)
    : option (list Order) :=
  vol ← volatility self !! product;
  let price_adjustment := (vol * 0.5)%Q in
  let my_bid := Py.round (fair_value - price_adjustment) in
  let my_ask := Py.round (fair_value + price_adjustment) in
  let my_bid := Z.min my_bid (best_bid + 1) in
  let my_ask := Z.max my_ask (best_ask - 1) in
  position_ratio ← Py.truediv current_position position_limit;
  let buy_size := Z.min 5 max_buy in
  let sell_size := Z.min 5 max_sell in
  let '(buy_size, sell_size) :=
    if Py.Qltb 0.5 position_ratio then (Z.max 1 (buy_size / 2), sell_size)
    else if Py.Qltb position_ratio (-0.5) then (buy_size, Z.max 1 (sell_size / 2))
    else (buy_size, sell_size) in
  let orders :=
    if 0 <? max_buy then orders ++ [mkOrder product my_bid buy_size] else orders in
  let orders :=
    if 0 <? max_sell then orders ++ [mkOrder product my_ask (- sell_size)] else orders in
  Some orders.

(** Lines 178-187. *)
Definition arbitrage (product : string) (order_depth : OrderDepth)
    (fair_value : Q) (best_bid best_ask max_buy max_sell : Z)
    (orders : list Order) : option (list Order) :=
  orders ←
    (if Py.Qltb (inject_Z best_ask) (fair_value * 0.999) && (0 <? max_buy) then
       volume ← Py.getitem (sell_orders order_depth) best_ask;
       let buy_quantity := Z.min (- volume) max_buy in
       Some (orders ++ [mkOrder product best_ask buy_quantity])
     else Some orders);
  if Py.Qltb (fair_value * 1.001) (inject_Z best_bid) && (0 <? max_sell) then
    volume ← Py.getitem (buy_orders order_depth) best_bid;
    let sell_quantity := Z.min volume max_sell in
    Some (orders ++ [mkOrder product best_bid (- sell_quantity)])
  else Some orders.

(** [generate_orders] (lines 125-189). *)
Definition generate_orders (self : Trader) (product : string)
    (order_depth : OrderDepth) (fair_value : Q)
    (current_position position_limit : Z) : option (list Order) :=
  let orders := [] in
  let best_bid := best_bid_or_0 order_depth in
  let best_ask := best_ask_or_0 order_depth in
  if (best_bid =? 0) || (best_ask =? 0) then Some orders
  else
    let max_buy := position_limit - current_position in
    let max_sell := position_limit + current_position in
    history ← historical_data self !! product;
    orders ←
      (if (5 <? length (prices history))%nat
       then market_making self product fair_value current_position
              position_limit best_bid best_ask max_buy max_sell orders
       else Some orders);
    arbitrage product order_depth fair_value best_bid best_ask
      max_buy max_sell orders.

(** The body of the loop of [run] (lines 28-55). *)
Definition run_product (state : TradingState)
    (acc : Trader * gmap string (list Order)) (product : string)
    : option (Trader * gmap string (list Order)) :=
  let '(self, result) := acc in
  let self := ensure_product_state self product in
  order_depth ← Py.getitem (order_depths state) product;
  fair_value ←
    (if decide (product = "PEARLS"%string) then Some calculate_pearls_fair_value
     else if decide (product = "BANANAS"%string)
          then calculate_bananas_fair_value self state product
          else Some (calculate_vwap order_depth));
  let self := set_fair_value self product fair_value in
  let position_limit := default 20 (position_limits !! product) in
  let current_position := default 0 (position state !! product) in
  orders ← generate_orders self product order_depth fair_value
             current_position position_limit;
  Some (self, match orders with [] => result | _ => <[product := orders]> result end).

(** [run] (lines 20-57). *)
Definition run (self : Trader) (state : TradingState)
    : option (Trader * (gmap string (list Order) * Z * string)) :=
  let self := update_historical_data np_annualized_volatility self state in
  '(self, result) ←
    foldl (fun acc product => acc ≫= fun acc => run_product state acc product)
          (Some (self, ∅)) (Py.keys (order_depths state));
  Some (self, (result, 0, ""%string)).

End Numpy.

End Run.

(** ** [Run2.0.py] *)

Module Run2.

Definition position_limits : gmap string Z :=
  list_to_map
    [("PEARLS"%string, 20); ("BANANAS"%string, 20); ("CROISSANT"%string, 250);
     ("JAM"%string, 350); ("DJEMBE"%string, 60);
     ("PICNIC_BASKET1"%string, 60); ("PICNIC_BASKET2"%string, 100)].

(** [self.basket_components]. *)
Definition basket_components : list (string * list (string * Z)) :=
  [("PICNIC_BASKET1"%string,
    [("CROISSANT"%string, 6); ("JAM"%string, 3); ("DJEMBE"%string, 1)]);
   ("PICNIC_BASKET2"%string,
    [("CROISSANT"%string, 4); ("JAM"%string, 2)])].

(** Specification side: [Σ multiplicity × component fair value], undefined
    as soon as one component has no fair value. *)
Fixpoint replication_value (fv : gmap string Q) (components : list (string * Z))
    : option Q :=
  match components with
  | [] => Some 0%Q
  | (component, multiplicity) :: rest =>
      value ← fv !! component;
      others ← replication_value fv rest;
      Some (inject_Z multiplicity * value + others)%Q
  end.

(** [calculate_basket_fair_values] (lines 145-160). *)
Definition calculate_basket_fair_values (self : Trader) : Trader :=
  let self :=
    match fair_values self !! "CROISSANT"%string,
          fair_values self !! "JAM"%string,
          fair_values self !! "DJEMBE"%string with
    | Some croissant, Some jam, Some djembe =>
        set_fair_value self "PICNIC_BASKET1"
          (6 * croissant + 3 * jam + djembe)%Q
    | _, _, _ => self
    end in
  match fair_values self !! "CROISSANT"%string,
        fair_values self !! "JAM"%string with
  | Some croissant, Some jam =>
      set_fair_value self "PICNIC_BASKET2" (4 * croissant + 2 * jam)%Q
  | _, _ => self
  end.

(** [generate_basket_arbitrage_orders] (lines 162-200); the four [pass]
    branches leave [orders] as it is. *)
Definition generate_basket_arbitrage_orders (self : Trader)
    : gmap string (list Order) :=
  let orders : gmap string (list Order) := ∅ in
  let orders :=
    match fair_values self !! "PICNIC_BASKET1"%string,
          fair_values self !! "CROISSANT"%string,
          fair_values self !! "JAM"%string,
          fair_values self !! "DJEMBE"%string with
    | Some basket1_value, Some croissant, Some jam, Some djembe =>
        let components_value := (6 * croissant + 3 * jam + djembe)%Q in
        if Py.Qltb (components_value * 1.005) basket1_value then orders
        else if Py.Qltb basket1_value (components_value * 0.995) then orders
        else orders
    | _, _, _, _ => orders
    end in
  let orders :=
    match fair_values self !! "PICNIC_BASKET2"%string,
          fair_values self !! "CROISSANT"%string,
          fair_values self !! "JAM"%string with
    | Some basket2_value, Some croissant, Some jam =>
        let components_value := (4 * croissant + 2 * jam)%Q in
        if Py.Qltb (components_value * 1.005) basket2_value then orders
        else if Py.Qltb basket2_value (components_value * 0.995) then orders
        else orders
    | _, _, _ => orders
    end in
  orders.

(** Line 243: [min(10, max(2, int(10 / (1 + volatility * 10))))]. *)
Definition base_size (vol : Q) : option Z :=
  scale ← Py.fdiv 10 (1 + vol * 10);
  Some (Z.min 10 (Z.max 2 (Py.int scale))).

(** Lines 223-258.  The locals [spread] and [avg_spread] are computed by
    the source and never read; they are left out. *)
Definition market_making (self : Trader) (product : string)
    (fair_value : Q) (current_position position_limit : Z)
    (best_bid best_ask max_buy max_sell : Z) (orders : list Order)
    : option (list Order) :=
  history ← historical_data self !! product;
  vol ← volatility self !! product;
  let price_adjustment := (vol * 0.7)%Q in
  last_volume ← last (volumes history);
  let '(my_bid, my_ask) :=
    if 100 <? last_volume
    then (Py.round (fair_value - price_adjustment * 0.8),
          Py.round (fair_value + price_adjustment * 0.8))
    else (Py.round (fair_value - price_adjustment),
          Py.round (fair_value + price_adjustment)) in
  let my_bid := Z.min my_bid (best_bid + 1) in
  let my_ask := Z.max my_ask (best_ask - 1) in
  base_size ← base_size vol;
  let buy_size := Z.min base_size max_buy in
  let sell_size := Z.min base_size max_sell in
  position_ratio ← Py.truediv current_position position_limit;
  let '(buy_size, sell_size) :=
    if Py.Qltb 0.6 position_ratio then (Z.max 1 (buy_size / 2), sell_size)
    else if Py.Qltb position_ratio (-0.6) then (buy_size, Z.max 1 (sell_size / 2))
    else (buy_size, sell_size) in
  let orders :=
    if (0 <? max_buy) && (0 <? my_bid)
    then orders ++ [mkOrder product my_bid buy_size] else orders in
  let orders :=
    if (0 <? max_sell) && (0 <? my_ask)
    then orders ++ [mkOrder product my_ask (- sell_size)] else orders in
  Some orders.

(** Lines 260-267. *)
Definition arbitrage (product : string) (order_depth : OrderDepth)
    (fair_value : Q) (best_bid best_ask max_buy max_sell : Z)
    (orders : list Order) : option (list Order) :=
  orders ←
    (if Py.Qltb (inject_Z best_ask) (fair_value * 0.997) && (0 <? max_buy) then
       volume ← Py.getitem (sell_orders order_depth) best_ask;
       let buy_quantity := Z.min (- volume) max_buy in
       Some (orders ++ [mkOrder product best_ask buy_quantity])
     else Some orders);
  if Py.Qltb (fair_value * 1.003) (inject_Z best_bid) && (0 <? max_sell) then
    volume ← Py.getitem (buy_orders order_depth) best_bid;
    let sell_quantity := Z.min volume max_sell in
    Some (orders ++ [mkOrder product best_bid (- sell_quantity)])
  else Some orders.

(** [generate_orders] (lines 202-269). *)
Definition generate_orders (self : Trader) (product : string)
    (order_depth : OrderDepth) (fair_value : Q)
    (current_position position_limit : Z) : option (list Order) :=
  let orders := [] in
  let best_bid := best_bid_or_0 order_depth in
  let best_ask := best_ask_or_0 order_depth in
  if (best_bid =? 0) || (best_ask =? 0) then Some orders
  else
    let max_buy := position_limit - current_position in
    let max_sell := position_limit + current_position in
    history ← historical_data self !! product;
    orders ←
      (if (5 <? length (prices history))%nat
       then market_making self product fair_value current_position
              position_limit best_bid best_ask max_buy max_sell orders
       else Some orders);
    arbitrage product order_depth fair_value best_bid best_ask
      max_buy max_sell orders.

Section Numpy.

Variable np_annualized_volatility : list Q -> Q.
Variable np_exp : Q -> Q.

(** Lines 137-142: uniform weights below five observations, otherwise
    [np.exp(np.linspace(0, 2, len(prices)))]; then normalised. *)
Definition recency_weights (n : nat) : list Q :=
  let weights :=
    if (n <? 5)%nat then repeat 1%Q n
    else map np_exp (np_linspace 0 2 n) in
  normalize weights.

(** [calculate_bananas_fair_value] (lines 130-143). *)
Definition calculate_bananas_fair_value (self : Trader) (state : TradingState)
    (product : string) : option Q :=
  history ← historical_data self !! product;
  let prices := prices history in
  match prices with
  | [] => order_depth ← Py.getitem (order_depths state) product;
          Some (calculate_vwap order_depth)
  | _ => Some (np_dot prices (recency_weights (length prices)))
  end.

(** First loop of [run] (lines 37-46). *)
Definition value_product (state : TradingState) (self : Trader)
    (product : string) : option Trader :=
  let self := ensure_product_state self product in
  order_depth ← Py.getitem (order_depths state) product;
  fair_value ←
    (if decide (product = "PEARLS"%string) then Some calculate_pearls_fair_value
     else if decide (product = "BANANAS"%string)
          then calculate_bananas_fair_value self state product
          else Some (calculate_vwap order_depth));
  Some (set_fair_value self product fair_value).

(** Second loop of [run] (lines 52-65). *)
Definition quote_product (self : Trader) (state : TradingState)
    (result : gmap string (list Order)) (product : string)
    : option (gmap string (list Order)) :=
  let position_limit := default 20 (position_limits !! product) in
  let current_position := default 0 (position state !! product) in
  order_depth ← Py.getitem (order_depths state) product;
  fair_value ← fair_values self !! product;
  orders ← generate_orders self product order_depth fair_value
             current_position position_limit;
  Some (match orders with [] => result | _ => <[product := orders]> result end).

(** Lines 68-73: [result[product].extend(orders)] or a fresh entry. *)
Definition merge_orders (result basket_arb_orders : gmap string (list Order))
    : gmap string (list Order) :=
  map_fold (fun product orders result =>
              match result !! product with
              | Some existing => <[product := existing ++ orders]> result
              | None => <[product := orders]> result
              end) result basket_arb_orders.

(** [run] (lines 28-75). *)
Definition run (self : Trader) (state : TradingState)
    : option (Trader * (gmap string (list Order) * Z * string)) :=
  let products := Py.keys (order_depths state) in
  let self := update_historical_data np_annualized_volatility self state in
  self ← foldl (fun acc product => acc ≫= fun self => value_product state self product)
               (Some self) products;
  let self := calculate_basket_fair_values self in
  result ← foldl (fun acc product =>
                    acc ≫= fun result => quote_product self state result product)
                 (Some ∅) products;
  let basket_arb_orders := generate_basket_arbitrage_orders self in
  Some (self, (merge_orders result basket_arb_orders, 0, ""%string)).

End Numpy.

End Run2.

(** ** Voucher configuration shared by [run3.py], [run5.py], [Run6.py]
    and [Run7.py] *)

Definition vouchers : list (string * Z) :=
  [("VOLCANIC_ROCK_VOUCHER_9500"%string, 9500);
   ("VOLCANIC_ROCK_VOUCHER_9750"%string, 9750);
   ("VOLCANIC_ROCK_VOUCHER_10000"%string, 10000);
   ("VOLCANIC_ROCK_VOUCHER_10250"%string, 10250);
   ("VOLCANIC_ROCK_VOUCHER_10500"%string, 10500)].

Definition voucher_position_limits : gmap string Z :=
  list_to_map
    [("VOLCANIC_ROCK"%string, 400);
     ("VOLCANIC_ROCK_VOUCHER_9500"%string, 200);
     ("VOLCANIC_ROCK_VOUCHER_9750"%string, 200);
     ("VOLCANIC_ROCK_VOUCHER_10000"%string, 200);
     ("VOLCANIC_ROCK_VOUCHER_10250"%string, 200);
     ("VOLCANIC_ROCK_VOUCHER_10500"%string, 200)].

(** ** [run3.py]: the fair value of a voucher *)

Module Run3.

(** Line 32: [7 - int(state.timestamp / 100000)]. *)
Definition time_left (timestamp : Z) : Z :=
  7 - Py.int (inject_Z timestamp / 100000).

(** Lines 33-41: the mid price of VOLCANIC_ROCK, [None] when the book is
    absent or one of its best prices is falsy. *)
Definition rock_price (state : TradingState) : option Q :=
  rock ← Py.getitem (order_depths state) "VOLCANIC_ROCK"%string;
  let best_bid := Py.max_default id 0 (Py.keys (buy_orders rock)) in
  let best_ask := Py.min_default id 0 (Py.keys (sell_orders rock)) in
  if negb (best_bid =? 0) && negb (best_ask =? 0)
  then Some (inject_Z (best_bid + best_ask) / 2)%Q
  else None.

(** Line 64. *)
Definition time_decay_factor (time_left : Z) : Q :=
  Qmax 0.2 (inject_Z time_left / 7).

(** Lines 63-65. *)
Definition fair_value (rock_price : Q) (strike time_left : Z) : Q :=
  let expected_value := Qmax 0 (rock_price - inject_Z strike) in
  (expected_value * time_decay_factor time_left)%Q.

Definition position_limits : gmap string Z :=
  list_to_map
    [("PEARLS"%string, 20); ("BANANAS"%string, 20); ("CROISSANT"%string, 250);
     ("JAM"%string, 350); ("DJEMBE"%string, 60);
     ("PICNIC_BASKET1"%string, 60); ("PICNIC_BASKET2"%string, 100);
     ("VOLCANIC_ROCK"%string, 400);
     ("VOLCANIC_ROCK_VOUCHER_9500"%string, 200);
     ("VOLCANIC_ROCK_VOUCHER_9750"%string, 200);
     ("VOLCANIC_ROCK_VOUCHER_10000"%string, 200);
     ("VOLCANIC_ROCK_VOUCHER_10250"%string, 200);
     ("VOLCANIC_ROCK_VOUCHER_10500"%string, 200)].

(** Lines 56-74: the orders of one voucher whose book is in the snapshot.
    The local [mid] is computed by the source and never read. *)
Definition voucher_orders (product : string) (order_depth : OrderDepth)
    (rock_price : Q) (strike time_left current_position limit : Z)
    : option (list Order) :=
  let best_bid := Py.max_default id 0 (Py.keys (buy_orders order_depth)) in
  let best_ask := Py.min_default id 0 (Py.keys (sell_orders order_depth)) in
  let fair_value := fair_value rock_price strike time_left in
  let orders := [] in
  orders ←
    (if negb (best_ask =? 0) && Py.Qltb (inject_Z best_ask) fair_value
        && (current_position <? limit)
     then
       resting ← Py.getitem (sell_orders order_depth) best_ask;
       let buy_vol := Z.min (limit - current_position) (- resting) in
       Some (orders ++ [mkOrder product best_ask buy_vol])
     else Some orders);
  if negb (best_bid =? 0) && Py.Qltb fair_value (inject_Z best_bid)
     && (- limit <? current_position)
  then
    resting ← Py.getitem (buy_orders order_depth) best_bid;
    let sell_vol := Z.min (limit + current_position) resting in
    Some (orders ++ [mkOrder product best_bid (- sell_vol)])
  else Some orders.

(** One iteration of the loop over the vouchers (lines 52-77). *)
Definition run_voucher (state : TradingState) (rock_price : option Q)
    (time_left : Z) (result : gmap string (list Order))
    (product : string) (strike : Z) : option (gmap string (list Order)) :=
  match Py.getitem (order_depths state) product, rock_price with
  | Some order_depth, Some rock_price =>
      let current_position := default 0 (position state !! product) in
      limit ← position_limits !! product;
      orders ← voucher_orders product order_depth rock_price strike time_left
                 current_position limit;
      Some (match orders with
            | [] => result
            | _ => <[product := orders]> result
            end)
  | _, _ => Some result
  end.

(** [run] (lines 27-79) on [self.fair_values], the only field it writes. *)
Definition run (fair_values : gmap string Q) (state : TradingState)
    : option (gmap string Q * (gmap string (list Order) * Z * string)) :=
  let time_left := time_left (timestamp state) in
  let rock_price := rock_price state in
  let fair_values :=
    match rock_price with
    | Some mid => <["VOLCANIC_ROCK"%string := mid]> fair_values
    | None => fair_values
    end in
  result ←
    foldl (fun acc '(product, strike) =>
             acc ≫= fun result =>
               run_voucher state rock_price time_left result product strike)
          (Some ∅) vouchers;
  Some (fair_values, (result, 0, ""%string)).

End Run3.

(** ** [run5.py]: level-walking voucher trader *)

Module Run5.

(** Line 22. *)
Definition time_to_expiry (timestamp : Z) : Q :=
  Qmax 0.1 (7 - inject_Z timestamp / 100000).

(** Lines 63-70: the buy loop over the ask prices still to visit; it
    returns the simulated position and the orders appended so far. *)
Fixpoint buy_loop (voucher : string) (depth : OrderDepth) (fair_price : Q)
    (limit : Z) (ask_prices : list Z) (pos : Z) (product_orders : list Order)
    : option (Z * list Order) :=
  match ask_prices with
  | [] => Some (pos, product_orders)
  | ask_price :: rest =>
      if Qle_bool (fair_price - 1.5) (inject_Z ask_price) || (limit <=? pos)
      then Some (pos, product_orders)
      else
        resting ← Py.getitem (sell_orders depth) ask_price;
        let ask_volume := - resting in
        let volume := Z.min (limit - pos) ask_volume in
        if 0 <? volume
        then buy_loop voucher depth fair_price limit rest (pos + volume)
               (product_orders ++ [mkOrder voucher ask_price volume])
        else buy_loop voucher depth fair_price limit rest pos product_orders
  end.

(** Lines 73-80: the sell loop. *)
Fixpoint sell_loop (voucher : string) (depth : OrderDepth) (fair_price : Q)
    (limit : Z) (bid_prices : list Z) (pos : Z) (product_orders : list Order)
    : option (Z * list Order) :=
  match bid_prices with
  | [] => Some (pos, product_orders)
  | bid_price :: rest =>
      if Qle_bool (inject_Z bid_price) (fair_price + 1.5) || (pos <=? - limit)
      then Some (pos, product_orders)
      else
        bid_volume ← Py.getitem (buy_orders depth) bid_price;
        let volume := Z.min (limit + pos) bid_volume in
        if 0 <? volume
        then sell_loop voucher depth fair_price limit rest (pos - volume)
               (product_orders ++ [mkOrder voucher bid_price (- volume)])
        else sell_loop voucher depth fair_price limit rest pos product_orders
  end.

(** Lines 58-59. *)
Definition fair_price (rock_mid_price : Q) (strike : Z) (decay_factor : Q) : Q :=
  let intrinsic_value := Qmax 0 (rock_mid_price - inject_Z strike) in
  (intrinsic_value * decay_factor)%Q.

(** Lines 55-80: the orders of one voucher. *)
Definition voucher_orders (voucher : string) (depth : OrderDepth)
    (fair_price : Q) (pos limit : Z) : option (list Order) :=
  let product_orders := [] in
  '(pos, product_orders) ←
    buy_loop voucher depth fair_price limit
      (Py.sorted (Py.keys (sell_orders depth))) pos product_orders;
  '(pos, product_orders) ←
    sell_loop voucher depth fair_price limit
      (Py.sorted_reverse (Py.keys (buy_orders depth))) pos product_orders;
  Some product_orders.

Section Math.

Variable math_exp : Q -> Q.

(** Line 23. *)
Definition decay_factor (time_to_expiry : Q) : Q :=
  math_exp (-1.5 * (1 - time_to_expiry / 7)).

(** One iteration of the loop over the vouchers (lines 48-83). *)
Definition run_voucher (state : TradingState) (rock_mid_price decay : Q)
    (orders : gmap string (list Order)) (voucher : string) (strike : Z)
    : option (gmap string (list Order)) :=
  match Py.getitem (order_depths state) voucher with
  | None => Some orders
  | Some depth =>
      let pos := default 0 (position state !! voucher) in
      limit ← voucher_position_limits !! voucher;
      product_orders ←
        voucher_orders voucher depth (fair_price rock_mid_price strike decay)
          pos limit;
      Some (match product_orders with
            | [] => orders
            | _ => <[voucher := product_orders]> orders
            end)
  end.

(** [run] (lines 16-85). *)
Definition run (state : TradingState)
    : option (gmap string (list Order) * Z * string) :=
  let decay := decay_factor (time_to_expiry (timestamp state)) in
  match Py.getitem (order_depths state) "VOLCANIC_ROCK"%string with
  | None => Some (∅, 0, ""%string)
  | Some rock_depth =>
      let buy_prices := Py.sorted_reverse (Py.keys (buy_orders rock_depth)) in
      let sell_prices := Py.sorted (Py.keys (sell_orders rock_depth)) in
      match buy_prices, sell_prices with
      | best_bid :: _, best_ask :: _ =>
          let rock_mid_price := (inject_Z (best_bid + best_ask) / 2)%Q in
          orders ←
            foldl (fun acc '(voucher, strike) =>
                     acc ≫= fun orders =>
                       run_voucher state rock_mid_price decay orders voucher strike)
                  (Some ∅) vouchers;
          Some (orders, 0, ""%string)
      | _, _ => Some (∅, 0, ""%string)
      end
  end.

End Math.

End Run5.

(** ** [Run6.py]: the voucher part *)

Module Run6.

(** Lines 59-67: the buy loop. *)
Fixpoint buy_loop (voucher : string) (depth : OrderDepth) (fair_price : Q)
    (limit : Z) (asks : list Z) (pos : Z) (product_orders : list Order)
    : option (Z * list Order) :=
  match asks with
  | [] => Some (pos, product_orders)
  | ask :: rest =>
      if limit <=? pos then Some (pos, product_orders)
      else if Py.Qltb (fair_price - 1.5) (inject_Z ask) then Some (pos, product_orders)
      else
        resting ← Py.getitem (sell_orders depth) ask;
        let volume := Z.min (- resting) (limit - pos) in
        if 0 <? volume
        then buy_loop voucher depth fair_price limit rest (pos + volume)
               (product_orders ++ [mkOrder voucher ask volume])
        else buy_loop voucher depth fair_price limit rest pos product_orders
  end.

(** Lines 70-78: the sell loop. *)
Fixpoint sell_loop (voucher : string) (depth : OrderDepth) (fair_price : Q)
    (limit : Z) (bids : list Z) (pos : Z) (product_orders : list Order)
    : option (Z * list Order) :=
  match bids with
  | [] => Some (pos, product_orders)
  | bid :: rest =>
      if pos <=? - limit then Some (pos, product_orders)
      else if Py.Qltb (inject_Z bid) (fair_price + 1.5) then Some (pos, product_orders)
      else
        resting ← Py.getitem (buy_orders depth) bid;
        let volume := Z.min resting (limit + pos) in
        if 0 <? volume
        then sell_loop voucher depth fair_price limit rest (pos - volume)
               (product_orders ++ [mkOrder voucher bid (- volume)])
        else sell_loop voucher depth fair_price limit rest pos product_orders
  end.

(** Lines 54-55. *)
Definition fair_price (rock_mid_price : Q) (strike : Z) (decay_factor : Q) : Q :=
  let intrinsic_value := Qmax 0 (rock_mid_price - inject_Z strike) in
  (intrinsic_value * decay_factor)%Q.

(** Lines 52-78: the orders of one voucher. *)
Definition voucher_orders (voucher : string) (depth : OrderDepth)
    (fair_price : Q) (pos limit : Z) : option (list Order) :=
  let product_orders := [] in
  '(pos, product_orders) ←
    buy_loop voucher depth fair_price limit
      (Py.sorted (Py.keys (sell_orders depth))) pos product_orders;
  '(pos, product_orders) ←
    sell_loop voucher depth fair_price limit
      (Py.sorted_reverse (Py.keys (buy_orders depth))) pos product_orders;
  Some product_orders.

Definition position_limits : gmap string Z :=
  list_to_map
    [("VOLCANIC_ROCK"%string, 400);
     ("VOLCANIC_ROCK_VOUCHER_9500"%string, 200);
     ("VOLCANIC_ROCK_VOUCHER_9750"%string, 200);
     ("VOLCANIC_ROCK_VOUCHER_10000"%string, 200);
     ("VOLCANIC_ROCK_VOUCHER_10250"%string, 200);
     ("VOLCANIC_ROCK_VOUCHER_10500"%string, 200);
     ("MAGNIFICENT_MACARONS"%string, 75)].

(** Lines 26-33: the rock mid price, [None] without a two-sided book. *)
Definition rock_mid_price (state : TradingState) : option Q :=
  match Py.getitem (order_depths state) "VOLCANIC_ROCK"%string with
  | None => None
  | Some rock_depth =>
      match Py.sorted_reverse (Py.keys (buy_orders rock_depth)),
            Py.sorted (Py.keys (sell_orders rock_depth)) with
      | best_bid :: _, best_ask :: _ => Some (inject_Z (best_bid + best_ask) / 2)%Q
      | _, _ => None
      end
  end.

(** Lines 83-117: the conversion count for MAGNIFICENT_MACARONS, starting
    from the [conversions = 0] of line 19. *)
Definition macaron_conversions (state : TradingState) : option Z :=
  let conversions := 0 in
  match Py.getitem (order_depths state) "MAGNIFICENT_MACARONS"%string with
  | None => Some conversions
  | Some mac_depth =>
      let pos := default 0 (position state !! "MAGNIFICENT_MACARONS"%string) in
      limit ← position_limits !! "MAGNIFICENT_MACARONS"%string;
      let max_convert := 10 in
      match Py.sorted_reverse (Py.keys (buy_orders mac_depth)),
            Py.sorted (Py.keys (sell_orders mac_depth)) with
      | best_bid :: _, best_ask :: _ =>
          let mid_price := (inject_Z (best_bid + best_ask) / 2)%Q in
          let effective_buy := (inject_Z best_ask + 1 + 1 + 0.1)%Q in
          conversions ←
            (if Py.Qltb effective_buy mid_price && (pos <? limit) then
               resting ← Py.getitem (sell_orders mac_depth) best_ask;
               let volume := Z.min max_convert (Z.min (limit - pos) (- resting)) in
               Some (if 0 <? volume then conversions + volume else conversions)
             else Some conversions);
          let effective_sell := (inject_Z best_bid - 1 - 1)%Q in
          if Py.Qltb mid_price effective_sell && (- limit <? pos) then
            resting ← Py.getitem (buy_orders mac_depth) best_bid;
            let volume := Z.min max_convert (Z.min (limit + pos) resting) in
            Some (if 0 <? volume then conversions - volume else conversions)
          else Some conversions
      | _, _ => Some conversions
      end
  end.

Section Math.

Variable math_exp : Q -> Q.

(** Lines 23-24. *)
Definition decay_factor (timestamp : Z) : Q :=
  let time_to_expiry := Qmax 0.1 (7 - inject_Z timestamp / 100000) in
  math_exp (-1.5 * (1 - time_to_expiry / 7)).

(** One iteration of the loop over the vouchers (lines 45-81). *)
Definition run_voucher (state : TradingState) (rock_mid_price decay : Q)
    (orders : gmap string (list Order)) (voucher : string) (strike : Z)
    : option (gmap string (list Order)) :=
  match Py.getitem (order_depths state) voucher with
  | None => Some orders
  | Some depth =>
      let pos := default 0 (position state !! voucher) in
      limit ← position_limits !! voucher;
      product_orders ←
        voucher_orders voucher depth (fair_price rock_mid_price strike decay)
          pos limit;
      Some (match product_orders with
            | [] => orders
            | _ => <[voucher := product_orders]> orders
            end)
  end.

(** [run] (lines 17-119); a rock mid price of zero is falsy and skips the
    vouchers like a missing one. *)
Definition run (state : TradingState)
    : option (gmap string (list Order) * Z * string) :=
  let decay := decay_factor (timestamp state) in
  orders ←
    match rock_mid_price state with
    | Some mid =>
        if Qeq_bool mid 0 then Some ∅
        else foldl (fun acc '(voucher, strike) =>
                      acc ≫= fun orders =>
                        run_voucher state mid decay orders voucher strike)
                   (Some ∅) vouchers
    | None => Some ∅
    end;
  conversions ← macaron_conversions state;
  Some (orders, conversions, ""%string).

End Math.

End Run6.

(** ** [Run7.py]: bounded price log and premium fair value *)

Module Run7.

(** Line 30: [max(1, 7 - int(state.timestamp / 100000))]. *)
Definition days_left (timestamp : Z) : Z :=
  Z.max 1 (7 - Py.int (inject_Z timestamp / 100000)).

(** [get_mid_price] (lines 91-94); the argument is [None] for a missing
    book. *)
Definition get_mid_price (order_depth : option OrderDepth) : option Q :=
  match order_depth with
  | None => None
  | Some depth =>
      match Py.keys (buy_orders depth), Py.keys (sell_orders depth) with
      | bid :: bids, ask :: asks =>
          Some (inject_Z (fold_left Z.max bids bid + fold_left Z.min asks ask) / 2)%Q
      | _, _ => None
      end
  end.

(** [log_price] (lines 96-101) on [self.history]. *)
Definition log_price (history : gmap string (list Q)) (product : string)
    (price : Q) : gmap string (list Q) :=
  let history :=
    match history !! product with
    | Some _ => history
    | None => <[product := []]> history
    end in
  let history := alter (fun log => log ++ [price]) product history in
  if (300 <? length (default [] (history !! product)))%nat
  then alter (Py.last_n 300) product history
  else history.

(** A run of [log_price] calls, oldest first. *)
Definition log_prices (history : gmap string (list Q))
    (events : list (string * Q)) : gmap string (list Q) :=
  fold_left (fun history '(product, price) => log_price history product price)
            events history.

(** The prices logged for one product, in logging order. *)
Definition logged_for (product : string) (events : list (string * Q)) : list Q :=
  map snd (filter (fun event => fst event = product) events).

Section Math.

(** [x ** y] on floats. *)
Variable py_pow : Q -> Q -> Q.

(** [calculate_fair_value] (lines 85-89). *)
Definition calculate_fair_value (spot : Q) (strike tte : Z) : Q :=
  let intrinsic := Qmax 0 (spot - inject_Z strike) in
  let time_value := py_pow (inject_Z tte / 7) 1.5 in
  (intrinsic * time_value + 5)%Q.

End Math.

(** The two fields of the trader that [run] writes. *)
Record Self := mkSelf { history : gmap string (list Q); pnl : Q }.

(** [z > 1] for [z = num / std_dev].  The divisor is the fallback [3] or a
    numpy float; numpy divides by zero without raising (the quotient is
    [inf], [-inf] or [nan]), and only [inf] is above 1. *)
Definition z_above_1 (num std_dev : Q) : bool :=
  if Qeq_bool std_dev 0 then Py.Qltb 0 num
  else Py.Qltb 1 (num / std_dev).

Section Trading.

(** [x ** y], [np.std] and the f-string of line 82. *)
Variable py_pow : Q -> Q -> Q.
Variable np_std : list Q -> Q.
Variable format_trader_data : Q -> Q -> Q -> string.

(** [get_std_dev] (lines 103-107). *)
Definition get_std_dev (history : gmap string (list Q)) (product : string)
    (fallback : Q) : Q :=
  let prices := default [] (history !! product) in
  if (length prices <? 20)%nat then fallback
  else np_std (Py.last_n 20 prices).

(** Lines 56-70: the orders of one voucher and the realized PnL after
    booking them. *)
Definition voucher_actions (voucher : string) (order_depth : OrderDepth)
    (best_bid best_ask : Z) (fair_value std_dev : Q) (pos limit : Z) (pnl : Q)
    : option (list Order * Q) :=
  let z_buy := z_above_1 (fair_value - inject_Z best_ask) std_dev in
  let z_sell := z_above_1 (inject_Z best_bid - fair_value) std_dev in
  let action_list := [] in
  '(action_list, pnl) ←
    (if z_buy && (pos <? limit) then
       resting ← Py.getitem (sell_orders order_depth) best_ask;
       let qty := Z.min (limit - pos) (- resting) in
       Some (if 0 <? qty
             then (action_list ++ [mkOrder voucher best_ask qty],
                   (pnl - inject_Z (best_ask * qty))%Q)
             else (action_list, pnl))
     else Some (action_list, pnl));
  if z_sell && (- limit <? pos) then
    resting ← Py.getitem (buy_orders order_depth) best_bid;
    let qty := Z.min (pos + limit) resting in
    Some (if 0 <? qty
          then (action_list ++ [mkOrder voucher best_bid (- qty)],
                (pnl + inject_Z (best_bid * qty))%Q)
          else (action_list, pnl))
  else Some (action_list, pnl).

(** One iteration of the loop over the vouchers (lines 35-73). *)
Definition run_voucher (state : TradingState) (rock_price : option Q)
    (days_left : Z) (acc : Self * gmap string (list Order))
    (voucher : string) (strike : Z)
    : option (Self * gmap string (list Order)) :=
  let '(self, orders) := acc in
  match Py.getitem (order_depths state) voucher, rock_price with
  | Some order_depth, Some rock_price =>
      match Py.max_default Some None (Py.keys (buy_orders order_depth)),
            Py.min_default Some None (Py.keys (sell_orders order_depth)) with
      | Some best_bid, Some best_ask =>
          let pos := default 0 (position state !! voucher) in
          limit ← voucher_position_limits !! voucher;
          let fair_value := calculate_fair_value py_pow rock_price strike days_left in
          let history :=
            log_price (history self) voucher (inject_Z (best_ask + best_bid) / 2) in
          let std_dev := get_std_dev history voucher 3 in
          '(action_list, pnl) ←
            voucher_actions voucher order_depth best_bid best_ask fair_value
              std_dev pos limit (pnl self);
          Some (mkSelf history pnl,
                match action_list with
                | [] => orders
                | _ => <[voucher := action_list]> orders
                end)
      | _, _ => Some acc
      end
  | _, _ => Some acc
  end.

(** Lines 76-80: the floating PnL. *)
Definition float_pnl (state : TradingState) : Q :=
  fold_left
    (fun float_pnl '(voucher, strike) =>
       match get_mid_price (Py.getitem (order_depths state) voucher) with
       | Some mid =>
           if Qeq_bool mid 0 then float_pnl
           else (float_pnl
                 + mid * inject_Z (default 0%Z (position state !! voucher)))%Q
       | None => float_pnl
       end)
    vouchers 0%Q.

(** [run] (lines 25-83). *)
Definition run (self : Self) (state : TradingState)
    : option (Self * (gmap string (list Order) * Z * string)) :=
  let orders := ∅ in
  let conversions := 0 in
  let days_left := days_left (timestamp state) in
  let rock_price :=
    get_mid_price (Py.getitem (order_depths state) "VOLCANIC_ROCK"%string) in
  let self :=
    match rock_price with
    | Some price =>
        if Qeq_bool price 0 then self
        else mkSelf (log_price (history self) "VOLCANIC_ROCK"%string price)
                    (pnl self)
    | None => self
    end in
  '(self, orders) ←
    foldl (fun acc '(voucher, strike) =>
             acc ≫= fun acc =>
               run_voucher state rock_price days_left acc voucher strike)
          (Some (self, orders)) vouchers;
  let float_pnl := float_pnl state in
  let trader_data :=
    format_trader_data (pnl self) float_pnl (pnl self + float_pnl)%Q in
  Some (self, (orders, conversions, trader_data)).

End Trading.

End Run7.

(** ** [run8.py]: a fixed-width market maker *)

Module Run8.

Definition position_limits : gmap string Z :=
  list_to_map
    [("PEARLS"%string, 20); ("BANANAS"%string, 20);
     ("VOLCANIC_ROCK"%string, 400)].

(** Lines 27-39: the quotes of one product from its best prices. *)
Definition quotes (product : string) (best_bid best_ask position limit : Z)
    : list Order :=
  let mid_price := (inject_Z (best_bid + best_ask) / 2)%Q in
  let orders := [] in
  let fair_buy := Py.int (mid_price - 1) in
  let fair_sell := Py.int (mid_price + 1) in
  let buy_qty := Z.min 5 (limit - position) in
  let sell_qty := Z.min 5 (limit + position) in
  let orders :=
    if 0 <? buy_qty then orders ++ [mkOrder product fair_buy buy_qty]
    else orders in
  let orders :=
    if 0 <? sell_qty then orders ++ [mkOrder product fair_sell (- sell_qty)]
    else orders in
  orders.

(** One iteration of the loop over the books (lines 18-41); the entry is
    stored without looking at the order list. *)
Definition run_product (state : TradingState)
    (result : gmap string (list Order)) (product : string)
    (order_depth : OrderDepth) : gmap string (list Order) :=
  let position := default 0 (position state !! product) in
  let limit := default 20 (position_limits !! product) in
  match Py.keys (buy_orders order_depth), Py.keys (sell_orders order_depth) with
  | bid :: bids, ask :: asks =>
      let best_bid := fold_left Z.max bids bid in
      let best_ask := fold_left Z.min asks ask in
      <[product := quotes product best_bid best_ask position limit]> result
  | _, _ => result
  end.

(** [run] (lines 13-43); no operation of it can raise. *)
Definition run (state : TradingState) : gmap string (list Order) * Z * string :=
  let result :=
    foldl (fun result '(product, order_depth) =>
             run_product state result product order_depth)
          ∅ (order_depths state) in
  (result, 0, ""%string).

End Run8.

(** ** [Run4.py]: vouchers at the touch, continuous decay *)

Module Run4.

Definition position_limits : gmap string Z :=
  list_to_map
    [("PEARLS"%string, 20); ("BANANAS"%string, 20); ("CROISSANT"%string, 250);
     ("JAM"%string, 350); ("DJEMBE"%string, 60);
     ("PICNIC_BASKET1"%string, 60); ("PICNIC_BASKET2"%string, 100);
     ("VOLCANIC_ROCK"%string, 400);
     ("VOLCANIC_ROCK_VOUCHER_9500"%string, 200);
     ("VOLCANIC_ROCK_VOUCHER_9750"%string, 200);
     ("VOLCANIC_ROCK_VOUCHER_10000"%string, 200);
     ("VOLCANIC_ROCK_VOUCHER_10250"%string, 200);
     ("VOLCANIC_ROCK_VOUCHER_10500"%string, 200)].

(** Line 29. *)
Definition time_left (timestamp : Z) : Q :=
  Qmax 0.1 (7 - inject_Z timestamp / 100000).

(** Line 51. *)
Definition decay (time_left : Q) : Q := Qmax 0.2 (time_left / 7).

(** Line 64. *)
Definition fair_value (rock_mid : Q) (strike_price : Z) (decay : Q) : Q :=
  (Qmax 0 (rock_mid - inject_Z strike_price) * decay)%Q.

(** [max(d.keys(), default=None)] and [min(d.keys(), default=None)]. *)
Definition best_bid (depth : OrderDepth) : option Z :=
  Py.max_default Some None (Py.keys (buy_orders depth)).

Definition best_ask (depth : OrderDepth) : option Z :=
  Py.min_default Some None (Py.keys (sell_orders depth)).

(** Lines 67-79: the orders of one voucher from its best prices. *)
Definition voucher_orders (product : string) (depth : OrderDepth)
    (bid ask : option Z) (fair_value : Q) (pos limit : Z)
    : option (list Order) :=
  let product_orders := [] in
  product_orders ←
    match ask with
    | Some ask =>
        if Py.Qltb (inject_Z ask) fair_value && (pos <? limit) then
          resting ← Py.getitem (sell_orders depth) ask;
          let volume := Z.min (limit - pos) (- resting) in
          Some (if 0 <? volume
                then product_orders ++ [mkOrder product ask volume]
                else product_orders)
        else Some product_orders
    | None => Some product_orders
    end;
  match bid with
  | Some bid =>
      if Py.Qltb fair_value (inject_Z bid) && (- limit <? pos) then
        resting ← Py.getitem (buy_orders depth) bid;
        let volume := Z.min (limit + pos) resting in
        Some (if 0 <? volume
              then product_orders ++ [mkOrder product bid (- volume)]
              else product_orders)
      else Some product_orders
  | None => Some product_orders
  end.

(** One iteration of the loop over the vouchers (lines 53-82). *)
Definition run_voucher (state : TradingState) (rock_mid decay : Q)
    (orders : gmap string (list Order)) (product : string) (strike_price : Z)
    : option (gmap string (list Order)) :=
  match Py.getitem (order_depths state) product with
  | None => Some orders
  | Some depth =>
      let bid := best_bid depth in
      let ask := best_ask depth in
      match bid, ask with
      | None, None => Some orders
      | _, _ =>
          let fair_value := fair_value rock_mid strike_price decay in
          let pos := default 0 (position state !! product) in
          limit ← position_limits !! product;
          product_orders ←
            voucher_orders product depth bid ask fair_value pos limit;
          Some (match product_orders with
                | [] => orders
                | _ => <[product := product_orders]> orders
                end)
      end
  end.

(** [run] (lines 24-84) on [self.fair_values], the only field it writes. *)
Definition run (fair_values : gmap string Q) (state : TradingState)
    : option (gmap string Q * (gmap string (list Order) * Z * string)) :=
  let time_left := time_left (timestamp state) in
  match Py.getitem (order_depths state) "VOLCANIC_ROCK"%string with
  | None => Some (fair_values, (∅, 0, ""%string))
  | Some rock_depth =>
      match best_bid rock_depth, best_ask rock_depth with
      | Some rock_bid, Some rock_ask =>
          let rock_mid := (inject_Z (rock_bid + rock_ask) / 2)%Q in
          let fair_values := <["VOLCANIC_ROCK"%string := rock_mid]> fair_values in
          let decay := decay time_left in
          orders ←
            foldl (fun acc '(product, strike_price) =>
                     acc ≫= fun orders =>
                       run_voucher state rock_mid decay orders product strike_price)
                  (Some ∅) vouchers;
          Some (fair_values, (orders, 0, ""%string))
      | _, _ => Some (fair_values, (∅, 0, ""%string))
      end
  end.

End Run4.

(** ** Concrete ticks used as examples *)

(** A PEARLS book with asks only. *)
Definition asks_only_book : OrderDepth :=
  {| buy_orders := []; sell_orders := [(10002, -7); (10004, -3)] |}.

Definition asks_only_state : TradingState :=
  {| timestamp := 0;
     order_depths := [("PEARLS"%string, asks_only_book)];
     position := ∅ |}.

(** A two-sided PEARLS book whose best ask (9960) lies more than 0.3%
    below the fair value 10000, with 40 units resting there. *)
Definition cheap_ask_book : OrderDepth :=
  {| buy_orders := [(9955, 5)]; sell_orders := [(9960, -40)] |}.

Definition cheap_ask_state (current_position : Z) : TradingState :=
  {| timestamp := 0;
     order_depths := [("PEARLS"%string, cheap_ask_book)];
     position := <["PEARLS"%string := current_position]> ∅ |}.

(** Numpy's volatility estimate on the examples, whose mid price never
    moves: the log-returns are all zero and so is their standard
    deviation. *)
Definition flat_volatility (prices : list Q) : Q := 0%Q.

(** The trader after six ticks on that book: enough history for market
    making. *)
Definition warm_trader : Trader :=
  replay_ticks flat_volatility 6 new_trader (cheap_ask_state 0).

(** The order-level position limit of the specification: a quantity between
    [-max_sell] and [max_buy]. *)
Definition within_capacity (current_position position_limit : Z) (o : Order) : Prop :=
  - (position_limit + current_position) <= quantity o
  <= position_limit - current_position.

(** The aggregate reading: all orders of the tick fill and the position
    stays within the limit. *)
Definition aggregate_within_limit (current_position position_limit : Z)
    (orders : list Order) : Prop :=
  Z.abs (filled_position current_position orders) <= position_limit.

(** What one tick of [generate_orders] guarantees, in either file: every
    order fits the capacity of its side, so it keeps the position within the
    limit when it fills alone; the tick as a whole holds at most a
    market-making and an arbitrage order per side. *)
Definition tick_bounds (pos limit : Z) (orders : list Order) : Prop :=
  Forall (fun o => within_capacity pos limit o /\ Z.abs (pos + quantity o) <= limit)
         orders /\
  - 2 * (limit + pos) <= total_quantity orders <= 2 * (limit - pos).

(** The orders [run.py] emits on [cheap_ask_book] at position -20, and
    those of [Run2.0.py], whose base size is 10 at volatility 0. *)
Definition cheap_ask_orders : list Order :=
  [mkOrder "PEARLS" 9956 5; mkOrder "PEARLS" 9960 40].

Definition cheap_ask_orders2 : list Order :=
  [mkOrder "PEARLS" 9956 10; mkOrder "PEARLS" 9960 40].



(** Component fair values of the specification's basket example. *)
Definition basket_example_trader : Trader :=
  set_fair_value (set_fair_value (set_fair_value new_trader "CROISSANT" 100)
                    "JAM" 200) "DJEMBE" 50.

(** A tick that quotes CROISSANT, JAM and PICNIC_BASKET1 but not DJEMBE. *)
Definition djembe_missing_state : TradingState :=
  {| timestamp := 0;
     order_depths :=
       [("CROISSANT"%string,
         {| buy_orders := [(4300, 10)]; sell_orders := [(4302, -10)] |});
        ("JAM"%string,
         {| buy_orders := [(6500, 10)]; sell_orders := [(6502, -10)] |});
        ("PICNIC_BASKET1"%string,
         {| buy_orders := [(59000, 5)]; sell_orders := [(59010, -5)] |})];
     position := ∅ |}.

(** The simulated position stays within the limit after each order of the
    list, taken in emission order. *)
Fixpoint within_limit_along (pos limit : Z) (orders : list Order) : Prop :=
  match orders with
  | [] => True
  | o :: rest =>
      - limit <= pos + quantity o <= limit /\
      within_limit_along (pos + quantity o) limit rest
  end.

(** Every prefix of the emitted list, fully filled, keeps the position
    within the limit. *)
Definition prefixes_within_limit (pos limit : Z) (orders : list Order) : Prop :=
  forall n : nat, - limit <= pos + total_quantity (firstn n orders) <= limit.

(** A voucher book with two ask levels below and two bid levels above a fair
    price of 100. *)
Definition voucher_book : OrderDepth :=
  {| buy_orders := [(120, 150); (110, 300)];
     sell_orders := [(90, -250); (80, -100)] |}.

(** What a loop hands over: the orders it appended keep the simulated
    position, which it returns, within the limit at every step. *)
Definition loop_result (pos limit : Z) (orders0 : list Order)
    (result : Z * list Order) : Prop :=
  exists extra,
    snd result = orders0 ++ extra /\
    fst result = pos + total_quantity extra /\
    within_limit_along pos limit extra /\
    - limit <= fst result <= limit.

(** The prefix bound read on an entry of the result of [run] of [run5.py],
    with the position and the limit [run] itself looks up. *)
Definition run5_entry_safe (state : TradingState) (voucher : string)
    (orders : list Order) : Prop :=
  forall limit,
    voucher_position_limits !! voucher = Some limit ->
    - limit <= default 0 (position state !! voucher) <= limit ->
    prefixes_within_limit (default 0 (position state !! voucher)) limit orders.

(** Two rock prices and one voucher price logged by [Run7.py]. *)
Definition rock_log : list (string * Q) :=
  [("VOLCANIC_ROCK"%string, 10000%Q);
   ("VOLCANIC_ROCK_VOUCHER_9500"%string, 505%Q);
   ("VOLCANIC_ROCK"%string, (20003 # 2)%Q)].

(** Monotone stand-ins for [math.exp] / [np.exp] and for [x ** y], used to
    run the examples: the tangent of the exponential at 0, and a product. *)
Definition exp_stand_in (x : Q) : Q := (1 + x)%Q.

Definition pow_stand_in (x y : Q) : Q := (x * y)%Q.

(** ** Shapes of a weight vector *)

Definition normalized (w : list Q) : Prop := (np_sum w == 1)%Q.

Definition uniform (w : list Q) : Prop :=
  Forall (fun x => (x == 1 / inject_Z (Z.of_nat (length w)))%Q) w.

(** Later observations weigh strictly more. *)
Definition increasing (w : list Q) : Prop :=
  forall i j : nat, (i < j < length w)%nat -> (nth i w 0 < nth j w 0)%Q.

(** The weights are the exponential of the evenly spaced grid
    [linspace(0, stop, len(w))], divided by their sum. *)
Definition exponential_on (np_exp : Q -> Q) (stop : Q) (w : list Q) : Prop :=
  let grid := np_linspace 0 stop (length w) in
  forall i : nat,
    (i < length w)%nat ->
    nth i w 0%Q = (np_exp (nth i grid 0) / np_sum (map np_exp grid))%Q.

(** A trader holding two BANANAS mid prices. *)
Definition two_price_history : History :=
  {| prices := [4950%Q; 4952%Q]; spreads := [2; 2]; volumes := [30; 30] |}.

Definition two_price_trader : Trader :=
  {| fair_values := ∅;
     historical_data := <["BANANAS"%string := two_price_history]> ∅;
     volatility := <["BANANAS"%string := 0.1%Q]> ∅;
     spread_thresholds := <["BANANAS"%string := 2]> ∅ |}.

(** ** Further specification-side definitions *)

(** The stored series of every product stay aligned: one spread per mid
    price, at least one volume per mid price, and a volatility entry next
    to every history. *)
Definition history_consistent (self : Trader) : Prop :=
  forall (product : string) (h : History),
    historical_data self !! product = Some h ->
    length (prices h) = length (spreads h) /\
    (length (prices h) <= length (volumes h))%nat /\
    is_Some (volatility self !! product).

(** Quantity bought, respectively sold, if every order of the list fills:
    what the exchange compares with the remaining capacity of each side. *)
Definition buy_total (orders : list Order) : Z :=
  fold_right (fun o acc => Z.max (quantity o) 0 + acc) 0 orders.

Definition sell_total (orders : list Order) : Z :=
  fold_right (fun o acc => Z.max (- quantity o) 0 + acc) 0 orders.

(** Both sides of a tick's orders fit the position limit. *)
Definition sides_within_limit (pos limit : Z) (orders : list Order) : Prop :=
  pos + buy_total orders <= limit /\ - limit <= pos - sell_total orders.

(** A two-sided PEARLS tick: best bid 9998, best ask 10002. *)
Definition two_sided_book : OrderDepth :=
  {| buy_orders := [(9996, 20); (9998, 4)];
     sell_orders := [(10002, -6); (10005, -15)] |}.

Definition two_sided_state : TradingState :=
  {| timestamp := 100;
     order_depths := [("PEARLS"%string, two_sided_book);
                      ("BANANAS"%string, cheap_ask_book)];
     position := <["PEARLS"%string := 3]> ∅ |}.

(** What an entry of the result of [run] of [run.py] guarantees: a
    non-empty order list for a product of the snapshot whose book has both
    sides, within the bounds of [tick_bounds] at the product's position and
    the limit 20 that [run] uses for every product. *)
Definition run_entry_ok (state : TradingState) (product : string)
    (orders : list Order) : Prop :=
  orders <> [] /\
  exists od,
    Py.getitem (order_depths state) product = Some od /\
    buy_orders od <> [] /\ sell_orders od <> [] /\
    let pos := default 0 (position state !! product) in
    (bids_positive od -> asks_negative od -> - 20 <= pos <= 20 ->
     tick_bounds pos 20 orders).


(** A market-making quote no more aggressive than one tick inside the
    observed book. *)
Definition quote_clamped (product : string) (best_bid best_ask : Z) (o : Order) : Prop :=
  symbol o = product /\
  (0 < quantity o -> price o <= best_bid + 1) /\
  (quantity o < 0 -> best_ask - 1 <= price o) /\
  quantity o <> 0.


(** The market-making orders of [run.py] on [cheap_ask_book] at position 15
    of 20. *)
Definition long_position_quotes : list Order :=
  [mkOrder "PEARLS" 9956 2; mkOrder "PEARLS" 10000 (-5)].

(** An entry of the result of [run] of [run3.py]: the non-empty order list
    that [voucher_orders] computes for a listed voucher whose book is in
    the snapshot, from the rock mid price of the tick and the limit 200. *)
Definition run3_entry_ok (state : TradingState) (product : string)
    (orders : list Order) : Prop :=
  orders <> [] /\
  exists od strike rock,
    In (product, strike) vouchers /\
    Py.getitem (order_depths state) product = Some od /\
    Run3.rock_price state = Some rock /\
    Run3.voucher_orders product od rock strike (Run3.time_left (timestamp state))
      (default 0 (position state !! product)) 200 = Some orders.

(** An order of the level-walking loops keeps the profit margin of 1.5: a
    buy lifts an ask 1.5 or more below the fair price, a sell hits a bid
    1.5 or more above it ([within] is [<] where the source breaks on [>=],
    [<=] where it breaks on [>]), and neither is larger than the quantity
    resting at its price. *)
Definition margin_order (within : Q -> Q -> Prop) (depth : OrderDepth)
    (fair_price : Q) (o : Order) : Prop :=
  (0 < quantity o ->
   within (inject_Z (price o)) (fair_price - 1.5)%Q /\
   exists resting, Py.getitem (sell_orders depth) (price o) = Some resting /\
                   quantity o <= - resting) /\
  (quantity o < 0 ->
   within (fair_price + 1.5)%Q (inject_Z (price o)) /\
   exists resting, Py.getitem (buy_orders depth) (price o) = Some resting /\
                   - quantity o <= resting) /\
  quantity o <> 0.

(** The VOLCANIC_ROCK book is in the snapshot with both sides quoted. *)
Definition rock_book_priceable (state : TradingState) : Prop :=
  exists rock_depth,
    Py.getitem (order_depths state) "VOLCANIC_ROCK"%string = Some rock_depth /\
    buy_orders rock_depth <> [] /\ sell_orders rock_depth <> [].


(** A MAGNIFICENT_MACARONS book crossed by 6: best bid 106 for 7, best ask
    100 for 4. *)
Definition crossed_macaron_state : TradingState :=
  {| timestamp := 0;
     order_depths :=
       [("MAGNIFICENT_MACARONS"%string,
         {| buy_orders := [(106, 7); (99, 30)];
            sell_orders := [(100, -4); (108, -30)] |})];
     position := <["MAGNIFICENT_MACARONS"%string := 70]> ∅ |}.

(** The same product on an ordinary book: best bid 99, best ask 101. *)
Definition quiet_macaron_state : TradingState :=
  {| timestamp := 0;
     order_depths :=
       [("MAGNIFICENT_MACARONS"%string,
         {| buy_orders := [(99, 30); (98, 12)];
            sell_orders := [(101, -4); (108, -30)] |})];
     position := ∅ |}.


(** An entry of the result of [run] of [run8.py]. *)
Definition run8_entry_ok (state : TradingState) (product : string)
    (orders : list Order) : Prop :=
  orders <> [] /\
  exists od,
    Py.getitem (order_depths state) product = Some od /\
    buy_orders od <> [] /\ sell_orders od <> [] /\
    orders = Run8.quotes product (best_bid_or_0 od) (best_ask_or_0 od)
               (default 0 (position state !! product))
               (default 20 (Run8.position_limits !! product)).

(** An order of [Run4.py]: at the touch, on the profitable side of the fair
    value, never of quantity zero. *)
Definition run4_order_ok (product : string) (depth : OrderDepth)
    (fair_value : Q) (o : Order) : Prop :=
  symbol o = product /\
  (0 < quantity o ->
   Run4.best_ask depth = Some (price o) /\ (inject_Z (price o) < fair_value)%Q) /\
  (quantity o < 0 ->
   Run4.best_bid depth = Some (price o) /\ (fair_value < inject_Z (price o))%Q) /\
  quantity o <> 0.

(** A book whose best ask carries a positive quantity, against the
    convention of the data model. *)
Definition malformed_book : OrderDepth :=
  {| buy_orders := [(70, 30)];
     sell_orders := [(80, 500)] |}.

(** An entry of the result of [run] of [Run4.py]: at most two orders, not
    none, for a listed voucher whose book is in the snapshot, each as
    [run4_order_ok] describes for some fair value, and within the limit of
    200 on both sides from a position within it. *)
Definition run4_entry_ok (state : TradingState) (product : string)
    (orders : list Order) : Prop :=
  orders <> [] /\ (length orders <= 2)%nat /\
  In product (Py.keys vouchers) /\
  (exists depth fair_value,
      Py.getitem (order_depths state) product = Some depth /\
      Forall (run4_order_ok product depth fair_value) orders) /\
  let pos := default 0 (position state !! product) in
  (- 200 <= pos <= 200 -> sides_within_limit pos 200 orders).

(** The signed notional of an order list: what [Run7.py] books against its
    realized PnL when it emits the list. *)
Definition notional (orders : list Order) : Q :=
  fold_right (fun o acc => (inject_Z (price o * quantity o) + acc)%Q) 0%Q orders.

(** The notional of the entries of a result, over a list of vouchers. *)
Definition booked (result : gmap string (list Order)) (l : list (string * Z)) : Q :=
  fold_right (fun entry acc => (notional (default [] (result !! fst entry)) + acc)%Q)
             0%Q l.

(** An order of [Run7.py]: at the touch, and further from the fair value
    than one standard deviation. *)
Definition run7_order_ok (voucher : string) (best_bid best_ask : Z)
    (fair_value std_dev : Q) (o : Order) : Prop :=
  symbol o = voucher /\
  (0 < quantity o ->
   price o = best_ask /\ (std_dev < fair_value - inject_Z best_ask)%Q) /\
  (quantity o < 0 ->
   price o = best_bid /\ (std_dev < inject_Z best_bid - fair_value)%Q) /\
  quantity o <> 0.

(** An entry of the result of [run] of [Run7.py]. *)
Definition run7_entry_ok (state : TradingState) (voucher : string)
    (orders : list Order) : Prop :=
  orders <> [] /\ (length orders <= 2)%nat /\
  In voucher (Py.keys vouchers) /\
  is_Some (Py.getitem (order_depths state) voucher) /\
  let pos := default 0 (position state !! voucher) in
  (- 200 <= pos <= 200 -> sides_within_limit pos 200 orders).

(** A log that [run] of [Run7.py] either left alone or cut to 300 entries. *)
Definition logs_kept_or_bounded (before after : gmap string (list Q)) : Prop :=
  forall product,
    after !! product = before !! product \/
    exists log, after !! product = Some log /\ (length log <= 300)%nat.

(** A tick with the rock at 10100.5 and one voucher quoted 590 / 640. *)
Definition run7_state : TradingState :=
  {| timestamp := 250000;
     order_depths :=
       [("VOLCANIC_ROCK"%string,
         {| buy_orders := [(10100, 20)]; sell_orders := [(10101, -20)] |});
        ("VOLCANIC_ROCK_VOUCHER_9500"%string,
         {| buy_orders := [(590, 30)]; sell_orders := [(640, -25)] |})];
     position := ∅ |}.

(** * Properties *)

(** ** Python primitives *)

Lemma Qltb_lt (x y : Q) : Py.Qltb x y = true <-> (x < y)%Q.
Proof.
  unfold Py.Qltb. rewrite negb_true_iff.
  destruct (Qle_bool y x) eqn:E.
  - apply Qle_bool_iff in E. split; [discriminate | intros H; lra].
  - split; [intros _ | reflexivity].
    destruct (Qlt_le_dec x y) as [H | H]; [exact H |].
    apply Qle_bool_iff in H. congruence.
Qed.

Lemma sum_abs_from (l : list Z) (acc : Z) :
  fold_left (fun acc amt => acc + Z.abs amt) l acc =
  acc + fold_right (fun amt rest => Z.abs amt + rest) 0 l.
Proof.
  revert acc. induction l as [|amt l IH]; intros acc; simpl.
  - lia.
  - rewrite IH. lia.
Qed.

Lemma sum_abs_values (d : list (Z * Z)) :
  Py.sum_abs (Py.values d) = abs_volume d.
Proof.
  unfold Py.sum_abs. rewrite sum_abs_from.
  induction d as [|pv d IH]; simpl in *; lia.
Qed.

Lemma getitem_keys `{EqDecision K} {V} (d : list (K * V)) (k : K) :
  In k (Py.keys d) -> exists v, Py.getitem d k = Some v.
Proof.
  induction d as [|[k' v'] d IH]; simpl; [tauto |].
  intros [-> | Hin].
  - exists v'. destruct (decide (k = k)); [reflexivity | contradiction].
  - destruct (decide (k' = k)); eauto.
Qed.

(** ** Book statistics *)

Lemma vwap_sell_loop_sums d tv tq :
  vwap_sell_loop d (tv, tq) = (tv + abs_value d, tq + abs_volume d).
Proof.
  revert tv tq. induction d as [|[p v] d IH]; intros tv tq; simpl.
  - f_equal; lia.
  - unfold vwap_sell_loop in IH. rewrite IH. f_equal; lia.
Qed.

Lemma vwap_buy_loop_sums d tv tq :
  Forall (fun pv => 0 < snd pv) d ->
  vwap_buy_loop d (tv, tq) = (tv + abs_value d, tq + abs_volume d).
Proof.
  intros Hd. revert tv tq.
  induction Hd as [|[p v] d Hv _ IH]; intros tv tq; simpl in *.
  - f_equal; lia.
  - unfold vwap_buy_loop in IH. rewrite IH.
    rewrite (Z.abs_eq v) by lia. f_equal; lia.
Qed.

Lemma abs_value_app l1 l2 : abs_value (l1 ++ l2) = abs_value l1 + abs_value l2.
Proof. induction l1 as [|pv l1 IH]; simpl; lia. Qed.

Lemma abs_volume_app l1 l2 : abs_volume (l1 ++ l2) = abs_volume l1 + abs_volume l2.
Proof. induction l1 as [|pv l1 IH]; simpl; lia. Qed.

(** C3: on a snapshot whose bid quantities are positive (the data model's
    invariant), [calculate_vwap] is [Σ(price·|qty|) / Σ|qty|] over all bid
    and ask levels of the snapshot, and exactly 0 when the total absolute
    volume is zero. *)
Theorem calculate_vwap_weighted_average (od : OrderDepth) :
  bids_positive od ->
  calculate_vwap od =
    if abs_volume (all_levels od) =? 0 then 0%Q
    else (inject_Z (abs_value (all_levels od)) /
          inject_Z (abs_volume (all_levels od)))%Q.
Proof.
  intros Hb. unfold calculate_vwap, all_levels.
  rewrite (vwap_buy_loop_sums _ 0 0 Hb), vwap_sell_loop_sums.
  rewrite abs_value_app, abs_volume_app. simpl. reflexivity.
Qed.

(** The specification's example: bids {10:5, 9:3} and asks {11:4} give
    121/12. *)
Lemma calculate_vwap_example :
  bids_positive example_book /\ calculate_vwap example_book = (121 # 12)%Q.
Proof.
  split.
  - repeat constructor.
  - rewrite (calculate_vwap_weighted_average example_book).
    + reflexivity.
    + repeat constructor.
Defined.

(** ** The history tracker *)

Section HistoryFacts.

Variable np_annualized_volatility : list Q -> Q.

Lemma ensure_product_state_lookup (self : Trader) (product : string) :
  historical_data (ensure_product_state self product) !! product =
  Some (history_of self product).
Proof.
  unfold ensure_product_state, history_of.
  destruct (historical_data self !! product) eqn:E; simpl.
  - exact E.
  - apply lookup_insert_eq.
Qed.

Lemma ensure_product_state_other (self : Trader) (p q : string) :
  p <> q ->
  historical_data (ensure_product_state self q) !! p = historical_data self !! p.
Proof.
  intros Hne. unfold ensure_product_state.
  destruct (historical_data self !! q); simpl; [reflexivity |].
  apply lookup_insert_ne. congruence.
Qed.

Lemma update_product_other (self : Trader) (p q : string) (od : OrderDepth) :
  p <> q ->
  historical_data (update_product np_annualized_volatility self q od) !! p = historical_data self !! p.
Proof.
  intros Hne. unfold update_product, record_volume; simpl.
  rewrite lookup_alter_ne by congruence.
  destruct (negb (best_bid_or_0 od =? 0) && negb (best_ask_or_0 od =? 0)); simpl.
  - rewrite lookup_alter_ne by congruence.
    now apply ensure_product_state_other.
  - now apply ensure_product_state_other.
Qed.

Lemma update_fold_other (l : list (string * OrderDepth)) (self : Trader) (p : string) :
  ~ In p (Py.keys l) ->
  historical_data
    (fold_left (fun self '(product, order_depth) =>
                  update_product np_annualized_volatility self product order_depth) l self) !! p =
  historical_data self !! p.
Proof.
  revert self. induction l as [|[q od] l IH]; intros self Hnot; simpl in *.
  - reflexivity.
  - rewrite IH by tauto. apply update_product_other. intros ->. tauto.
Qed.

Lemma one_sided_best_prices (od : OrderDepth) :
  one_sided od ->
  negb (best_bid_or_0 od =? 0) && negb (best_ask_or_0 od =? 0) = false.
Proof.
  unfold best_bid_or_0, best_ask_or_0.
  intros [E | E]; rewrite E; simpl; [reflexivity | apply andb_false_r].
Qed.

Lemma total_volume_all_levels (od : OrderDepth) :
  Py.sum_abs (Py.values (buy_orders od)) + Py.sum_abs (Py.values (sell_orders od)) =
  abs_volume (all_levels od).
Proof.
  unfold all_levels. rewrite !sum_abs_values, abs_volume_app. reflexivity.
Qed.

Lemma update_product_one_sided (self : Trader) (p : string) (od : OrderDepth) :
  one_sided od ->
  historical_data (update_product np_annualized_volatility self p od) !! p =
  Some {| prices := prices (history_of self p);
          spreads := spreads (history_of self p);
          volumes := volumes (history_of self p) ++ [abs_volume (all_levels od)] |}.
Proof.
  intros Hone. unfold update_product.
  rewrite (one_sided_best_prices od Hone).
  unfold record_volume; simpl.
  rewrite lookup_alter_eq, ensure_product_state_lookup; simpl.
  now rewrite total_volume_all_levels.
Qed.

(** On every tick the volume series of a product of the snapshot grows by
    exactly one entry at its end, whatever the book looks like. *)
Lemma update_product_volumes (self : Trader) (p : string) (od : OrderDepth) :
  volumes (history_of (update_product np_annualized_volatility self p od) p) =
  volumes (history_of self p) ++ [abs_volume (all_levels od)].
Proof.
  unfold update_product, history_of at 1, record_volume; simpl.
  rewrite lookup_alter_eq, total_volume_all_levels.
  destruct (negb (best_bid_or_0 od =? 0) && negb (best_ask_or_0 od =? 0)); simpl.
  - rewrite lookup_alter_eq, ensure_product_state_lookup; reflexivity.
  - rewrite ensure_product_state_lookup; reflexivity.
Qed.

End HistoryFacts.

Section HistoryTicks.

Variable np_annualized_volatility : list Q -> Q.

Lemma update_historical_data_volumes (self : Trader) (state : TradingState)
    (p : string) (od : OrderDepth) :
  List.NoDup (Py.keys (order_depths state)) ->
  In (p, od) (order_depths state) ->
  volumes (history_of (update_historical_data np_annualized_volatility self state) p) =
  volumes (history_of self p) ++ [abs_volume (all_levels od)].
Proof.
  intros Hnodup Hin. unfold update_historical_data.
  destruct (in_split _ _ Hin) as (l1 & l2 & Hsplit).
  rewrite Hsplit in *. unfold Py.keys in Hnodup.
  rewrite map_app in Hnodup; simpl in Hnodup.
  pose proof (NoDup_remove_2 _ _ _ Hnodup) as Hnot.
  rewrite in_app_iff in Hnot.
  rewrite fold_left_app; simpl.
  unfold history_of at 1.
  rewrite update_fold_other by (unfold Py.keys; tauto).
  fold (history_of
          (update_product np_annualized_volatility
             (fold_left (fun self '(product, order_depth) =>
                update_product np_annualized_volatility self product order_depth)
                l1 self) p od) p).
  rewrite update_product_volumes.
  unfold history_of.
  rewrite update_fold_other by (unfold Py.keys; tauto).
  reflexivity.
Qed.

(** After [n] ticks on a snapshot that lists the product, its volume series
    is the old one followed by the [n] new entries: nothing is ever
    evicted. *)
Lemma replay_ticks_volumes (n : nat) (self : Trader) (state : TradingState)
    (p : string) (od : OrderDepth) :
  List.NoDup (Py.keys (order_depths state)) ->
  In (p, od) (order_depths state) ->
  volumes (history_of (replay_ticks np_annualized_volatility n self state) p) =
  volumes (history_of self p) ++ repeat (abs_volume (all_levels od)) n.
Proof.
  intros Hnodup Hin. induction n as [|n IH].
  - simpl. now rewrite app_nil_r.
  - change (replay_ticks np_annualized_volatility (S n) self state)
      with (update_historical_data np_annualized_volatility
              (replay_ticks np_annualized_volatility n self state) state).
    rewrite (update_historical_data_volumes _ state p od Hnodup Hin).
    rewrite IH, <- app_assoc. f_equal.
    symmetry. apply repeat_cons.
Qed.

Lemma generate_orders_one_sided (self : Trader) (product : string)
    (od : OrderDepth) (fair_value : Q) (current_position position_limit : Z) :
  one_sided od ->
  Run.generate_orders self product od fair_value current_position position_limit
  = Some [].
Proof.
  intros Hone. unfold Run.generate_orders.
  pose proof (one_sided_best_prices od Hone) as Hbest.
  destruct (best_bid_or_0 od =? 0); simpl in *; [reflexivity |].
  destruct (best_ask_or_0 od =? 0); simpl in *; [reflexivity | discriminate].
Qed.

(** C4: for an instrument of the snapshot whose book has no bids or no asks,
    [generate_orders] returns the empty order list (no market-making and no
    arbitrage order), and [update_historical_data] leaves the mid-price and
    spread series as they were while appending the tick's total volume, the
    sum of the absolute quantities of all levels on both sides. *)
Theorem one_sided_book_skipped_volume_recorded (self : Trader)
    (state : TradingState) (product : string) (od : OrderDepth)
    (fair_value : Q) (current_position position_limit : Z) :
  List.NoDup (Py.keys (order_depths state)) ->
  In (product, od) (order_depths state) ->
  one_sided od ->
  Run.generate_orders self product od fair_value current_position position_limit
    = Some [] /\
  Run.generate_orders (update_historical_data np_annualized_volatility self state)
    product od fair_value current_position position_limit = Some [] /\
  historical_data (update_historical_data np_annualized_volatility self state) !! product =
    Some {| prices := prices (history_of self product);
            spreads := spreads (history_of self product);
            volumes := volumes (history_of self product) ++
                       [abs_volume (all_levels od)] |}.
Proof.
  intros Hnodup Hin Hone.
  split; [now apply generate_orders_one_sided |].
  split; [now apply generate_orders_one_sided |].
  unfold update_historical_data.
  destruct (in_split _ _ Hin) as (l1 & l2 & Hsplit).
  rewrite Hsplit in *. unfold Py.keys in Hnodup.
  rewrite map_app in Hnodup; simpl in Hnodup.
  pose proof (NoDup_remove_2 _ _ _ Hnodup) as Hnot.
  rewrite in_app_iff in Hnot.
  rewrite fold_left_app; simpl.
  rewrite update_fold_other by (unfold Py.keys; tauto).
  rewrite update_product_one_sided by exact Hone.
  unfold history_of.
  rewrite update_fold_other by (unfold Py.keys; tauto).
  reflexivity.
Qed.

End HistoryTicks.

(** A first tick on a PEARLS book with asks only: no order, no mid price,
    volume 10 recorded. *)
Lemma one_sided_book_example :
  Run.generate_orders new_trader "PEARLS" asks_only_book 10000 0 20 = Some [] /\
  historical_data (update_historical_data flat_volatility new_trader asks_only_state)
    !! "PEARLS"%string =
  Some {| prices := []; spreads := []; volumes := [10] |}.
Proof.
  assert (Hnodup : List.NoDup (Py.keys (order_depths asks_only_state))).
  { apply List.NoDup_cons; [intros [] | apply List.NoDup_nil]. }
  assert (Hin : In ("PEARLS"%string, asks_only_book) (order_depths asks_only_state)).
  { left; reflexivity. }
  assert (Hone : one_sided asks_only_book).
  { left; reflexivity. }
  destruct (one_sided_book_skipped_volume_recorded flat_volatility new_trader
              asks_only_state "PEARLS" asks_only_book 10000 0 20 Hnodup Hin Hone)
    as (Hgen & _ & Hhist).
  split; [exact Hgen | exact Hhist].
Defined.

(** ** Order sizes and position capacity *)

Lemma total_quantity_app (a b : list Order) :
  total_quantity (a ++ b) = total_quantity a + total_quantity b.
Proof. induction a as [|o a IH]; simpl; lia. Qed.

Lemma getitem_In `{EqDecision K} {V} (d : list (K * V)) (k : K) (v : V) :
  Py.getitem d k = Some v -> In (k, v) d.
Proof.
  induction d as [|[k' v'] d IH]; simpl; [discriminate |].
  destruct (decide (k' = k)) as [-> | _].
  - intros [= ->]. now left.
  - intros H. right. now apply IH.
Qed.

Lemma getitem_bid_positive (od : OrderDepth) (k v : Z) :
  bids_positive od -> Py.getitem (buy_orders od) k = Some v -> 0 < v.
Proof.
  intros Hb Hget. apply getitem_In in Hget.
  unfold bids_positive in Hb. rewrite List.Forall_forall in Hb.
  exact (Hb _ Hget).
Qed.

Lemma getitem_ask_negative (od : OrderDepth) (k v : Z) :
  asks_negative od -> Py.getitem (sell_orders od) k = Some v -> v < 0.
Proof.
  intros Ha Hget. apply getitem_In in Hget.
  unfold asks_negative in Ha. rewrite List.Forall_forall in Ha.
  exact (Ha _ Hget).
Qed.

(** Linear arithmetic with the floor divisions by two of the throttle. *)
Ltac div_lia := Z.div_mod_to_equations; lia.

(** Case analysis on the two emission guards of a market-making block. *)
Ltac emission_cases :=
  repeat match goal with
         | |- context [0 <? ?x] => destruct (Z.ltb_spec 0 x)
         end.

Ltac in_singletons :=
  repeat match goal with
         | H : In _ (_ ++ _) |- _ => apply in_app_iff in H; destruct H as [H | H]
         | H : In _ (_ :: _) |- _ => destruct H as [<- | H]
         | H : In _ [] |- _ => destruct H
         end.

Lemma run_market_making_bounds (self : Trader) (product : string) (fair_value : Q)
    (pos limit best_bid best_ask max_buy max_sell : Z) (orders : list Order) :
  Run.market_making self product fair_value pos limit best_bid best_ask
    max_buy max_sell [] = Some orders ->
  0 <= max_buy -> 0 <= max_sell ->
  Forall (fun o => - max_sell <= quantity o <= max_buy) orders /\
  - max_sell <= total_quantity orders <= max_buy.
Proof.
  unfold Run.market_making.
  destruct (volatility self !! product) as [vol|]; simpl; [|discriminate].
  destruct (Py.truediv pos limit) as [ratio|]; simpl; [|discriminate].
  destruct (Py.Qltb 0.5 ratio); [|destruct (Py.Qltb ratio (-0.5))];
    emission_cases; intros [= <-] Hb Hs;
    cbn [app total_quantity fold_right quantity];
    (split; [apply List.Forall_forall; intros o Ho; in_singletons;
                    cbn [quantity] |]; div_lia).
Qed.

Lemma run2_market_making_bounds (self : Trader) (product : string) (fair_value : Q)
    (pos limit best_bid best_ask max_buy max_sell : Z) (orders : list Order) :
  Run2.market_making self product fair_value pos limit best_bid best_ask
    max_buy max_sell [] = Some orders ->
  0 <= max_buy -> 0 <= max_sell ->
  Forall (fun o => - max_sell <= quantity o <= max_buy) orders /\
  - max_sell <= total_quantity orders <= max_buy.
Proof.
  unfold Run2.market_making, Run2.base_size.
  destruct (historical_data self !! product) as [history|]; simpl; [|discriminate].
  destruct (volatility self !! product) as [vol|]; simpl; [|discriminate].
  destruct (last (volumes history)) as [last_volume|]; simpl; [|discriminate].
  destruct (100 <? last_volume);
    (destruct (Py.fdiv 10 (1 + vol * 10)) as [scale|]; simpl; [|discriminate]);
    (destruct (Py.truediv pos limit) as [ratio|]; simpl; [|discriminate]);
    (destruct (Py.Qltb 0.6 ratio); [|destruct (Py.Qltb ratio (-0.6))]);
    emission_cases; cbn [andb]; intros [= <-] Hb Hs;
    cbn [app total_quantity fold_right quantity];
    (split; [apply List.Forall_forall; intros o Ho; in_singletons;
                    cbn [quantity] |]; div_lia).
Qed.

(** The liquidity-taking block appends at most one buy and one sell, each
    capped by the remaining capacity of its side. *)
Ltac arbitrage_cases od :=
  repeat match goal with
         | |- context [Py.Qltb ?a ?b && (0 <? ?x)] =>
             destruct (Py.Qltb a b); cbn [andb];
             [destruct (Z.ltb_spec 0 x) |]
         | |- context [Py.getitem (sell_orders od) ?k] =>
             let E := fresh "Eask" in
             destruct (Py.getitem (sell_orders od) k) eqn:E; cbn [mbind option_bind];
             [|discriminate]
         | |- context [Py.getitem (buy_orders od) ?k] =>
             let E := fresh "Ebid" in
             destruct (Py.getitem (buy_orders od) k) eqn:E; cbn [mbind option_bind];
             [|discriminate]
         end.

Ltac use_book_signs od :=
  repeat match goal with
         | Hb : bids_positive od, E : Py.getitem (buy_orders od) _ = Some _ |- _ =>
             apply (getitem_bid_positive od _ _ Hb) in E
         | Ha : asks_negative od, E : Py.getitem (sell_orders od) _ = Some _ |- _ =>
             apply (getitem_ask_negative od _ _ Ha) in E
         end.

Ltac arbitrage_bounds od :=
  intros Hb Ha Hmb Hms;
  cbn [mbind option_bind]; arbitrage_cases od; cbn [mbind option_bind];
  intros [= <-]; use_book_signs od;
  first [ exists []; split; [now rewrite app_nil_r |]
        | eexists [_]; split; [reflexivity |]
        | eexists [_; _]; split; [now rewrite <- app_assoc |] ];
  cbn [total_quantity fold_right quantity];
  (split; [apply List.Forall_forall; intros o Ho; in_singletons; cbn [quantity] |]; lia).

Lemma run_arbitrage_bounds (product : string) (od : OrderDepth) (fair_value : Q)
    (best_bid best_ask max_buy max_sell : Z) (orders0 orders : list Order) :
  bids_positive od -> asks_negative od -> 0 <= max_buy -> 0 <= max_sell ->
  Run.arbitrage product od fair_value best_bid best_ask max_buy max_sell orders0
    = Some orders ->
  exists extra,
    orders = orders0 ++ extra /\
    Forall (fun o => - max_sell <= quantity o <= max_buy) extra /\
    - max_sell <= total_quantity extra <= max_buy.
Proof. unfold Run.arbitrage. arbitrage_bounds od. Qed.

Lemma run2_arbitrage_bounds (product : string) (od : OrderDepth) (fair_value : Q)
    (best_bid best_ask max_buy max_sell : Z) (orders0 orders : list Order) :
  bids_positive od -> asks_negative od -> 0 <= max_buy -> 0 <= max_sell ->
  Run2.arbitrage product od fair_value best_bid best_ask max_buy max_sell orders0
    = Some orders ->
  exists extra,
    orders = orders0 ++ extra /\
    Forall (fun o => - max_sell <= quantity o <= max_buy) extra /\
    - max_sell <= total_quantity extra <= max_buy.
Proof. unfold Run2.arbitrage. arbitrage_bounds od. Qed.

Lemma tick_bounds_of_blocks (pos limit : Z) (mm arb : list Order) :
  Forall (fun o => - (limit + pos) <= quantity o <= limit - pos) mm ->
  - (limit + pos) <= total_quantity mm <= limit - pos ->
  Forall (fun o => - (limit + pos) <= quantity o <= limit - pos) arb ->
  - (limit + pos) <= total_quantity arb <= limit - pos ->
  tick_bounds pos limit (mm ++ arb).
Proof.
  intros Hmm Tmm Harb Tarb. split.
  - apply List.Forall_app. split.
    + eapply List.Forall_impl; [|exact Hmm]. unfold within_capacity. intros o Ho; cbv beta in *; lia.
    + eapply List.Forall_impl; [|exact Harb]. unfold within_capacity. intros o Ho; cbv beta in *; lia.
  - rewrite total_quantity_app. lia.
Qed.

Lemma run_generate_orders_bounds (self : Trader) (product : string)
    (od : OrderDepth) (fair_value : Q) (pos limit : Z) (orders : list Order) :
  bids_positive od -> asks_negative od ->
  0 <= limit - pos -> 0 <= limit + pos ->
  Run.generate_orders self product od fair_value pos limit = Some orders ->
  tick_bounds pos limit orders.
Proof.
  intros Hb Ha Hmb Hms. unfold Run.generate_orders.
  destruct ((best_bid_or_0 od =? 0) || (best_ask_or_0 od =? 0)).
  { intros [= <-]. apply (tick_bounds_of_blocks pos limit [] []); simpl; auto; lia. }
  destruct (historical_data self !! product) as [history|];
    cbn [mbind option_bind]; [|discriminate].
  destruct (5 <? length (prices history))%nat.
  - destruct (Run.market_making _ _ _ _ _ _ _ _ _ _) as [mm|] eqn:Emm;
      cbn [mbind option_bind]; [|discriminate].
    intros Harb.
    destruct (run_market_making_bounds _ _ _ _ _ _ _ _ _ _ Emm Hmb Hms) as [Fmm Tmm].
    destruct (run_arbitrage_bounds _ _ _ _ _ _ _ _ _ Hb Ha Hmb Hms Harb)
      as (extra & -> & Farb & Tarb).
    now apply tick_bounds_of_blocks.
  - cbn [mbind option_bind]. intros Harb.
    destruct (run_arbitrage_bounds _ _ _ _ _ _ _ _ _ Hb Ha Hmb Hms Harb)
      as (extra & -> & Farb & Tarb).
    apply tick_bounds_of_blocks; simpl; auto; lia.
Qed.

Lemma run2_generate_orders_bounds (self : Trader) (product : string)
    (od : OrderDepth) (fair_value : Q) (pos limit : Z) (orders : list Order) :
  bids_positive od -> asks_negative od ->
  0 <= limit - pos -> 0 <= limit + pos ->
  Run2.generate_orders self product od fair_value pos limit = Some orders ->
  tick_bounds pos limit orders.
Proof.
  intros Hb Ha Hmb Hms. unfold Run2.generate_orders.
  destruct ((best_bid_or_0 od =? 0) || (best_ask_or_0 od =? 0)).
  { intros [= <-]. apply (tick_bounds_of_blocks pos limit [] []); simpl; auto; lia. }
  destruct (historical_data self !! product) as [history|];
    cbn [mbind option_bind]; [|discriminate].
  destruct (5 <? length (prices history))%nat.
  - destruct (Run2.market_making _ _ _ _ _ _ _ _ _ _) as [mm|] eqn:Emm;
      cbn [mbind option_bind]; [|discriminate].
    intros Harb.
    destruct (run2_market_making_bounds _ _ _ _ _ _ _ _ _ _ Emm Hmb Hms) as [Fmm Tmm].
    destruct (run2_arbitrage_bounds _ _ _ _ _ _ _ _ _ Hb Ha Hmb Hms Harb)
      as (extra & -> & Farb & Tarb).
    now apply tick_bounds_of_blocks.
  - cbn [mbind option_bind]. intros Harb.
    destruct (run2_arbitrage_bounds _ _ _ _ _ _ _ _ _ Hb Ha Hmb Hms Harb)
      as (extra & -> & Farb & Tarb).
    apply tick_bounds_of_blocks; simpl; auto; lia.
Qed.

(** C1 (amended): with [max_buy = limit - position >= 0] and
    [max_sell = limit + position >= 0] on a well-formed book, every order
    that [generate_orders] emits ([run.py] and [Run2.0.py]) has a quantity
    between [-max_sell] and [max_buy], so an order that fills alone leaves
    [|position + quantity| <= limit]; the orders of one tick sum up to a
    quantity between [-2 max_sell] and [2 max_buy]. *)
Theorem orders_within_capacity (self : Trader) (product : string)
    (od : OrderDepth) (fair_value : Q) (pos limit : Z) (orders : list Order) :
  bids_positive od -> asks_negative od ->
  0 <= limit - pos -> 0 <= limit + pos ->
  Run.generate_orders self product od fair_value pos limit = Some orders \/
  Run2.generate_orders self product od fair_value pos limit = Some orders ->
  tick_bounds pos limit orders.
Proof.
  intros Hb Ha Hmb Hms [Hrun | Hrun].
  - now apply (run_generate_orders_bounds self product od fair_value).
  - now apply (run2_generate_orders_bounds self product od fair_value).
Qed.

Lemma cheap_ask_book_well_formed :
  bids_positive cheap_ask_book /\ asks_negative cheap_ask_book.
Proof.
  split; repeat constructor.
Qed.

(** The bound of each order on the tick that breaks the aggregate one. *)
Lemma orders_within_capacity_example : tick_bounds (-20) 20 cheap_ask_orders.
Proof.
  apply (orders_within_capacity warm_trader "PEARLS" cheap_ask_book 10000 (-20) 20).
  - apply cheap_ask_book_well_formed.
  - apply cheap_ask_book_well_formed.
  - lia.
  - lia.
  - left. vm_compute. reflexivity.
Defined.

(** C1, as stated, fails: at position -20 with limit 20 ([max_buy = 40],
    [max_sell = 0]) the market-making buy of 5 (10 in [Run2.0.py]) and
    the arbitrage buy of 40 are emitted in the same tick; filled together
    they move the position to +25 (+30). *)
Lemma aggregate_orders_exceed_limit :
  bids_positive cheap_ask_book /\ asks_negative cheap_ask_book /\
  0 <= 20 - (-20) /\ 0 <= 20 + (-20) /\
  Run.generate_orders warm_trader "PEARLS" cheap_ask_book 10000 (-20) 20
    = Some cheap_ask_orders /\
  Run2.generate_orders warm_trader "PEARLS" cheap_ask_book 10000 (-20) 20
    = Some cheap_ask_orders2 /\
  snd <$> Run.run flat_volatility (fun x => x) warm_trader (cheap_ask_state (-20))
    = Some (<["PEARLS"%string := cheap_ask_orders]> ∅, 0, ""%string) /\
  filled_position (-20) cheap_ask_orders = 25 /\
  ~ aggregate_within_limit (-20) 20 cheap_ask_orders /\
  filled_position (-20) cheap_ask_orders2 = 30 /\
  ~ aggregate_within_limit (-20) 20 cheap_ask_orders2.
Proof.
  repeat match goal with |- _ /\ _ => split end;
    try apply cheap_ask_book_well_formed; try lia;
    try (vm_compute; reflexivity);
    unfold aggregate_within_limit; vm_compute; intros H; apply H; reflexivity.
Qed.

(** ** Inventory throttling *)










(** ** [generate_orders] returns *)

Lemma fold_min_In (ks : list Z) (k : Z) : In (fold_left Z.min ks k) (k :: ks).
Proof.
  revert k. induction ks as [|x ks IH]; intros k; simpl.
  - now left.
  - destruct (IH (Z.min k x)) as [H | H].
    + destruct (Z.min_spec k x) as [[_ E] | [_ E]]; rewrite E in *;
        [now left | right; left; now symmetry].
    + right; now right.
Qed.

Lemma fold_max_In (ks : list Z) (k : Z) : In (fold_left Z.max ks k) (k :: ks).
Proof.
  revert k. induction ks as [|x ks IH]; intros k; simpl.
  - now left.
  - destruct (IH (Z.max k x)) as [H | H].
    + destruct (Z.max_spec k x) as [[_ E] | [_ E]]; rewrite E in *;
        [right; left; now symmetry | now left].
    + right; now right.
Qed.

Lemma best_ask_listed (od : OrderDepth) :
  best_ask_or_0 od <> 0 ->
  exists volume, Py.getitem (sell_orders od) (best_ask_or_0 od) = Some volume.
Proof.
  intros Hask. apply getitem_keys. unfold best_ask_or_0, Py.min_default in *.
  destruct (Py.keys (sell_orders od)) as [|k ks]; [contradiction |].
  apply fold_min_In.
Qed.

Lemma best_bid_listed (od : OrderDepth) :
  best_bid_or_0 od <> 0 ->
  exists volume, Py.getitem (buy_orders od) (best_bid_or_0 od) = Some volume.
Proof.
  intros Hbid. apply getitem_keys. unfold best_bid_or_0, Py.max_default in *.
  destruct (Py.keys (buy_orders od)) as [|k ks]; [contradiction |].
  apply fold_max_In.
Qed.

Ltac arbitrage_defined od :=
  intros Hbid Hask;
  destruct (best_ask_listed od Hask) as [ask_volume Eask];
  destruct (best_bid_listed od Hbid) as [bid_volume Ebid];
  rewrite Eask, Ebid; cbn [mbind option_bind];
  repeat match goal with
         | |- context [Py.Qltb ?a ?b && (0 <? ?x)] =>
             destruct (Py.Qltb a b && (0 <? x)); cbn [mbind option_bind]
         end; eauto.


Lemma run2_arbitrage_defined (product : string) (od : OrderDepth) (fair_value : Q)
    (max_buy max_sell : Z) (orders0 : list Order) :
  best_bid_or_0 od <> 0 -> best_ask_or_0 od <> 0 ->
  exists orders,
    Run2.arbitrage product od fair_value (best_bid_or_0 od) (best_ask_or_0 od)
      max_buy max_sell orders0 = Some orders.
Proof. unfold Run2.arbitrage. arbitrage_defined od. Qed.


(** The same for [Run2.0.py], which also needs a recorded volume and a
    volatility other than -0.1. *)
Lemma run2_generate_orders_defined (self : Trader) (product : string)
    (od : OrderDepth) (fair_value : Q) (pos limit : Z) (history : History)
    (vol : Q) :
  historical_data self !! product = Some history ->
  volatility self !! product = Some vol ->
  volumes history <> [] ->
  ~ (1 + vol * 10 == 0)%Q ->
  limit <> 0 ->
  exists orders,
    Run2.generate_orders self product od fair_value pos limit = Some orders.
Proof.
  intros Hh Hvol Hvolumes Hscale Hlimit. unfold Run2.generate_orders.
  destruct (Z.eqb_spec (best_bid_or_0 od) 0) as [|Hbid]; cbn [orb]; [eauto |].
  destruct (Z.eqb_spec (best_ask_or_0 od) 0) as [|Hask]; [eauto |].
  rewrite Hh. cbn [mbind option_bind].
  destruct (5 <? length (prices history))%nat.
  - unfold Run2.market_making, Run2.base_size, Py.truediv, Py.fdiv.
    rewrite Hh, Hvol. cbn [mbind option_bind].
    destruct (last (volumes history)) as [last_volume|] eqn:Elast.
    2: { apply last_None in Elast. contradiction. }
    cbn [mbind option_bind].
    destruct (Qeq_bool (1 + vol * 10) 0) eqn:Ezero.
    { apply Qeq_bool_iff in Ezero. contradiction. }
    apply Z.eqb_neq in Hlimit. rewrite Hlimit. cbn [mbind option_bind].
    destruct (100 <? last_volume);
      (destruct (Py.Qltb 0.6 _); [|destruct (Py.Qltb _ (-0.6))]);
      cbn [mbind option_bind]; now apply run2_arbitrage_defined.
  - cbn [mbind option_bind]. now apply run2_arbitrage_defined.
Qed.


(** ** Basket replication *)

Lemma basket1_replication (fv : gmap string Q) :
  Run2.replication_value fv
    [("CROISSANT"%string, 6); ("JAM"%string, 3); ("DJEMBE"%string, 1)] =
  match fv !! "CROISSANT"%string, fv !! "JAM"%string, fv !! "DJEMBE"%string with
  | Some c, Some j, Some d => Some (6 * c + (3 * j + (1 * d + 0)))%Q
  | _, _, _ => None
  end.
Proof.
  cbn [Run2.replication_value].
  destruct (fv !! "CROISSANT"%string), (fv !! "JAM"%string),
    (fv !! "DJEMBE"%string); reflexivity.
Qed.

Lemma basket2_replication (fv : gmap string Q) :
  Run2.replication_value fv [("CROISSANT"%string, 4); ("JAM"%string, 2)] =
  match fv !! "CROISSANT"%string, fv !! "JAM"%string with
  | Some c, Some j => Some (4 * c + (2 * j + 0))%Q
  | _, _ => None
  end.
Proof.
  cbn [Run2.replication_value].
  destruct (fv !! "CROISSANT"%string), (fv !! "JAM"%string); reflexivity.
Qed.

(** C2 (amended): [calculate_basket_fair_values] sets each basket whose
    components all have a fair value to [Σ multiplicity × component fair
    value], that is 6·CROISSANT + 3·JAM + 1·DJEMBE for PICNIC_BASKET1 and
    4·CROISSANT + 2·JAM for PICNIC_BASKET2; when a component has no fair
    value the basket's entry is left as it was before the call. *)
Theorem basket_fair_values_replicate (self : Trader) (basket : string)
    (components : list (string * Z)) :
  In (basket, components) Run2.basket_components ->
  match Run2.replication_value (fair_values self) components with
  | Some value =>
      exists stored,
        fair_values (Run2.calculate_basket_fair_values self) !! basket = Some stored /\
        (stored == value)%Q
  | None =>
      fair_values (Run2.calculate_basket_fair_values self) !! basket =
      fair_values self !! basket
  end.
Proof.
  intros [[= <- <-] | [[= <- <-] | []]].
  - rewrite basket1_replication. unfold Run2.calculate_basket_fair_values.
    destruct (fair_values self !! "CROISSANT"%string) as [c|] eqn:Ec;
      [destruct (fair_values self !! "JAM"%string) as [j|] eqn:Ej;
       [destruct (fair_values self !! "DJEMBE"%string) as [d|] eqn:Ed |] |];
      cbn [set_fair_value fair_values];
      rewrite ?lookup_insert_ne by discriminate;
      rewrite ?Ec, ?Ej; cbn [set_fair_value fair_values];
      rewrite ?lookup_insert_ne by discriminate; try reflexivity.
    rewrite lookup_insert_eq. eexists; split; [reflexivity | ring].
  - rewrite basket2_replication. unfold Run2.calculate_basket_fair_values.
    destruct (fair_values self !! "CROISSANT"%string) as [c|] eqn:Ec;
      [destruct (fair_values self !! "JAM"%string) as [j|] eqn:Ej;
       [destruct (fair_values self !! "DJEMBE"%string) as [d|] eqn:Ed |] |];
      cbn [set_fair_value fair_values];
      rewrite ?lookup_insert_ne by discriminate;
      rewrite ?Ec, ?Ej; cbn [set_fair_value fair_values];
      rewrite ?lookup_insert_ne by discriminate; try reflexivity;
      rewrite lookup_insert_eq; eexists; (split; [reflexivity | ring]).
Qed.

(** The specification's example: components 100, 200 and 50 give 1250. *)
Lemma basket_example_1250 :
  exists stored,
    fair_values (Run2.calculate_basket_fair_values basket_example_trader)
      !! "PICNIC_BASKET1"%string = Some stored /\
    (stored == 1250)%Q.
Proof.
  assert (Hin : In ("PICNIC_BASKET1"%string,
                    [("CROISSANT"%string, 6); ("JAM"%string, 3); ("DJEMBE"%string, 1)])
                   Run2.basket_components) by (left; reflexivity).
  exact (basket_fair_values_replicate basket_example_trader _ _ Hin).
Defined.

(** C2, as stated, fails in its last sentence: on a tick that quotes
    PICNIC_BASKET1 but not DJEMBE, [run] first stores the basket's VWAP
    (590050/10) as its fair value, and [calculate_basket_fair_values] keeps
    that value: the basket's fair value is set although a component has
    none. *)
Lemma basket_value_kept_when_component_missing :
  (fst <$> Run2.run flat_volatility (fun x => x) new_trader djembe_missing_state)
    ≫= (fun self => fair_values self !! "DJEMBE"%string) = None /\
  (fst <$> Run2.run flat_volatility (fun x => x) new_trader djembe_missing_state)
    ≫= (fun self => fair_values self !! "PICNIC_BASKET1"%string)
    = Some (590050 # 10)%Q /\
  fair_values
    (Run2.calculate_basket_fair_values
       (set_fair_value new_trader "PICNIC_BASKET1" (590050 # 10)))
    !! "PICNIC_BASKET1"%string <> None.
Proof.
  split; [vm_compute; reflexivity |].
  split; [vm_compute; reflexivity |].
  vm_compute. discriminate.
Qed.

(** ** Basket arbitrage *)

Lemma merge_orders_empty (result : gmap string (list Order)) :
  Run2.merge_orders result ∅ = result.
Proof. unfold Run2.merge_orders. apply map_fold_empty. Qed.

(** C9: [generate_basket_arbitrage_orders] returns the empty order mapping
    for every trader state, divergence beyond the 0.5% band or not; merging
    it into the tick's result changes nothing. *)
Theorem basket_arbitrage_emits_nothing (self : Trader) :
  Run2.generate_basket_arbitrage_orders self = ∅ /\
  forall result : gmap string (list Order),
    Run2.merge_orders result (Run2.generate_basket_arbitrage_orders self) = result.
Proof.
  assert (Hempty : Run2.generate_basket_arbitrage_orders self = ∅).
  { unfold Run2.generate_basket_arbitrage_orders.
    destruct (fair_values self !! "PICNIC_BASKET1"%string) as [b1|];
      destruct (fair_values self !! "PICNIC_BASKET2"%string) as [b2|];
      destruct (fair_values self !! "CROISSANT"%string) as [c|];
      destruct (fair_values self !! "JAM"%string) as [j|];
      destruct (fair_values self !! "DJEMBE"%string) as [d|];
      repeat match goal with
             | |- context [Py.Qltb ?a ?b] => destruct (Py.Qltb a b)
             end; reflexivity. }
  split; [exact Hempty |].
  intros result. rewrite Hempty. apply merge_orders_empty.
Qed.

(** ** Level-walking voucher loops *)

Lemma within_limit_along_app (pos limit : Z) (a b : list Order) :
  within_limit_along pos limit (a ++ b) <->
  within_limit_along pos limit a /\
  within_limit_along (pos + total_quantity a) limit b.
Proof.
  revert pos. induction a as [|o a IH]; intros pos; simpl.
  - rewrite Z.add_0_r. tauto.
  - rewrite IH, Z.add_assoc. tauto.
Qed.

Lemma within_limit_along_prefixes (pos limit : Z) (orders : list Order) :
  - limit <= pos <= limit ->
  within_limit_along pos limit orders ->
  prefixes_within_limit pos limit orders.
Proof.
  intros Hpos Halong n. revert pos orders Hpos Halong.
  induction n as [|n IH]; intros pos orders Hpos Halong.
  - simpl. lia.
  - destruct orders as [|o rest]; simpl in *; [lia |].
    destruct Halong as [Ho Hrest].
    specialize (IH (pos + quantity o) rest Ho Hrest). lia.
Qed.

Lemma insert_sorted_In (leb : Z -> Z -> bool) (x y : Z) (l : list Z) :
  In y (Py.insert_sorted leb x l) -> y = x \/ In y l.
Proof.
  induction l as [|z l IH]; simpl.
  - intros [<- | []]. now left.
  - destruct (leb x z); simpl.
    + intros [<- | H]; [now left | now right].
    + intros [<- | H]; [right; now left |].
      destruct (IH H) as [-> | Hin]; [now left | right; now right].
Qed.

Lemma sorted_In (y : Z) (l : list Z) : In y (Py.sorted l) -> In y l.
Proof.
  unfold Py.sorted. induction l as [|x l IH]; simpl; [tauto |].
  intros H. apply insert_sorted_In in H as [-> | H]; [now left | right; auto].
Qed.

Lemma sorted_reverse_In (y : Z) (l : list Z) : In y (Py.sorted_reverse l) -> In y l.
Proof.
  unfold Py.sorted_reverse. induction l as [|x l IH]; simpl; [tauto |].
  intros H. apply insert_sorted_In in H as [-> | H]; [now left | right; auto].
Qed.

Lemma loop_result_stop (pos limit : Z) (orders0 : list Order) :
  - limit <= pos <= limit -> loop_result pos limit orders0 (pos, orders0).
Proof.
  intros Hpos. exists []. simpl. rewrite app_nil_r. repeat split; lia.
Qed.

Lemma loop_result_step (pos limit : Z) (orders0 : list Order) (o : Order)
    (result : Z * list Order) :
  - limit <= pos + quantity o <= limit ->
  loop_result (pos + quantity o) limit (orders0 ++ [o]) result ->
  loop_result pos limit orders0 result.
Proof.
  intros Ho (extra & Hsnd & Hfst & Halong & Hend).
  exists (o :: extra). simpl. rewrite Hsnd, Hfst, <- app_assoc. simpl.
  repeat split; try lia; assumption.
Qed.

Section LevelWalking.

Variables (voucher : string) (depth : OrderDepth) (fair_price : Q) (limit : Z).

Lemma run5_buy_loop_result (ask_prices : list Z) :
  (forall k, In k ask_prices -> In k (Py.keys (sell_orders depth))) ->
  forall (pos : Z) (orders0 : list Order),
    - limit <= pos <= limit ->
    exists result,
      Run5.buy_loop voucher depth fair_price limit ask_prices pos orders0
        = Some result /\
      loop_result pos limit orders0 result.
Proof.
  induction ask_prices as [|ask_price rest IH]; intros Hkeys pos orders0 Hpos.
  - eexists; split; [reflexivity | now apply loop_result_stop].
  - cbn [Run5.buy_loop].
    destruct (Qle_bool (fair_price - 1.5) (inject_Z ask_price) || (limit <=? pos))
      eqn:Estop.
    { eexists; split; [reflexivity | now apply loop_result_stop]. }
    apply orb_false_iff in Estop as [_ Hroom]. apply Z.leb_gt in Hroom.
    destruct (getitem_keys (sell_orders depth) ask_price) as [resting ->];
      [apply Hkeys; now left |].
    cbn [mbind option_bind].
    assert (Hrest : forall k, In k rest -> In k (Py.keys (sell_orders depth)))
      by (intros k Hk; apply Hkeys; now right).
    destruct (Z.ltb_spec 0 (Z.min (limit - pos) (- resting))) as [Hvol | Hvol].
    + destruct (IH Hrest (pos + Z.min (limit - pos) (- resting))
                  (orders0 ++ [mkOrder voucher ask_price (Z.min (limit - pos) (- resting))]))
        as (result & Hrun & Hres); [lia |].
      exists result. split; [exact Hrun |].
      eapply loop_result_step; [|exact Hres]. cbn [quantity]. lia.
    + now apply IH.
Qed.

Lemma run5_sell_loop_result (bid_prices : list Z) :
  (forall k, In k bid_prices -> In k (Py.keys (buy_orders depth))) ->
  forall (pos : Z) (orders0 : list Order),
    - limit <= pos <= limit ->
    exists result,
      Run5.sell_loop voucher depth fair_price limit bid_prices pos orders0
        = Some result /\
      loop_result pos limit orders0 result.
Proof.
  induction bid_prices as [|bid_price rest IH]; intros Hkeys pos orders0 Hpos.
  - eexists; split; [reflexivity | now apply loop_result_stop].
  - cbn [Run5.sell_loop].
    destruct (Qle_bool (inject_Z bid_price) (fair_price + 1.5) || (pos <=? - limit))
      eqn:Estop.
    { eexists; split; [reflexivity | now apply loop_result_stop]. }
    apply orb_false_iff in Estop as [_ Hroom]. apply Z.leb_gt in Hroom.
    destruct (getitem_keys (buy_orders depth) bid_price) as [bid_volume ->];
      [apply Hkeys; now left |].
    cbn [mbind option_bind].
    assert (Hrest : forall k, In k rest -> In k (Py.keys (buy_orders depth)))
      by (intros k Hk; apply Hkeys; now right).
    destruct (Z.ltb_spec 0 (Z.min (limit + pos) bid_volume)) as [Hvol | Hvol].
    + destruct (IH Hrest (pos - Z.min (limit + pos) bid_volume)
                  (orders0 ++ [mkOrder voucher bid_price (- Z.min (limit + pos) bid_volume)]))
        as (result & Hrun & Hres); [lia |].
      exists result. split; [exact Hrun |].
      eapply loop_result_step; [|exact Hres]. cbn [quantity]. lia.
    + now apply IH.
Qed.

Lemma run6_buy_loop_result (asks : list Z) :
  (forall k, In k asks -> In k (Py.keys (sell_orders depth))) ->
  forall (pos : Z) (orders0 : list Order),
    - limit <= pos <= limit ->
    exists result,
      Run6.buy_loop voucher depth fair_price limit asks pos orders0
        = Some result /\
      loop_result pos limit orders0 result.
Proof.
  induction asks as [|ask rest IH]; intros Hkeys pos orders0 Hpos.
  - eexists; split; [reflexivity | now apply loop_result_stop].
  - cbn [Run6.buy_loop].
    destruct (Z.leb_spec limit pos) as [Hfull | Hroom].
    { eexists; split; [reflexivity | now apply loop_result_stop]. }
    destruct (Py.Qltb (fair_price - 1.5) (inject_Z ask)).
    { eexists; split; [reflexivity | now apply loop_result_stop]. }
    destruct (getitem_keys (sell_orders depth) ask) as [resting ->];
      [apply Hkeys; now left |].
    cbn [mbind option_bind].
    assert (Hrest : forall k, In k rest -> In k (Py.keys (sell_orders depth)))
      by (intros k Hk; apply Hkeys; now right).
    destruct (Z.ltb_spec 0 (Z.min (- resting) (limit - pos))) as [Hvol | Hvol].
    + destruct (IH Hrest (pos + Z.min (- resting) (limit - pos))
                  (orders0 ++ [mkOrder voucher ask (Z.min (- resting) (limit - pos))]))
        as (result & Hrun & Hres); [lia |].
      exists result. split; [exact Hrun |].
      eapply loop_result_step; [|exact Hres]. cbn [quantity]. lia.
    + now apply IH.
Qed.

Lemma run6_sell_loop_result (bids : list Z) :
  (forall k, In k bids -> In k (Py.keys (buy_orders depth))) ->
  forall (pos : Z) (orders0 : list Order),
    - limit <= pos <= limit ->
    exists result,
      Run6.sell_loop voucher depth fair_price limit bids pos orders0
        = Some result /\
      loop_result pos limit orders0 result.
Proof.
  induction bids as [|bid rest IH]; intros Hkeys pos orders0 Hpos.
  - eexists; split; [reflexivity | now apply loop_result_stop].
  - cbn [Run6.sell_loop].
    destruct (Z.leb_spec pos (- limit)) as [Hfull | Hroom].
    { eexists; split; [reflexivity | now apply loop_result_stop]. }
    destruct (Py.Qltb (inject_Z bid) (fair_price + 1.5)).
    { eexists; split; [reflexivity | now apply loop_result_stop]. }
    destruct (getitem_keys (buy_orders depth) bid) as [resting ->];
      [apply Hkeys; now left |].
    cbn [mbind option_bind].
    assert (Hrest : forall k, In k rest -> In k (Py.keys (buy_orders depth)))
      by (intros k Hk; apply Hkeys; now right).
    destruct (Z.ltb_spec 0 (Z.min resting (limit + pos))) as [Hvol | Hvol].
    + destruct (IH Hrest (pos - Z.min resting (limit + pos))
                  (orders0 ++ [mkOrder voucher bid (- Z.min resting (limit + pos))]))
        as (result & Hrun & Hres); [lia |].
      exists result. split; [exact Hrun |].
      eapply loop_result_step; [|exact Hres]. cbn [quantity]. lia.
    + now apply IH.
Qed.

Lemma loops_compose (pos : Z) (bought sold : Z * list Order) :
  - limit <= pos <= limit ->
  loop_result pos limit [] bought ->
  loop_result (fst bought) limit (snd bought) sold ->
  prefixes_within_limit pos limit (snd sold).
Proof.
  intros Hpos (buys & Hb1 & Hb2 & Hb3 & Hb4) (sells & Hs1 & Hs2 & Hs3 & Hs4).
  apply within_limit_along_prefixes; [exact Hpos |].
  rewrite Hs1, Hb1. simpl. apply within_limit_along_app.
  split; [exact Hb3 |]. rewrite <- Hb2. exact Hs3.
Qed.

Lemma run5_voucher_orders_within_limit (pos : Z) :
  - limit <= pos <= limit ->
  exists orders,
    Run5.voucher_orders voucher depth fair_price pos limit = Some orders /\
    prefixes_within_limit pos limit orders.
Proof.
  intros Hpos. unfold Run5.voucher_orders.
  destruct (run5_buy_loop_result (Py.sorted (Py.keys (sell_orders depth)))
              (fun k => sorted_In k _) pos [] Hpos) as ([pos1 buys] & -> & Hbuy).
  cbn [mbind option_bind].
  destruct (run5_sell_loop_result (Py.sorted_reverse (Py.keys (buy_orders depth)))
              (fun k => sorted_reverse_In k _) pos1 buys) as ([pos2 sells] & -> & Hsell).
  { destruct Hbuy as (extra & _ & _ & _ & Hend). exact Hend. }
  cbn [mbind option_bind]. eexists; split; [reflexivity |].
  exact (loops_compose pos (pos1, buys) (pos2, sells) Hpos Hbuy Hsell).
Qed.

Lemma run6_voucher_orders_within_limit (pos : Z) :
  - limit <= pos <= limit ->
  exists orders,
    Run6.voucher_orders voucher depth fair_price pos limit = Some orders /\
    prefixes_within_limit pos limit orders.
Proof.
  intros Hpos. unfold Run6.voucher_orders.
  destruct (run6_buy_loop_result (Py.sorted (Py.keys (sell_orders depth)))
              (fun k => sorted_In k _) pos [] Hpos) as ([pos1 buys] & -> & Hbuy).
  cbn [mbind option_bind].
  destruct (run6_sell_loop_result (Py.sorted_reverse (Py.keys (buy_orders depth)))
              (fun k => sorted_reverse_In k _) pos1 buys) as ([pos2 sells] & -> & Hsell).
  { destruct Hbuy as (extra & _ & _ & _ & Hend). exact Hend. }
  cbn [mbind option_bind]. eexists; split; [reflexivity |].
  exact (loops_compose pos (pos1, buys) (pos2, sells) Hpos Hbuy Hsell).
Qed.

(** C10: for a voucher whose position starts within its limit, the buy and
    sell loops of [run5.py] and [Run6.py] return an order list, and the
    initial position plus the quantities of any prefix of that list stays
    within [-limit, +limit]; in particular the whole list, fully filled,
    cannot breach the limit. *)
Theorem level_walking_within_limit (pos : Z) :
  - limit <= pos <= limit ->
  (exists orders,
      Run5.voucher_orders voucher depth fair_price pos limit = Some orders /\
      prefixes_within_limit pos limit orders) /\
  (exists orders,
      Run6.voucher_orders voucher depth fair_price pos limit = Some orders /\
      prefixes_within_limit pos limit orders).
Proof.
  intros Hpos. split.
  - now apply run5_voucher_orders_within_limit.
  - now apply run6_voucher_orders_within_limit.
Qed.

End LevelWalking.

(** Position 0, limit 200, fair price 100 on [voucher_book]: both files buy
    100 and 100, then sell 150 and 250; the running position is 100, 200,
    50, -200. *)
Lemma level_walking_example :
  (exists orders,
      Run5.voucher_orders "VOLCANIC_ROCK_VOUCHER_9500" voucher_book 100 0 200
        = Some orders /\
      prefixes_within_limit 0 200 orders) /\
  (exists orders,
      Run6.voucher_orders "VOLCANIC_ROCK_VOUCHER_9500" voucher_book 100 0 200
        = Some orders /\
      prefixes_within_limit 0 200 orders).
Proof.
  apply (level_walking_within_limit "VOLCANIC_ROCK_VOUCHER_9500" voucher_book 100 200 0).
  lia.
Defined.

Lemma level_walking_example_orders :
  Run5.voucher_orders "VOLCANIC_ROCK_VOUCHER_9500" voucher_book 100 0 200 =
  Some [mkOrder "VOLCANIC_ROCK_VOUCHER_9500" 80 100;
        mkOrder "VOLCANIC_ROCK_VOUCHER_9500" 90 100;
        mkOrder "VOLCANIC_ROCK_VOUCHER_9500" 120 (-150);
        mkOrder "VOLCANIC_ROCK_VOUCHER_9500" 110 (-250)].
Proof. vm_compute. reflexivity. Qed.

(** The same bound on every order list that [run] of [run5.py] returns. *)
Section Run5Run.

Variable math_exp : Q -> Q.

Lemma run5_run_voucher_safe (state : TradingState) (rock_mid_price decay : Q)
    (orders orders' : gmap string (list Order)) (voucher : string) (strike : Z) :
  (forall v os, orders !! v = Some os -> run5_entry_safe state v os) ->
  Run5.run_voucher state rock_mid_price decay orders voucher strike = Some orders' ->
  forall v os, orders' !! v = Some os -> run5_entry_safe state v os.
Proof.
  intros Hsafe. unfold Run5.run_voucher.
  destruct (Py.getitem (order_depths state) voucher) as [depth|];
    [|intros [= <-]; exact Hsafe].
  destruct (voucher_position_limits !! voucher) as [limit|] eqn:Elimit;
    cbn [mbind option_bind]; [|discriminate].
  destruct (Run5.voucher_orders _ _ _ _ _) as [product_orders|] eqn:Eorders;
    cbn [mbind option_bind]; [|discriminate].
  destruct product_orders as [|o rest]; intros [= <-]; [exact Hsafe |].
  intros v os. destruct (decide (voucher = v)) as [<- | Hne].
  - rewrite lookup_insert_eq. intros [= <-] limit' Hlimit' Hpos.
    assert (limit' = limit) as -> by congruence.
    destruct (run5_voucher_orders_within_limit voucher depth
                (Run5.fair_price rock_mid_price strike decay) limit _ Hpos)
      as (orders1 & Hrun & Hprefixes).
    rewrite Eorders in Hrun. injection Hrun as <-. exact Hprefixes.
  - rewrite lookup_insert_ne by exact Hne. apply Hsafe.
Qed.

Lemma run5_vouchers_fold_safe (state : TradingState) (rock_mid_price decay : Q)
    (l : list (string * Z)) (acc : option (gmap string (list Order)))
    (result : gmap string (list Order)) :
  (forall orders, acc = Some orders ->
                  forall v os, orders !! v = Some os -> run5_entry_safe state v os) ->
  foldl (fun acc '(voucher, strike) =>
           acc ≫= fun orders =>
             Run5.run_voucher state rock_mid_price decay orders voucher strike)
        acc l = Some result ->
  forall v os, result !! v = Some os -> run5_entry_safe state v os.
Proof.
  revert acc. induction l as [|[voucher strike] l IH]; intros acc Hacc; simpl.
  - intros ->. now apply Hacc.
  - apply IH. intros orders' Hstep.
    destruct acc as [orders|]; cbn [mbind option_bind] in Hstep; [|discriminate].
    eapply run5_run_voucher_safe; [|exact Hstep]. now apply Hacc.
Qed.

Lemma run5_run_within_limit (state : TradingState)
    (orders : gmap string (list Order)) (conversions : Z) (trader_data : string)
    (voucher : string) (emitted : list Order) :
  Run5.run math_exp state = Some (orders, conversions, trader_data) ->
  orders !! voucher = Some emitted ->
  run5_entry_safe state voucher emitted.
Proof.
  unfold Run5.run.
  destruct (Py.getitem (order_depths state) "VOLCANIC_ROCK"%string) as [rock_depth|];
    [|intros [= <- _ _]; rewrite lookup_empty; discriminate].
  destruct (Py.sorted_reverse _) as [|best_bid ?];
    [intros [= <- _ _]; rewrite lookup_empty; discriminate |].
  destruct (Py.sorted _) as [|best_ask ?];
    [intros [= <- _ _]; rewrite lookup_empty; discriminate |].
  destruct (foldl _ _ _) as [folded|] eqn:Efold; cbn [mbind option_bind];
    [|discriminate].
  intros [= <- _ _]. eapply run5_vouchers_fold_safe; [|exact Efold].
  intros ? [= <-] v os. rewrite lookup_empty. discriminate.
Qed.

End Run5Run.

(** ** Bounded price log of [Run7.py] *)

Lemma last_n_length {A} (n : nat) (l : list A) :
  (length (Py.last_n n l) <= n)%nat.
Proof. unfold Py.last_n. rewrite length_skipn. lia. Qed.

Lemma last_n_short {A} (n : nat) (l : list A) :
  (length l <= n)%nat -> Py.last_n n l = l.
Proof.
  intros Hlen. unfold Py.last_n.
  replace (length l - n)%nat with 0%nat by lia. reflexivity.
Qed.

(** Eviction is from the front: what is kept is a suffix of the log. *)
Lemma last_n_suffix {A} (n : nat) (l : list A) :
  exists evicted, l = evicted ++ Py.last_n n l.
Proof.
  exists (firstn (length l - n) l). unfold Py.last_n.
  symmetry. apply firstn_skipn.
Qed.

Lemma last_n_app {A} (n : nat) (l m : list A) :
  Py.last_n n (Py.last_n n l ++ m) = Py.last_n n (l ++ m).
Proof.
  unfold Py.last_n.
  rewrite !length_app, length_skipn.
  set (k := (length l - n)%nat).
  assert (Hk : (k <= length l)%nat) by lia.
  replace (skipn k l ++ m) with (skipn k (l ++ m)).
  - rewrite skipn_skipn. f_equal. lia.
  - rewrite skipn_app. replace (k - length l)%nat with 0%nat by lia. reflexivity.
Qed.

Lemma log_price_lookup (history : gmap string (list Q)) (product : string)
    (price : Q) :
  Run7.log_price history product price !! product =
  Some (Py.last_n 300 (default [] (history !! product) ++ [price])).
Proof.
  unfold Run7.log_price.
  set (h1 := match history !! product with
             | Some _ => history
             | None => <[product := []]> history
             end).
  assert (E1 : h1 !! product = Some (default [] (history !! product))).
  { unfold h1. destruct (history !! product) eqn:E; simpl.
    - exact E.
    - apply lookup_insert_eq. }
  rewrite lookup_alter_eq, E1. simpl.
  destruct (Nat.ltb_spec 300 (length (default [] (history !! product) ++ [price]))).
  - rewrite lookup_alter_eq, lookup_alter_eq, E1. reflexivity.
  - rewrite lookup_alter_eq, E1. simpl. now rewrite last_n_short.
Qed.

Lemma log_price_other (history : gmap string (list Q)) (p q : string) (price : Q) :
  p <> q -> Run7.log_price history q price !! p = history !! p.
Proof.
  intros Hne. unfold Run7.log_price.
  assert (E : forall h : gmap string (list Q),
             match h !! q with Some _ => h | None => <[q := []]> h end !! p = h !! p).
  { intros h. destruct (h !! q); [reflexivity |].
    apply lookup_insert_ne. congruence. }
  destruct (300 <? _)%nat;
    rewrite ?lookup_alter_ne by congruence; apply E.
Qed.

Lemma log_prices_lookup (events : list (string * Q))
    (history : gmap string (list Q)) (product : string) :
  Run7.log_prices history events !! product =
  match Run7.logged_for product events with
  | [] => history !! product
  | logged => Some (Py.last_n 300 (default [] (history !! product) ++ logged))
  end.
Proof.
  unfold Run7.log_prices, Run7.logged_for.
  revert history. induction events as [|[q price] events IH]; intros history.
  - reflexivity.
  - cbn [fold_left]. rewrite IH. rewrite filter_cons. cbn [fst].
    destruct (decide (q = product)) as [-> | Hne].
    + rewrite log_price_lookup. cbn [map snd].
      destruct (map snd (filter _ events)) as [|y logged]; cbn [default].
      * reflexivity.
      * unfold id. rewrite last_n_app, <- app_assoc. reflexivity.
    + rewrite log_price_other by congruence. reflexivity.
Qed.

Section HistoryBounds.

Variable np_annualized_volatility : list Q -> Q.

(** C7 (amended): the price log of [Run7.py] is bounded: after any run of
    [log_price] calls a product's log holds the last 300 prices logged for
    it, oldest evicted first and order preserved.  The three series of
    [run.py] ([update_historical_data]) are not bounded: each tick appends
    to the end and nothing is evicted, so after [n] ticks the volume series
    is the old one followed by [n] new entries. *)
Theorem history_window (events : list (string * Q)) (logged : string)
    (n : nat) (self : Trader) (state : TradingState) (product : string)
    (od : OrderDepth) :
  List.NoDup (Py.keys (order_depths state)) ->
  In (product, od) (order_depths state) ->
  (length (default [] (Run7.log_prices ∅ events !! logged)) <= 300)%nat /\
  Run7.log_prices ∅ events !! logged =
    match Run7.logged_for logged events with
    | [] => None
    | prices => Some (Py.last_n 300 prices)
    end /\
  (exists evicted,
      Run7.logged_for logged events =
      evicted ++ default [] (Run7.log_prices ∅ events !! logged)) /\
  volumes (history_of (replay_ticks np_annualized_volatility n self state) product) =
    volumes (history_of self product) ++ repeat (abs_volume (all_levels od)) n.
Proof.
  intros Hnodup Hin.
  assert (Hlog : Run7.log_prices ∅ events !! logged =
                 match Run7.logged_for logged events with
                 | [] => None
                 | prices => Some (Py.last_n 300 prices)
                 end).
  { rewrite log_prices_lookup, lookup_empty.
    destruct (Run7.logged_for logged events); reflexivity. }
  repeat split.
  - rewrite Hlog. destruct (Run7.logged_for logged events) as [|x prices];
      cbn [default]; [simpl; lia | apply last_n_length].
  - exact Hlog.
  - rewrite Hlog. destruct (Run7.logged_for logged events) as [|x prices];
      cbn [default]; [now exists [] | apply last_n_suffix].
  - now apply replay_ticks_volumes.
Qed.

End HistoryBounds.

Lemma asks_only_state_listed :
  List.NoDup (Py.keys (order_depths asks_only_state)) /\
  In ("PEARLS"%string, asks_only_book) (order_depths asks_only_state).
Proof.
  split.
  - apply List.NoDup_cons; [intros [] | apply List.NoDup_nil].
  - left; reflexivity.
Qed.

(** Two logged rock prices and three ticks of [run.py] on a PEARLS book of
    total volume 10. *)
Lemma history_window_example :
  (length (default [] (Run7.log_prices ∅ rock_log !! "VOLCANIC_ROCK"%string)) <= 300)%nat /\
  Run7.log_prices ∅ rock_log !! "VOLCANIC_ROCK"%string =
    match Run7.logged_for "VOLCANIC_ROCK" rock_log with
    | [] => None
    | prices => Some (Py.last_n 300 prices)
    end /\
  (exists evicted,
      Run7.logged_for "VOLCANIC_ROCK" rock_log =
      evicted ++ default [] (Run7.log_prices ∅ rock_log !! "VOLCANIC_ROCK"%string)) /\
  volumes (history_of (replay_ticks flat_volatility 3 new_trader asks_only_state) "PEARLS") =
    volumes (history_of new_trader "PEARLS") ++
    repeat (abs_volume (all_levels asks_only_book)) 3.
Proof.
  apply (history_window flat_volatility rock_log "VOLCANIC_ROCK" 3 new_trader
           asks_only_state "PEARLS" asks_only_book);
    apply asks_only_state_listed.
Defined.

(** C7, as stated, fails for [run.py]: no fixed maximum bounds the volume
    series; after 301 ticks it holds 301 entries. *)
Lemma volume_history_unbounded :
  ~ (exists bound : nat, forall n : nat,
        (length (volumes (history_of
           (replay_ticks flat_volatility n new_trader asks_only_state) "PEARLS"))
         <= bound)%nat) /\
  length (volumes (history_of
    (replay_ticks flat_volatility 301 new_trader asks_only_state) "PEARLS")) = 301%nat.
Proof.
  destruct asks_only_state_listed as [Hnodup Hin].
  assert (Hlen : forall n,
    length (volumes (history_of
      (replay_ticks flat_volatility n new_trader asks_only_state) "PEARLS")) = n).
  { intros n.
    rewrite (replay_ticks_volumes flat_volatility n new_trader asks_only_state
               "PEARLS" asks_only_book Hnodup Hin).
    rewrite length_app, repeat_length. reflexivity. }
  split.
  - intros [bound Hbound]. specialize (Hbound (S bound)).
    rewrite Hlen in Hbound. lia.
  - apply Hlen.
Qed.

(** ** Voucher fair values *)

Lemma int_of_timestamp_ratio (ts : Z) :
  Py.int (inject_Z ts / 100000) = Z.quot ts 100000.
Proof.
  unfold Py.int.
  destruct (Qle_bool 0 (inject_Z ts / 100000)) eqn:E.
  - apply Qle_bool_iff in E.
    assert (0 <= ts).
    { unfold Qle, Qdiv, Qmult, Qinv, inject_Z in E. simpl in E. lia. }
    rewrite Z.quot_div_nonneg by lia.
    unfold Qfloor, Qdiv, Qmult, Qinv, inject_Z. simpl.
    now rewrite Z.mul_1_r.
  - assert (ts < 0).
    { destruct (Z.lt_ge_cases ts 0) as [Hlt | Hge]; [exact Hlt |].
      assert (Hle : Qle_bool 0 (inject_Z ts / 100000) = true).
      { apply Qle_bool_iff.
        unfold Qle, Qdiv, Qmult, Qinv, inject_Z. simpl. lia. }
      congruence. }
    replace ts with (- (- ts)) at 2 by lia.
    rewrite Z.quot_opp_l by lia.
    rewrite Z.quot_div_nonneg by lia.
    unfold Qceiling, Qfloor, Qopp, Qdiv, Qmult, Qinv, inject_Z. simpl.
    now rewrite Z.mul_1_r.
Qed.

Lemma Qdiv_le_compat (x y c : Q) : (0 < c -> x <= y -> x / c <= y / c)%Q.
Proof.
  intros Hc Hxy. unfold Qdiv. apply Qmult_le_compat_r; [exact Hxy |].
  apply Qlt_le_weak, Qinv_lt_0_compat, Hc.
Qed.

Lemma run3_decay_monotone (t1 t2 : Z) :
  t1 <= t2 -> (Run3.time_decay_factor t1 <= Run3.time_decay_factor t2)%Q.
Proof.
  intros Ht. unfold Run3.time_decay_factor.
  apply Q.max_le_compat_l, Qdiv_le_compat; [reflexivity |].
  now rewrite <- Zle_Qle.
Qed.

Lemma run5_time_to_expiry_antitone (ts1 ts2 : Z) :
  ts1 <= ts2 -> (Run5.time_to_expiry ts2 <= Run5.time_to_expiry ts1)%Q.
Proof.
  intros Hts. unfold Run5.time_to_expiry.
  apply Q.max_le_compat_l.
  assert (H : (inject_Z ts1 / 100000 <= inject_Z ts2 / 100000)%Q).
  { apply Qdiv_le_compat; [reflexivity | now rewrite <- Zle_Qle]. }
  lra.
Qed.

Section VoucherFairValue.

Variable math_exp : Q -> Q.
Variable py_pow : Q -> Q -> Q.

Hypothesis math_exp_monotone :
  forall x y : Q, (x <= y)%Q -> (math_exp x <= math_exp y)%Q.
Hypothesis py_pow_monotone :
  forall x y : Q, (0 <= x)%Q -> (x <= y)%Q -> (py_pow x 1.5 <= py_pow y 1.5)%Q.

Lemma run5_decay_monotone (e1 e2 : Q) :
  (e1 <= e2)%Q ->
  (Run5.decay_factor math_exp e1 <= Run5.decay_factor math_exp e2)%Q.
Proof.
  intros He. unfold Run5.decay_factor. apply math_exp_monotone.
  assert (H : (e1 / 7 <= e2 / 7)%Q) by (apply Qdiv_le_compat; [reflexivity | exact He]).
  lra.
Qed.

(** C6 (amended): with a priceable underlying mid, the voucher fair value
    of [run3.py] and [run5.py] is exactly
    [max(0, mid - strike) × decay], where the remaining time is derived
    from the timestamp over a horizon of 7 periods of 100000 and [decay]
    never decreases with the remaining time, so it never increases as time
    elapses; [calculate_fair_value] of [Run7.py] is that product, with
    [(days_left / 7) ** 1.5] as decay, plus a fixed premium of 5. *)
Theorem voucher_fair_value_decay (ts : Z) (mid : Q) (strike : Z) :
  (Run3.time_left ts = 7 - Z.quot ts 100000 /\
   Run3.fair_value mid strike (Run3.time_left ts) =
     (Qmax 0 (mid - inject_Z strike) *
      Run3.time_decay_factor (Run3.time_left ts))%Q /\
   (forall t1 t2 : Z,
       t1 <= t2 -> (Run3.time_decay_factor t1 <= Run3.time_decay_factor t2)%Q)) /\
  (Run5.time_to_expiry ts = Qmax 0.1 (7 - inject_Z ts / 100000) /\
   Run5.fair_price mid strike (Run5.decay_factor math_exp (Run5.time_to_expiry ts)) =
     (Qmax 0 (mid - inject_Z strike) *
      Run5.decay_factor math_exp (Run5.time_to_expiry ts))%Q /\
   (forall e1 e2 : Q,
       (e1 <= e2)%Q ->
       (Run5.decay_factor math_exp e1 <= Run5.decay_factor math_exp e2)%Q) /\
   (forall ts1 ts2 : Z,
       ts1 <= ts2 ->
       (Run5.decay_factor math_exp (Run5.time_to_expiry ts2) <=
        Run5.decay_factor math_exp (Run5.time_to_expiry ts1))%Q)) /\
  (Run7.days_left ts = Z.max 1 (7 - Z.quot ts 100000) /\
   Run7.calculate_fair_value py_pow mid strike (Run7.days_left ts) =
     (Qmax 0 (mid - inject_Z strike) *
      py_pow (inject_Z (Run7.days_left ts) / 7) 1.5 + 5)%Q /\
   (forall d1 d2 : Z,
       1 <= d1 -> d1 <= d2 ->
       (py_pow (inject_Z d1 / 7) 1.5 <= py_pow (inject_Z d2 / 7) 1.5)%Q)).
Proof.
  split; [|split].
  - split; [|split].
    + unfold Run3.time_left. now rewrite int_of_timestamp_ratio.
    + reflexivity.
    + exact run3_decay_monotone.
  - split; [|split; [|split]].
    + reflexivity.
    + reflexivity.
    + exact run5_decay_monotone.
    + intros ts1 ts2 Hts.
      apply run5_decay_monotone, run5_time_to_expiry_antitone, Hts.
  - split; [|split].
    + unfold Run7.days_left. now rewrite int_of_timestamp_ratio.
    + reflexivity.
    + intros d1 d2 Hd1 Hd. apply py_pow_monotone.
      * apply Qle_shift_div_l; [reflexivity |].
        rewrite Qmult_0_l. change 0%Q with (inject_Z 0).
        rewrite <- Zle_Qle. lia.
      * apply Qdiv_le_compat; [reflexivity | now rewrite <- Zle_Qle].
Qed.

End VoucherFairValue.

(** Timestamp 250000 (five periods left), mid 10100, strike 9500, with the
    stand-ins for [math.exp] and [**]. *)
Lemma voucher_fair_value_example :
  (Run3.time_left 250000 = 7 - Z.quot 250000 100000 /\
   Run3.fair_value 10100 9500 (Run3.time_left 250000) =
     (Qmax 0 (10100 - inject_Z 9500) *
      Run3.time_decay_factor (Run3.time_left 250000))%Q /\
   (forall t1 t2 : Z,
       t1 <= t2 -> (Run3.time_decay_factor t1 <= Run3.time_decay_factor t2)%Q)) /\
  (Run5.time_to_expiry 250000 = Qmax 0.1 (7 - inject_Z 250000 / 100000) /\
   Run5.fair_price 10100 9500
     (Run5.decay_factor exp_stand_in (Run5.time_to_expiry 250000)) =
     (Qmax 0 (10100 - inject_Z 9500) *
      Run5.decay_factor exp_stand_in (Run5.time_to_expiry 250000))%Q /\
   (forall e1 e2 : Q,
       (e1 <= e2)%Q ->
       (Run5.decay_factor exp_stand_in e1 <= Run5.decay_factor exp_stand_in e2)%Q) /\
   (forall ts1 ts2 : Z,
       ts1 <= ts2 ->
       (Run5.decay_factor exp_stand_in (Run5.time_to_expiry ts2) <=
        Run5.decay_factor exp_stand_in (Run5.time_to_expiry ts1))%Q)) /\
  (Run7.days_left 250000 = Z.max 1 (7 - Z.quot 250000 100000) /\
   Run7.calculate_fair_value pow_stand_in 10100 9500 (Run7.days_left 250000) =
     (Qmax 0 (10100 - inject_Z 9500) *
      pow_stand_in (inject_Z (Run7.days_left 250000) / 7) 1.5 + 5)%Q /\
   (forall d1 d2 : Z,
       1 <= d1 -> d1 <= d2 ->
       (pow_stand_in (inject_Z d1 / 7) 1.5 <= pow_stand_in (inject_Z d2 / 7) 1.5)%Q)).
Proof.
  apply (voucher_fair_value_decay exp_stand_in pow_stand_in).
  - intros x y Hxy. unfold exp_stand_in. lra.
  - intros x y Hx Hxy. unfold pow_stand_in. lra.
Defined.

(** C6, as stated, fails twice.  At the money (spot = strike = 10000)
    [calculate_fair_value] of [Run7.py] returns the premium 5, which no
    decay factor can produce from an intrinsic value of 0.  And the decay of
    [run3.py] grows with the remaining time (0.2 with one period left, 1
    with seven), so it is not non-increasing in the remaining time. *)
Lemma voucher_fair_value_premium_and_direction :
  (forall py_pow : Q -> Q -> Q,
      (Run7.calculate_fair_value py_pow 10000 10000 7 == 5)%Q) /\
  (forall decay : Q, ~ (5 == Qmax 0 (10000 - inject_Z 10000) * decay)%Q) /\
  (Run3.time_decay_factor 1 < Run3.time_decay_factor 7)%Q /\
  ~ (forall t1 t2 : Z,
        t1 <= t2 -> (Run3.time_decay_factor t2 <= Run3.time_decay_factor t1)%Q).
Proof.
  assert (Hatm : Qmax 0 (10000 - inject_Z 10000) = 0%Q) by (vm_compute; reflexivity).
  assert (Hgrow : (Run3.time_decay_factor 1 < Run3.time_decay_factor 7)%Q)
    by (vm_compute; reflexivity).
  split; [|split; [|split]].
  - intros py_pow. unfold Run7.calculate_fair_value. rewrite Hatm. ring.
  - intros decay. rewrite Hatm. intros H. ring_simplify in H. discriminate H.
  - exact Hgrow.
  - intros H. specialize (H 1 7 ltac:(lia)). lra.
Qed.

(** ** Recency weights *)

Lemma np_sum_map_div (ws : list Q) (t : Q) :
  (np_sum (map (fun w => w / t) ws) == np_sum ws / t)%Q.
Proof.
  induction ws as [|w ws IH]; simpl.
  - unfold Qdiv. ring.
  - rewrite IH. unfold Qdiv. ring.
Qed.

Lemma np_sum_positive (ws : list Q) :
  ws <> [] -> Forall (fun w => (0 < w)%Q) ws -> (0 < np_sum ws)%Q.
Proof.
  intros Hne Hpos. destruct Hpos as [|w ws Hw Hws]; [contradiction |].
  clear Hne. simpl.
  assert (H : (0 <= np_sum ws)%Q).
  { induction Hws as [|x l Hx _ IH]; simpl; lra. }
  lra.
Qed.

Lemma normalize_sum (ws : list Q) :
  ws <> [] -> Forall (fun w => (0 < w)%Q) ws -> normalized (normalize ws).
Proof.
  intros Hne Hpos. unfold normalized, normalize.
  rewrite np_sum_map_div.
  pose proof (np_sum_positive ws Hne Hpos) as Hsum.
  field. intros H. rewrite H in Hsum. lra.
Qed.

Lemma normalize_length (ws : list Q) : length (normalize ws) = length ws.
Proof. unfold normalize. apply length_map. Qed.

Lemma nth_normalize (ws : list Q) (i : nat) :
  (i < length ws)%nat ->
  nth i (normalize ws) 0%Q = (nth i ws 0 / np_sum ws)%Q.
Proof.
  intros Hi. unfold normalize.
  rewrite (nth_indep _ 0%Q (0 / np_sum ws)%Q) by (now rewrite length_map).
  apply (map_nth (fun w => (w / np_sum ws)%Q)).
Qed.

Lemma nth_map_exp (np_exp : Q -> Q) (grid : list Q) (i : nat) :
  (i < length grid)%nat ->
  nth i (map np_exp grid) 0%Q = np_exp (nth i grid 0%Q).
Proof.
  intros Hi.
  rewrite (nth_indep _ 0%Q (np_exp 0%Q)) by (now rewrite length_map).
  apply map_nth.
Qed.

Lemma np_linspace_length (start stop : Q) (n : nat) :
  length (np_linspace start stop n) = n.
Proof.
  destruct n as [|[|n]]; [reflexivity | reflexivity |].
  unfold np_linspace. now rewrite length_map, length_seq.
Qed.

(** The grid is evenly spaced: sample [i] is [start + i * step]. *)
Lemma np_linspace_nth (start stop : Q) (n i : nat) :
  (2 <= n)%nat -> (i < n)%nat ->
  nth i (np_linspace start stop n) 0%Q =
  (start + inject_Z (Z.of_nat i) * ((stop - start) / inject_Z (Z.of_nat n - 1)))%Q.
Proof.
  intros Hn Hi. destruct n as [|[|n]]; [lia | lia |].
  unfold np_linspace.
  set (g := fun k : nat =>
              (start + inject_Z (Z.of_nat k) *
                       ((stop - start) / inject_Z (Z.of_nat (S (S n)) - 1)))%Q).
  rewrite (nth_indep _ 0%Q (g 0%nat)) by (now rewrite length_map, length_seq).
  rewrite (map_nth g), seq_nth by exact Hi. reflexivity.
Qed.

Lemma np_linspace_step_positive (stop : Q) (n : nat) :
  (0 < stop)%Q -> (2 <= n)%nat ->
  (0 < (stop - 0) / inject_Z (Z.of_nat n - 1))%Q.
Proof.
  intros Hstop Hn. apply Qlt_shift_div_l.
  - change 0%Q with (inject_Z 0). rewrite <- Zlt_Qlt. lia.
  - lra.
Qed.

Lemma np_linspace_nonneg (stop : Q) (n i : nat) :
  (0 < stop)%Q -> (i < n)%nat -> (0 <= nth i (np_linspace 0 stop n) 0)%Q.
Proof.
  intros Hstop Hi. destruct (Nat.le_gt_cases 2 n) as [Hn | Hn].
  - rewrite np_linspace_nth by assumption.
    pose proof (np_linspace_step_positive stop n Hstop Hn) as Hstep.
    assert (Hi0 : (0 <= inject_Z (Z.of_nat i))%Q).
    { change 0%Q with (inject_Z 0). rewrite <- Zle_Qle. lia. }
    assert (0 <= inject_Z (Z.of_nat i) * ((stop - 0) / inject_Z (Z.of_nat n - 1)))%Q.
    { apply Qmult_le_0_compat; [exact Hi0 | lra]. }
    lra.
  - assert (n = 1%nat) as -> by lia. assert (i = 0%nat) as -> by lia.
    simpl. lra.
Qed.

Lemma np_linspace_increasing (stop : Q) (n i j : nat) :
  (0 < stop)%Q -> (i < j < n)%nat ->
  (nth i (np_linspace 0 stop n) 0 < nth j (np_linspace 0 stop n) 0)%Q.
Proof.
  intros Hstop Hij.
  assert (Hn : (2 <= n)%nat) by lia.
  rewrite !np_linspace_nth by lia.
  pose proof (np_linspace_step_positive stop n Hstop Hn) as Hstep.
  assert (Hlt : (inject_Z (Z.of_nat i) < inject_Z (Z.of_nat j))%Q).
  { rewrite <- Zlt_Qlt. lia. }
  pose proof (Qmult_lt_compat_r _ _ _ Hstep Hlt). lra.
Qed.

Lemma np_sum_repeat_1 (n : nat) :
  (np_sum (repeat 1%Q n) == inject_Z (Z.of_nat n))%Q.
Proof.
  induction n as [|n IH].
  - reflexivity.
  - cbn [repeat np_sum fold_right]. fold (np_sum (repeat 1%Q n)).
    rewrite IH, Nat2Z.inj_succ. unfold Z.succ. rewrite inject_Z_plus. ring.
Qed.

Lemma uniform_weights (n : nat) : uniform (normalize (repeat 1%Q n)).
Proof.
  unfold uniform. rewrite normalize_length, repeat_length.
  apply List.Forall_forall. intros x Hx. unfold normalize in Hx.
  apply in_map_iff in Hx as (w & <- & Hw). apply repeat_spec in Hw as ->.
  now rewrite np_sum_repeat_1.
Qed.

Lemma uniform_weights_normalized (n : nat) :
  (1 <= n)%nat -> normalized (normalize (repeat 1%Q n)).
Proof.
  intros Hn. apply normalize_sum.
  - destruct n; [lia | discriminate].
  - apply List.Forall_forall. intros x Hx. apply repeat_spec in Hx as ->. reflexivity.
Qed.

Section RecencyWeights.

Variable np_exp : Q -> Q.

Hypothesis np_exp_positive : forall x : Q, (0 <= x)%Q -> (0 < np_exp x)%Q.
Hypothesis np_exp_increasing :
  forall x y : Q, (0 <= x)%Q -> (x < y)%Q -> (np_exp x < np_exp y)%Q.

Lemma exp_grid_positive (stop : Q) (n : nat) :
  (0 < stop)%Q ->
  Forall (fun w => (0 < w)%Q) (map np_exp (np_linspace 0 stop n)).
Proof.
  intros Hstop. apply List.Forall_forall. intros w Hw.
  apply in_map_iff in Hw as (x & <- & Hx).
  apply (In_nth _ _ 0%Q) in Hx as (i & Hi & <-).
  rewrite np_linspace_length in Hi.
  apply np_exp_positive, np_linspace_nonneg; assumption.
Qed.

Lemma exp_weights_normalized (stop : Q) (n : nat) :
  (0 < stop)%Q -> (1 <= n)%nat ->
  normalized (normalize (map np_exp (np_linspace 0 stop n))).
Proof.
  intros Hstop Hn. apply normalize_sum.
  - intros H. apply (f_equal (@length Q)) in H.
    rewrite length_map, np_linspace_length in H. simpl in H. lia.
  - now apply exp_grid_positive.
Qed.

Lemma exp_weights_length (stop : Q) (n : nat) :
  length (normalize (map np_exp (np_linspace 0 stop n))) = n.
Proof. now rewrite normalize_length, length_map, np_linspace_length. Qed.

Lemma exp_weights_exponential (stop : Q) (n : nat) :
  exponential_on np_exp stop (normalize (map np_exp (np_linspace 0 stop n))).
Proof.
  unfold exponential_on. rewrite exp_weights_length. intros i Hi.
  rewrite nth_normalize by (now rewrite length_map, np_linspace_length).
  rewrite nth_map_exp by (now rewrite np_linspace_length).
  reflexivity.
Qed.

Lemma exp_weights_increasing (stop : Q) (n : nat) :
  (0 < stop)%Q ->
  increasing (normalize (map np_exp (np_linspace 0 stop n))).
Proof.
  intros Hstop i j. rewrite exp_weights_length. intros Hij.
  rewrite !nth_normalize by (rewrite length_map, np_linspace_length; lia).
  rewrite !nth_map_exp by (rewrite np_linspace_length; lia).
  assert (Hsum : (0 < np_sum (map np_exp (np_linspace 0 stop n)))%Q).
  { apply np_sum_positive; [|now apply exp_grid_positive].
    intros H. apply (f_equal (@length Q)) in H.
    rewrite length_map, np_linspace_length in H. simpl in H. lia. }
  unfold Qdiv. apply Qmult_lt_compat_r; [now apply Qinv_lt_0_compat |].
  apply np_exp_increasing.
  - apply np_linspace_nonneg; [assumption | lia].
  - now apply np_linspace_increasing.
Qed.

(** C8 (amended): with a non-empty stored mid-price history the
    recency-weighted fair value is the dot product of the stored prices
    with a weight vector of the same length that sums to 1.  In
    [Run2.0.py] the weights are uniform below 5 observations and, from 5
    on, the normalised exponential of an evenly spaced grid over [0, 2],
    strictly growing toward the most recent observation.  In [run.py] the
    weights are the normalised exponential over [0, 1] for every history
    length: it has no uniform start. *)
Theorem recency_weighted_fair_value (self : Trader) (state : TradingState)
    (product : string) (history : History) :
  historical_data self !! product = Some history ->
  prices history <> [] ->
  let n := length (prices history) in
  (Run2.calculate_bananas_fair_value np_exp self state product =
     Some (np_dot (prices history) (Run2.recency_weights np_exp n)) /\
   length (Run2.recency_weights np_exp n) = n /\
   normalized (Run2.recency_weights np_exp n) /\
   ((n < 5)%nat -> uniform (Run2.recency_weights np_exp n)) /\
   ((5 <= n)%nat ->
    exponential_on np_exp 2 (Run2.recency_weights np_exp n) /\
    increasing (Run2.recency_weights np_exp n))) /\
  (Run.calculate_bananas_fair_value np_exp self state product =
     Some (np_dot (prices history) (Run.recency_weights np_exp n)) /\
   length (Run.recency_weights np_exp n) = n /\
   normalized (Run.recency_weights np_exp n) /\
   exponential_on np_exp 1 (Run.recency_weights np_exp n) /\
   increasing (Run.recency_weights np_exp n)).
Proof.
  intros Hh Hne n.
  assert (Hn : (1 <= n)%nat).
  { unfold n. destruct (prices history); [contradiction | simpl; lia]. }
  split.
  - split; [|split; [|split; [|split]]].
    + unfold Run2.calculate_bananas_fair_value. rewrite Hh. cbn [mbind option_bind].
      fold n. destruct (prices history); [contradiction | reflexivity].
    + unfold Run2.recency_weights. destruct (n <? 5)%nat.
      * now rewrite normalize_length, repeat_length.
      * apply exp_weights_length.
    + unfold Run2.recency_weights. destruct (n <? 5)%nat.
      * now apply uniform_weights_normalized.
      * apply exp_weights_normalized; [reflexivity | exact Hn].
    + intros Hlt. unfold Run2.recency_weights.
      apply Nat.ltb_lt in Hlt. rewrite Hlt. apply uniform_weights.
    + intros Hge. unfold Run2.recency_weights.
      apply Nat.ltb_ge in Hge. rewrite Hge. split.
      * apply exp_weights_exponential.
      * apply exp_weights_increasing. reflexivity.
  - split; [|split; [|split; [|split]]].
    + unfold Run.calculate_bananas_fair_value. rewrite Hh. cbn [mbind option_bind].
      fold n. destruct (prices history); [contradiction | reflexivity].
    + apply exp_weights_length.
    + apply exp_weights_normalized; [reflexivity | exact Hn].
    + apply exp_weights_exponential.
    + apply exp_weights_increasing. reflexivity.
Qed.

End RecencyWeights.

Lemma exp_stand_in_positive (x : Q) : (0 <= x)%Q -> (0 < exp_stand_in x)%Q.
Proof. unfold exp_stand_in. intros Hx. lra. Qed.

Lemma exp_stand_in_increasing (x y : Q) :
  (0 <= x)%Q -> (x < y)%Q -> (exp_stand_in x < exp_stand_in y)%Q.
Proof. unfold exp_stand_in. intros Hx Hxy. lra. Qed.

(** Two stored BANANAS prices, with the stand-in for [np.exp]. *)
Lemma recency_weighted_fair_value_example :
  let n := length (prices two_price_history) in
  (Run2.calculate_bananas_fair_value exp_stand_in two_price_trader
     (cheap_ask_state 0) "BANANAS" =
     Some (np_dot (prices two_price_history) (Run2.recency_weights exp_stand_in n)) /\
   length (Run2.recency_weights exp_stand_in n) = n /\
   normalized (Run2.recency_weights exp_stand_in n) /\
   ((n < 5)%nat -> uniform (Run2.recency_weights exp_stand_in n)) /\
   ((5 <= n)%nat ->
    exponential_on exp_stand_in 2 (Run2.recency_weights exp_stand_in n) /\
    increasing (Run2.recency_weights exp_stand_in n))) /\
  (Run.calculate_bananas_fair_value exp_stand_in two_price_trader
     (cheap_ask_state 0) "BANANAS" =
     Some (np_dot (prices two_price_history) (Run.recency_weights exp_stand_in n)) /\
   length (Run.recency_weights exp_stand_in n) = n /\
   normalized (Run.recency_weights exp_stand_in n) /\
   exponential_on exp_stand_in 1 (Run.recency_weights exp_stand_in n) /\
   increasing (Run.recency_weights exp_stand_in n)).
Proof.
  apply (recency_weighted_fair_value exp_stand_in exp_stand_in_positive
           exp_stand_in_increasing two_price_trader (cheap_ask_state 0)
           "BANANAS" two_price_history).
  - vm_compute. reflexivity.
  - discriminate.
Defined.

(** C8, as stated, fails for [run.py]: it has no uniform start.  With two
    stored prices its weights are [exp(0)] and [exp(1)] over their sum,
    which differ for every increasing [np.exp] (1/3 and 2/3 with the
    stand-in), so the fair value of prices 4950 and 4952 is 14854/3 and
    not their mean 4951. *)
Lemma run_weights_never_uniform :
  ~ (forall np_exp : Q -> Q,
        (forall x : Q, (0 <= x)%Q -> (0 < np_exp x)%Q) ->
        (forall x y : Q, (0 <= x)%Q -> (x < y)%Q -> (np_exp x < np_exp y)%Q) ->
        forall n : nat, (1 <= n < 5)%nat -> uniform (Run.recency_weights np_exp n)) /\
  (nth 0 (Run.recency_weights exp_stand_in 2) 0 == 1 # 3)%Q /\
  (nth 1 (Run.recency_weights exp_stand_in 2) 0 == 2 # 3)%Q /\
  ~ uniform (Run.recency_weights exp_stand_in 2) /\
  (exists value,
      Run.calculate_bananas_fair_value exp_stand_in two_price_trader
        (cheap_ask_state 0) "BANANAS" = Some value /\
      (value == 14854 # 3)%Q).
Proof.
  assert (Hnot : ~ uniform (Run.recency_weights exp_stand_in 2)).
  { intros H. apply List.Forall_inv in H. vm_compute in H. discriminate H. }
  split; [|split; [|split; [|split]]].
  - intros H.
    exact (Hnot (H exp_stand_in exp_stand_in_positive exp_stand_in_increasing
                   2%nat ltac:(lia))).
  - vm_compute. reflexivity.
  - vm_compute. reflexivity.
  - exact Hnot.
  - eexists. split; [vm_compute; reflexivity | vm_compute; reflexivity].
Qed.

(** * Further properties of the traders *)

(** ** The history tracker on a two-sided book *)

Section HistoryTrackerMore.

Variable np_annualized_volatility : list Q -> Q.

Lemma ensure_product_state_volatility_other (self : Trader) (p q : string) :
  p <> q ->
  volatility (ensure_product_state self q) !! p = volatility self !! p.
Proof.
  intros Hne. unfold ensure_product_state.
  destruct (historical_data self !! q); simpl; [reflexivity |].
  apply lookup_insert_ne. congruence.
Qed.

Lemma update_product_volatility_other (self : Trader) (p q : string)
    (od : OrderDepth) :
  p <> q ->
  volatility (update_product np_annualized_volatility self q od) !! p =
  volatility self !! p.
Proof.
  intros Hne. unfold update_product, record_volume, record_mid_price; simpl.
  destruct (negb (best_bid_or_0 od =? 0) && negb (best_ask_or_0 od =? 0)); simpl.
  - destruct (1 <? _)%nat.
    + rewrite lookup_insert_ne by congruence.
      now apply ensure_product_state_volatility_other.
    + now apply ensure_product_state_volatility_other.
  - now apply ensure_product_state_volatility_other.
Qed.

Lemma update_fold_volatility_other (l : list (string * OrderDepth))
    (self : Trader) (p : string) :
  ~ In p (Py.keys l) ->
  volatility
    (fold_left (fun self '(product, order_depth) =>
                  update_product np_annualized_volatility self product order_depth)
               l self) !! p =
  volatility self !! p.
Proof.
  revert self. induction l as [|[q od] l IH]; intros self Hnot; simpl in *.
  - reflexivity.
  - rewrite IH by tauto. apply update_product_volatility_other. intros ->. tauto.
Qed.

Lemma update_product_two_sided (self : Trader) (p : string) (od : OrderDepth) :
  best_bid_or_0 od <> 0 -> best_ask_or_0 od <> 0 ->
  let h := history_of self p in
  let mid := (inject_Z (best_bid_or_0 od + best_ask_or_0 od) / 2)%Q in
  historical_data (update_product np_annualized_volatility self p od) !! p =
    Some {| prices := prices h ++ [mid];
            spreads := spreads h ++ [best_ask_or_0 od - best_bid_or_0 od];
            volumes := volumes h ++ [abs_volume (all_levels od)] |} /\
  (prices h <> [] ->
   volatility (update_product np_annualized_volatility self p od) !! p =
     Some (np_annualized_volatility (prices h ++ [mid]))).
Proof.
  intros Hbid Hask h mid. unfold update_product.
  apply Z.eqb_neq in Hbid, Hask. rewrite Hbid, Hask. cbn [negb andb].
  unfold record_volume, record_mid_price; cbn [historical_data volatility].
  rewrite !lookup_alter_eq, ensure_product_state_lookup.
  cbn [fmap option_fmap option_map default prices spreads volumes].
  rewrite total_volume_all_levels. split; [reflexivity |].
  intros Hne. fold h. fold mid.
  assert (Hlen : (1 <? length (prices h ++ [mid]))%nat = true).
  { apply Nat.ltb_lt. rewrite length_app. simpl.
    destruct (prices h); [contradiction | simpl; lia]. }
  unfold id. cbn [prices]. rewrite Hlen. apply lookup_insert_eq.
Qed.

(** X1: on a tick whose snapshot lists a product with both best prices
    truthy, [update_historical_data] appends the mid price
    [(best_bid + best_ask) / 2], the spread [best_ask - best_bid] and the
    total absolute volume to the product's three series, and from the
    second recorded price on stores numpy's estimate of the extended price
    series as the product's volatility. *)
Theorem two_sided_tick_recorded (self : Trader) (state : TradingState)
    (product : string) (od : OrderDepth) :
  List.NoDup (Py.keys (order_depths state)) ->
  In (product, od) (order_depths state) ->
  best_bid_or_0 od <> 0 -> best_ask_or_0 od <> 0 ->
  let h := history_of self product in
  let mid := (inject_Z (best_bid_or_0 od + best_ask_or_0 od) / 2)%Q in
  historical_data (update_historical_data np_annualized_volatility self state)
    !! product =
    Some {| prices := prices h ++ [mid];
            spreads := spreads h ++ [best_ask_or_0 od - best_bid_or_0 od];
            volumes := volumes h ++ [abs_volume (all_levels od)] |} /\
  (prices h <> [] ->
   volatility (update_historical_data np_annualized_volatility self state)
     !! product =
     Some (np_annualized_volatility (prices h ++ [mid]))).
Proof.
  intros Hnodup Hin Hbid Hask h mid. unfold update_historical_data.
  destruct (in_split _ _ Hin) as (l1 & l2 & Hsplit).
  rewrite Hsplit in *. unfold Py.keys in Hnodup.
  rewrite map_app in Hnodup; simpl in Hnodup.
  pose proof (NoDup_remove_2 _ _ _ Hnodup) as Hnot.
  rewrite in_app_iff in Hnot.
  rewrite fold_left_app; simpl.
  rewrite update_fold_other by (unfold Py.keys; tauto).
  rewrite update_fold_volatility_other by (unfold Py.keys; tauto).
  set (self1 := fold_left _ l1 self).
  assert (Hh : history_of self1 product = h).
  { unfold history_of, self1. now rewrite update_fold_other by (unfold Py.keys; tauto). }
  destruct (update_product_two_sided self1 product od Hbid Hask) as [Hdata Hvol].
  rewrite Hh in Hdata, Hvol. split; [exact Hdata | exact Hvol].
Qed.

End HistoryTrackerMore.

Lemma two_sided_state_listed :
  List.NoDup (Py.keys (order_depths two_sided_state)) /\
  In ("PEARLS"%string, two_sided_book) (order_depths two_sided_state).
Proof.
  split.
  - apply List.NoDup_cons.
    + intros [H | []]. discriminate H.
    + apply List.NoDup_cons; [intros [] | apply List.NoDup_nil].
  - left; reflexivity.
Qed.

(** A first PEARLS tick with best bid 9998 and best ask 10002. *)
Lemma two_sided_tick_example :
  let h := history_of new_trader "PEARLS" in
  let mid := (inject_Z (best_bid_or_0 two_sided_book + best_ask_or_0 two_sided_book) / 2)%Q in
  historical_data (update_historical_data flat_volatility new_trader two_sided_state)
    !! "PEARLS"%string =
    Some {| prices := prices h ++ [mid];
            spreads := spreads h ++
                       [best_ask_or_0 two_sided_book - best_bid_or_0 two_sided_book];
            volumes := volumes h ++ [abs_volume (all_levels two_sided_book)] |} /\
  (prices h <> [] ->
   volatility (update_historical_data flat_volatility new_trader two_sided_state)
     !! "PEARLS"%string =
     Some (flat_volatility (prices h ++ [mid]))).
Proof.
  apply (two_sided_tick_recorded flat_volatility new_trader two_sided_state
           "PEARLS" two_sided_book).
  - apply two_sided_state_listed.
  - apply two_sided_state_listed.
  - vm_compute. discriminate.
  - vm_compute. discriminate.
Defined.

(** ** Invariants of the stored histories *)

Ltac case_if_goal :=
  match goal with
  | |- context [if ?b then _ else _] => destruct b
  end.

Section HistoryInvariant.

Variable np_annualized_volatility : list Q -> Q.

Lemma ensure_product_state_consistent (self : Trader) (p : string) :
  history_consistent self -> history_consistent (ensure_product_state self p).
Proof.
  intros Hc. unfold ensure_product_state.
  destruct (historical_data self !! p) eqn:E; [exact Hc |].
  intros q h. unfold initialize_product_state; cbn [historical_data volatility].
  destruct (decide (p = q)) as [<- | Hne].
  - rewrite !lookup_insert_eq. intros [= <-]. simpl.
    split; [reflexivity | split; [lia | eauto]].
  - rewrite !lookup_insert_ne by exact Hne. apply Hc.
Qed.

Lemma history_of_consistent (self : Trader) (p : string) :
  history_consistent self ->
  length (prices (history_of self p)) = length (spreads (history_of self p)) /\
  (length (prices (history_of self p)) <= length (volumes (history_of self p)))%nat.
Proof.
  intros Hc. unfold history_of.
  destruct (historical_data self !! p) as [h|] eqn:E; simpl.
  - destruct (Hc p h E) as (Hlen & Hvol & _). now split.
  - split; [reflexivity | lia].
Qed.

Lemma ensure_product_state_volatility (self : Trader) (p : string) :
  history_consistent self ->
  is_Some (volatility (ensure_product_state self p) !! p).
Proof.
  intros Hc. unfold ensure_product_state.
  destruct (historical_data self !! p) as [h|] eqn:E.
  - now destruct (Hc p h E) as (_ & _ & Hsome).
  - simpl. rewrite lookup_insert_eq. eauto.
Qed.

Lemma update_product_consistent (self : Trader) (p : string) (od : OrderDepth) :
  history_consistent self ->
  history_consistent (update_product np_annualized_volatility self p od).
Proof.
  intros Hc q h. destruct (decide (q = p)) as [-> | Hne].
  - destruct (history_of_consistent self p Hc) as [Hlen Hvol].
    pose proof (ensure_product_state_volatility self p Hc) as Hsome.
    unfold update_product, record_volume, record_mid_price;
      cbn [historical_data volatility].
    rewrite lookup_alter_eq.
    destruct (negb (best_bid_or_0 od =? 0) && negb (best_ask_or_0 od =? 0));
      cbn [historical_data volatility].
    + rewrite lookup_alter_eq, ensure_product_state_lookup.
      cbn [fmap option_fmap option_map]. intros [= <-].
      cbn [prices spreads volumes]. rewrite !length_app. simpl.
      split; [lia | split; [lia |]].
      case_if_goal; [rewrite lookup_insert_eq; eauto | exact Hsome].
    + rewrite ensure_product_state_lookup.
      cbn [fmap option_fmap option_map]. intros [= <-].
      cbn [prices spreads volumes]. rewrite !length_app. simpl.
      split; [lia | split; [lia | exact Hsome]].
  - rewrite update_product_other by exact Hne.
    rewrite update_product_volatility_other by exact Hne. apply Hc.
Qed.

Lemma update_product_initialised (self : Trader) (p : string) (od : OrderDepth) :
  is_Some (historical_data (update_product np_annualized_volatility self p od) !! p).
Proof.
  unfold update_product, record_volume; cbn [historical_data].
  rewrite lookup_alter_eq.
  case_if_goal.
  - unfold record_mid_price; cbn [historical_data].
    rewrite lookup_alter_eq, ensure_product_state_lookup. simpl. eauto.
  - rewrite ensure_product_state_lookup. simpl. eauto.
Qed.

Lemma update_product_keeps_initialised (self : Trader) (p q : string)
    (od : OrderDepth) :
  is_Some (historical_data self !! p) ->
  is_Some (historical_data (update_product np_annualized_volatility self q od) !! p).
Proof.
  intros Hsome. destruct (decide (p = q)) as [-> | Hne].
  - apply update_product_initialised.
  - now rewrite update_product_other.
Qed.

Lemma update_fold_consistent (l : list (string * OrderDepth)) (self : Trader) :
  history_consistent self ->
  history_consistent
    (fold_left (fun self '(product, order_depth) =>
                  update_product np_annualized_volatility self product order_depth)
               l self) /\
  forall p, In p (Py.keys l) \/ is_Some (historical_data self !! p) ->
            is_Some (historical_data
              (fold_left (fun self '(product, order_depth) =>
                 update_product np_annualized_volatility self product order_depth)
                 l self) !! p).
Proof.
  revert self. induction l as [|[q od] l IH]; intros self Hc; simpl.
  - split; [exact Hc |]. intros p [[] | H]; exact H.
  - destruct (IH _ (update_product_consistent self q od Hc)) as [Hc' Hinit].
    split; [exact Hc' |]. intros p [[<- | Hin] | Hsome].
    + apply Hinit. right. apply update_product_initialised.
    + apply Hinit. now left.
    + apply Hinit. right. now apply update_product_keeps_initialised.
Qed.

(** X2: [update_historical_data] keeps the stored series aligned: if
    before the tick every product has as many spreads as mid prices, at
    least as many volumes, and a volatility entry, the same holds after the
    tick, and every product of the snapshot has its state initialised. *)
Theorem update_keeps_history_consistent (self : Trader) (state : TradingState) :
  history_consistent self ->
  history_consistent (update_historical_data np_annualized_volatility self state) /\
  forall product,
    In product (Py.keys (order_depths state)) ->
    is_Some (historical_data
               (update_historical_data np_annualized_volatility self state)
             !! product).
Proof.
  intros Hc. unfold update_historical_data.
  destruct (update_fold_consistent (order_depths state) self Hc) as [Hc' Hinit].
  split; [exact Hc' |]. intros product Hin. apply Hinit. now left.
Qed.

End HistoryInvariant.

Lemma new_trader_consistent : history_consistent new_trader.
Proof. intros product h. unfold new_trader; simpl. rewrite lookup_empty. discriminate. Qed.

(** The invariant on the first tick of a fresh trader. *)
Lemma update_keeps_history_consistent_example :
  history_consistent (update_historical_data flat_volatility new_trader two_sided_state) /\
  forall product,
    In product (Py.keys (order_depths two_sided_state)) ->
    is_Some (historical_data
               (update_historical_data flat_volatility new_trader two_sided_state)
             !! product).
Proof.
  apply (update_keeps_history_consistent flat_volatility new_trader two_sided_state).
  apply new_trader_consistent.
Defined.

(** ** [run] of [run.py] *)

Lemma run_position_limit_20 (product : string) :
  default 20 (Run.position_limits !! product) = 20.
Proof.
  unfold Run.position_limits.
  rewrite lookup_insert. case_decide; [reflexivity |].
  rewrite lookup_insert. case_decide; [reflexivity |].
  now rewrite lookup_empty.
Qed.

Lemma best_prices_two_sided (od : OrderDepth) :
  (best_bid_or_0 od =? 0) || (best_ask_or_0 od =? 0) = false ->
  buy_orders od <> [] /\ sell_orders od <> [].
Proof.
  intros H. apply orb_false_iff in H as [Hb Ha].
  split; intros E.
  - unfold best_bid_or_0 in Hb. rewrite E in Hb. discriminate.
  - unfold best_ask_or_0 in Ha. rewrite E in Ha. discriminate.
Qed.

Lemma run_generate_orders_nonempty_two_sided (self : Trader) (product : string)
    (od : OrderDepth) (fair_value : Q) (pos limit : Z) (o : Order)
    (orders : list Order) :
  Run.generate_orders self product od fair_value pos limit = Some (o :: orders) ->
  buy_orders od <> [] /\ sell_orders od <> [].
Proof.
  unfold Run.generate_orders.
  destruct ((best_bid_or_0 od =? 0) || (best_ask_or_0 od =? 0)) eqn:E.
  - discriminate.
  - intros _. now apply best_prices_two_sided.
Qed.

Section RunTick.

Variable np_annualized_volatility : list Q -> Q.
Variable np_exp : Q -> Q.

Lemma run_product_entries (state : TradingState) (self self' : Trader)
    (result result' : gmap string (list Order)) (product : string) :
  (forall p os, result !! p = Some os -> run_entry_ok state p os) ->
  Run.run_product np_exp state (self, result) product = Some (self', result') ->
  forall p os, result' !! p = Some os -> run_entry_ok state p os.
Proof.
  intros Hok. unfold Run.run_product.
  destruct (Py.getitem (order_depths state) product) as [od|] eqn:Eod;
    cbn [mbind option_bind]; [|discriminate].
  match goal with
  | |- context [if decide (product = "PEARLS"%string) then ?a else ?b] =>
      destruct (if decide (product = "PEARLS"%string) then a else b)
        as [fair_value|]
  end; cbn [mbind option_bind]; [|discriminate].
  rewrite run_position_limit_20.
  destruct (Run.generate_orders _ _ _ _ _ _) as [orders|] eqn:Egen;
    cbn [mbind option_bind]; [|discriminate].
  destruct orders as [|o orders]; intros [= _ <-]; [exact Hok |].
  intros p os. destruct (decide (product = p)) as [<- | Hne].
  - rewrite lookup_insert_eq. intros [= <-].
    split; [discriminate |]. exists od. split; [exact Eod |].
    destruct (run_generate_orders_nonempty_two_sided _ _ _ _ _ _ _ _ Egen) as [Hb Ha].
    split; [exact Hb | split; [exact Ha |]].
    intros pos Hbids Hasks Hpos.
    apply (run_generate_orders_bounds _ _ _ _ _ _ _ Hbids Hasks) in Egen;
      [exact Egen | unfold pos; lia | unfold pos; lia].
  - rewrite lookup_insert_ne by exact Hne. apply Hok.
Qed.

Lemma run_fold_entries (state : TradingState) (l : list string)
    (acc : option (Trader * gmap string (list Order)))
    (self' : Trader) (result' : gmap string (list Order)) :
  (forall self result, acc = Some (self, result) ->
     forall p os, result !! p = Some os -> run_entry_ok state p os) ->
  foldl (fun acc product => acc ≫= fun acc => Run.run_product np_exp state acc product)
        acc l = Some (self', result') ->
  forall p os, result' !! p = Some os -> run_entry_ok state p os.
Proof.
  revert acc. induction l as [|product l IH]; intros acc Hacc; simpl.
  - intros ->. now apply (Hacc self' result').
  - apply IH. intros self1 result1 Hstep.
    destruct acc as [[self0 result0]|]; cbn [mbind option_bind] in Hstep;
      [|discriminate].
    eapply run_product_entries; [|exact Hstep]. now apply (Hacc self0 result0).
Qed.

(** X3: whatever [run] of [run.py] returns, it maps a product only to a
    non-empty order list, only for a product of the snapshot with bids and
    asks, and every such list obeys the per-order capacity bounds at the
    product's position and the limit 20; the conversion count is 0 and the
    trader data is empty. *)
Theorem run_result_entries (self self' : Trader) (state : TradingState)
    (result : gmap string (list Order)) (conversions : Z) (trader_data : string)
    (product : string) (orders : list Order) :
  Run.run np_annualized_volatility np_exp self state =
    Some (self', (result, conversions, trader_data)) ->
  result !! product = Some orders ->
  conversions = 0 /\ trader_data = ""%string /\
  run_entry_ok state product orders.
Proof.
  unfold Run.run.
  destruct (foldl _ _ _) as [[self1 result1]|] eqn:Efold;
    cbn [mbind option_bind]; [|discriminate].
  intros [= _ <- <- <-] Hlookup.
  split; [reflexivity | split; [reflexivity |]].
  eapply run_fold_entries; [|exact Efold | exact Hlookup].
  intros ? ? [= _ <-] p os. rewrite lookup_empty. discriminate.
Qed.




End RunTick.


(** The tick of [cheap_ask_state] at position -20: the only entry of the
    result is the PEARLS order list. *)
Lemma run_result_entries_example :
  0 = 0 /\ ""%string = ""%string /\
  run_entry_ok (cheap_ask_state (-20)) "PEARLS" cheap_ask_orders.
Proof.
  destruct (Run.run flat_volatility exp_stand_in warm_trader (cheap_ask_state (-20)))
    as [[self' [[result conversions] trader_data]]|] eqn:Erun.
  - assert (E : snd <$> Run.run flat_volatility exp_stand_in warm_trader
                          (cheap_ask_state (-20)) =
                Some (<["PEARLS"%string := cheap_ask_orders]> ∅, 0, ""%string))
      by (vm_compute; reflexivity).
    rewrite Erun in E. injection E as -> -> ->.
    apply (run_result_entries flat_volatility exp_stand_in warm_trader self'
             (cheap_ask_state (-20)) _ 0 ""%string "PEARLS" cheap_ask_orders Erun).
    apply lookup_insert_eq.
  - assert (E : is_Some (Run.run flat_volatility exp_stand_in warm_trader
                           (cheap_ask_state (-20))))
      by (vm_compute; eauto).
    rewrite Erun in E. destruct E as [? E]. discriminate E.
Defined.

(** ** Quotes and liquidity-taking orders of [generate_orders] *)

Lemma run_quotes_clamped (self : Trader) (product : string) (fair_value : Q)
    (pos limit best_bid best_ask max_buy max_sell : Z) (orders : list Order) :
  Run.market_making self product fair_value pos limit best_bid best_ask
    max_buy max_sell [] = Some orders ->
  Forall (quote_clamped product best_bid best_ask) orders /\
  (length orders <= 2)%nat.
Proof.
  unfold Run.market_making.
  destruct (volatility self !! product) as [vol|]; simpl; [|discriminate].
  destruct (Py.truediv pos limit) as [ratio|]; simpl; [|discriminate].
  destruct (Py.Qltb 0.5 ratio); [|destruct (Py.Qltb ratio (-0.5))];
    emission_cases; intros [= <-]; cbn [app length];
    (split; [|lia]); apply List.Forall_forall; intros o Ho; in_singletons;
    unfold quote_clamped; cbn [symbol price quantity];
    (split; [reflexivity |]); div_lia.
Qed.

Lemma run2_quotes_clamped (self : Trader) (product : string) (fair_value : Q)
    (pos limit best_bid best_ask max_buy max_sell : Z) (orders : list Order) :
  Run2.market_making self product fair_value pos limit best_bid best_ask
    max_buy max_sell [] = Some orders ->
  Forall (quote_clamped product best_bid best_ask) orders /\
  (length orders <= 2)%nat /\
  Forall (fun o => 0 < price o) orders.
Proof.
  unfold Run2.market_making, Run2.base_size.
  destruct (historical_data self !! product) as [history|]; simpl; [|discriminate].
  destruct (volatility self !! product) as [vol|]; simpl; [|discriminate].
  destruct (last (volumes history)) as [last_volume|]; simpl; [|discriminate].
  destruct (100 <? last_volume);
    (destruct (Py.fdiv 10 (1 + vol * 10)) as [scale|]; simpl; [|discriminate]);
    (destruct (Py.truediv pos limit) as [ratio|]; simpl; [|discriminate]);
    (destruct (Py.Qltb 0.6 ratio); [|destruct (Py.Qltb ratio (-0.6))]);
    emission_cases; cbn [andb]; intros [= <-]; cbn [app length];
    (split; [|split; [lia |]]); apply List.Forall_forall; intros o Ho;
    in_singletons; unfold quote_clamped; cbn [symbol price quantity];
    try (split; [reflexivity |]); div_lia.
Qed.

(** X5: the market-making block of [generate_orders] emits at most two
    orders, for the product itself; a buy is priced at most one tick above
    the best bid and a sell at most one tick below the best ask, whatever
    the fair value and the volatility; in [Run2.0.py] every quoted price is
    positive. *)
Theorem market_making_quotes_clamped (self : Trader) (product : string)
    (fair_value : Q) (pos limit best_bid best_ask max_buy max_sell : Z)
    (orders : list Order) :
  Run.market_making self product fair_value pos limit best_bid best_ask
    max_buy max_sell [] = Some orders \/
  Run2.market_making self product fair_value pos limit best_bid best_ask
    max_buy max_sell [] = Some orders ->
  Forall (quote_clamped product best_bid best_ask) orders /\
  (length orders <= 2)%nat /\
  (Run2.market_making self product fair_value pos limit best_bid best_ask
     max_buy max_sell [] = Some orders ->
   Forall (fun o => 0 < price o) orders).
Proof.
  intros [H | H].
  - destruct (run_quotes_clamped _ _ _ _ _ _ _ _ _ _ H) as [Hq Hl].
    split; [exact Hq | split; [exact Hl |]].
    intros H2. now destruct (run2_quotes_clamped _ _ _ _ _ _ _ _ _ _ H2) as (_ & _ & Hp).
  - destruct (run2_quotes_clamped _ _ _ _ _ _ _ _ _ _ H) as (Hq & Hl & Hp).
    split; [exact Hq | split; [exact Hl |]]. intros _. exact Hp.
Qed.

Lemma market_making_quotes_clamped_example :
  Forall (quote_clamped "PEARLS" 9955 9960) long_position_quotes /\
  (length long_position_quotes <= 2)%nat /\
  (Run2.market_making warm_trader "PEARLS" 10000 15 20 9955 9960 5 35 []
     = Some long_position_quotes ->
   Forall (fun o => 0 < price o) long_position_quotes).
Proof.
  apply (market_making_quotes_clamped warm_trader "PEARLS" 10000 15 20 9955 9960 5 35).
  left. vm_compute. reflexivity.
Defined.

Ltac arbitrage_cases_eqn od :=
  repeat match goal with
         | |- context [Py.Qltb ?a ?b && (0 <? ?x)] =>
             let E := fresh "Eband" in
             destruct (Py.Qltb a b) eqn:E; cbn [andb];
             [apply Qltb_lt in E; destruct (Z.ltb_spec 0 x) | clear E]
         | |- context [Py.getitem (sell_orders od) ?k] =>
             let E := fresh "Eask" in
             destruct (Py.getitem (sell_orders od) k) eqn:E; cbn [mbind option_bind];
             [|discriminate]
         | |- context [Py.getitem (buy_orders od) ?k] =>
             let E := fresh "Ebid" in
             destruct (Py.getitem (buy_orders od) k) eqn:E; cbn [mbind option_bind];
             [|discriminate]
         end.






Ltac arbitrage_one_sided od :=
  intros Hfair Hbook; cbn [mbind option_bind];
  arbitrage_cases_eqn od; cbn [mbind option_bind];
  intros [= <-]; cbn [app length]; try lia;
  exfalso; rewrite Zle_Qle in Hbook; lra.

Lemma run_arbitrage_one_sided (product : string) (od : OrderDepth)
    (fair_value : Q) (best_bid best_ask max_buy max_sell : Z)
    (orders : list Order) :
  (0 <= fair_value)%Q -> best_bid <= best_ask ->
  Run.arbitrage product od fair_value best_bid best_ask max_buy max_sell []
    = Some orders ->
  (length orders <= 1)%nat.
Proof. unfold Run.arbitrage. arbitrage_one_sided od. Qed.

Lemma run2_arbitrage_one_sided (product : string) (od : OrderDepth)
    (fair_value : Q) (best_bid best_ask max_buy max_sell : Z)
    (orders : list Order) :
  (0 <= fair_value)%Q -> best_bid <= best_ask ->
  Run2.arbitrage product od fair_value best_bid best_ask max_buy max_sell []
    = Some orders ->
  (length orders <= 1)%nat.
Proof. unfold Run2.arbitrage. arbitrage_one_sided od. Qed.

(** X7: on a book that is not crossed (best bid at most the best ask) and
    with a non-negative fair value, the liquidity-taking block never buys
    and sells in the same tick: it emits at most one order. *)
Theorem arbitrage_never_two_way (product : string) (od : OrderDepth)
    (fair_value : Q) (best_bid best_ask max_buy max_sell : Z)
    (orders : list Order) :
  (0 <= fair_value)%Q -> best_bid <= best_ask ->
  Run.arbitrage product od fair_value best_bid best_ask max_buy max_sell []
    = Some orders \/
  Run2.arbitrage product od fair_value best_bid best_ask max_buy max_sell []
    = Some orders ->
  (length orders <= 1)%nat.
Proof.
  intros Hfair Hbook [H | H].
  - now apply (run_arbitrage_one_sided product od fair_value best_bid best_ask
                 max_buy max_sell).
  - now apply (run2_arbitrage_one_sided product od fair_value best_bid best_ask
                 max_buy max_sell).
Qed.

Lemma arbitrage_never_two_way_example :
  (length [mkOrder "PEARLS" 9960 40] <= 1)%nat.
Proof.
  apply (arbitrage_never_two_way "PEARLS" cheap_ask_book 10000 9955 9960 40 0).
  - vm_compute. discriminate.
  - lia.
  - left. vm_compute. reflexivity.
Defined.

(** ** Volatility-scaled base size of [Run2.0.py] *)

Lemma int_nonneg (x : Q) : (0 <= x)%Q -> Py.int x = Qfloor x.
Proof.
  intros Hx. unfold Py.int.
  destruct (Qle_bool 0 x) eqn:E; [reflexivity |].
  apply Qle_bool_iff in Hx. congruence.
Qed.

Lemma base_size_value (vol : Q) :
  (0 <= vol)%Q ->
  Run2.base_size vol = Some (Z.min 10 (Z.max 2 (Qfloor (10 / (1 + vol * 10))))).
Proof.
  intros Hvol. unfold Run2.base_size, Py.fdiv.
  destruct (Qeq_bool (1 + vol * 10) 0) eqn:E.
  - apply Qeq_bool_iff in E. lra.
  - cbn [mbind option_bind]. rewrite int_nonneg; [reflexivity |].
    apply Qle_shift_div_l; lra.
Qed.

(** X8: for a non-negative volatility the base size of line 243 is
    defined, lies between 2 and 10, and never grows when the volatility
    grows. *)
Theorem base_size_shrinks_with_volatility (vol1 vol2 : Q) :
  (0 <= vol1)%Q -> (vol1 <= vol2)%Q ->
  exists size1 size2,
    Run2.base_size vol1 = Some size1 /\
    Run2.base_size vol2 = Some size2 /\
    2 <= size2 /\ size2 <= size1 /\ size1 <= 10.
Proof.
  intros H1 H12.
  rewrite !base_size_value by lra.
  eexists _, _. split; [reflexivity | split; [reflexivity |]].
  assert (Hle : Qfloor (10 / (1 + vol2 * 10)) <= Qfloor (10 / (1 + vol1 * 10))).
  { apply Qfloor_resp_le.
    apply Qle_shift_div_l; [lra |].
    assert (H : (10 / (1 + vol2 * 10) * (1 + vol2 * 10) == 10)%Q) by (field; lra).
    assert (Hpos : (0 <= 10 / (1 + vol2 * 10))%Q) by (apply Qle_shift_div_l; lra).
    assert (Hmono : (10 / (1 + vol2 * 10) * (1 + vol1 * 10) <=
                     10 / (1 + vol2 * 10) * (1 + vol2 * 10))%Q).
    { rewrite !(Qmult_comm (10 / (1 + vol2 * 10))).
      apply Qmult_le_compat_r; lra. }
    lra. }
  lia.
Qed.

(** Volatility 0.1 gives 5, volatility 0.4 gives 2. *)
Lemma base_size_shrinks_with_volatility_example :
  exists size1 size2,
    Run2.base_size 0.1 = Some size1 /\
    Run2.base_size 0.4 = Some size2 /\
    2 <= size2 /\ size2 <= size1 /\ size1 <= 10.
Proof.
  apply (base_size_shrinks_with_volatility 0.1 0.4).
  - vm_compute. discriminate.
  - vm_compute. discriminate.
Defined.

(** ** Fair values are averages *)

Lemma abs_value_between (lo hi : Z) (levels : list (Z * Z)) :
  Forall (fun pv => lo <= fst pv <= hi) levels ->
  lo * abs_volume levels <= abs_value levels <= hi * abs_volume levels.
Proof.
  induction 1 as [|[p v] levels Hp _ IH]; simpl in *; [lia |].
  assert (0 <= Z.abs v) by lia. nia.
Qed.

Lemma calculate_vwap_ratio (od : OrderDepth) :
  bids_positive od ->
  0 < abs_volume (all_levels od) ->
  calculate_vwap od =
  (inject_Z (abs_value (all_levels od)) / inject_Z (abs_volume (all_levels od)))%Q.
Proof.
  intros Hb Hvol. unfold calculate_vwap, all_levels in *.
  rewrite (vwap_buy_loop_sums _ 0 0 Hb), vwap_sell_loop_sums.
  rewrite abs_value_app, abs_volume_app in *. cbn beta iota. rewrite !Z.add_0_l.
  destruct (Z.eqb_spec (abs_volume (buy_orders od) + abs_volume (sell_orders od)) 0);
    [lia | reflexivity].
Qed.

(** X9: on a book with positive bid quantities and some volume,
    [calculate_vwap] lies between the lowest and the highest quoted price:
    any bounds on the prices of all levels bound the result. *)
Theorem calculate_vwap_between_prices (od : OrderDepth) (lo hi : Z) :
  bids_positive od ->
  0 < abs_volume (all_levels od) ->
  Forall (fun pv => lo <= fst pv <= hi) (all_levels od) ->
  (inject_Z lo <= calculate_vwap od)%Q /\ (calculate_vwap od <= inject_Z hi)%Q.
Proof.
  intros Hb Hvol Hprices.
  rewrite calculate_vwap_ratio by assumption.
  destruct (abs_value_between lo hi _ Hprices) as [Hlo Hhi].
  assert (Hpos : (0 < inject_Z (abs_volume (all_levels od)))%Q).
  { change 0%Q with (inject_Z 0). now rewrite <- Zlt_Qlt. }
  split.
  - apply Qle_shift_div_l; [exact Hpos |].
    rewrite <- inject_Z_mult, <- Zle_Qle. exact Hlo.
  - apply Qle_shift_div_r; [exact Hpos |].
    rewrite <- inject_Z_mult, <- Zle_Qle. exact Hhi.
Qed.

(** The specification's book: prices 9 to 11, VWAP 121/12. *)
Lemma calculate_vwap_between_prices_example :
  (inject_Z 9 <= calculate_vwap example_book)%Q /\
  (calculate_vwap example_book <= inject_Z 11)%Q.
Proof.
  apply (calculate_vwap_between_prices example_book 9 11).
  - repeat constructor.
  - vm_compute. reflexivity.
  - repeat constructor; simpl; lia.
Defined.

Lemma np_dot_between (lo hi : Q) (ps ws : list Q) :
  length ps = length ws ->
  Forall (fun p => (lo <= p <= hi)%Q) ps ->
  Forall (fun w => (0 <= w)%Q) ws ->
  (lo * np_sum ws <= np_dot ps ws)%Q /\ (np_dot ps ws <= hi * np_sum ws)%Q.
Proof.
  revert ws. induction ps as [|p ps IH]; intros [|w ws] Hlen Hps Hws;
    simpl in *; try discriminate.
  - split; lra.
  - inversion Hps as [|? ? [Hlo Hhi] Hps']; subst.
    inversion Hws as [|? ? Hw Hws']; subst.
    destruct (IH ws ltac:(lia) Hps' Hws') as [IHlo IHhi].
    assert (Hlw : (lo * w <= p * w)%Q) by (apply Qmult_le_compat_r; assumption).
    assert (Hhw : (p * w <= hi * w)%Q) by (apply Qmult_le_compat_r; assumption).
    split; lra.
Qed.

Lemma normalize_nonneg (ws : list Q) :
  ws <> [] -> Forall (fun w => (0 < w)%Q) ws ->
  Forall (fun w => (0 <= w)%Q) (normalize ws).
Proof.
  intros Hne Hpos. pose proof (np_sum_positive ws Hne Hpos) as Hsum.
  unfold normalize. apply List.Forall_forall. intros x Hx.
  apply in_map_iff in Hx as (w & <- & Hw).
  rewrite List.Forall_forall in Hpos. specialize (Hpos w Hw).
  apply Qle_shift_div_l; lra.
Qed.

Lemma weighted_average_between (lo hi : Q) (ps ws : list Q) :
  length ps = length ws -> ws <> [] ->
  Forall (fun w => (0 < w)%Q) ws ->
  Forall (fun p => (lo <= p <= hi)%Q) ps ->
  (lo <= np_dot ps (normalize ws))%Q /\ (np_dot ps (normalize ws) <= hi)%Q.
Proof.
  intros Hlen Hne Hpos Hps.
  destruct (np_dot_between lo hi ps (normalize ws)) as [Hlo Hhi].
  - now rewrite normalize_length.
  - exact Hps.
  - now apply normalize_nonneg.
  - pose proof (normalize_sum ws Hne Hpos) as Hsum. unfold normalized in Hsum.
    rewrite Hsum in Hlo, Hhi. split; lra.
Qed.

Lemma ones_positive (n : nat) : Forall (fun w => (0 < w)%Q) (repeat 1%Q n).
Proof.
  apply List.Forall_forall. intros x Hx. apply repeat_spec in Hx as ->. reflexivity.
Qed.

Section RecencyAverage.

Variable np_exp : Q -> Q.

Hypothesis np_exp_positive : forall x : Q, (0 <= x)%Q -> (0 < np_exp x)%Q.

Lemma run_weights_between (lo hi : Q) (ps : list Q) :
  ps <> [] ->
  Forall (fun p => (lo <= p <= hi)%Q) ps ->
  (lo <= np_dot ps (Run.recency_weights np_exp (length ps)))%Q /\
  (np_dot ps (Run.recency_weights np_exp (length ps)) <= hi)%Q.
Proof.
  intros Hne Hps. unfold Run.recency_weights.
  apply weighted_average_between.
  - now rewrite length_map, np_linspace_length.
  - intros H. apply (f_equal (@length Q)) in H.
    rewrite length_map, np_linspace_length in H.
    destruct ps; [contradiction | discriminate].
  - apply exp_grid_positive; [exact np_exp_positive | reflexivity].
  - exact Hps.
Qed.

Lemma run2_weights_between (lo hi : Q) (ps : list Q) :
  ps <> [] ->
  Forall (fun p => (lo <= p <= hi)%Q) ps ->
  (lo <= np_dot ps (Run2.recency_weights np_exp (length ps)))%Q /\
  (np_dot ps (Run2.recency_weights np_exp (length ps)) <= hi)%Q.
Proof.
  intros Hne Hps. unfold Run2.recency_weights.
  assert (Hlen : length ps <> 0%nat) by (destruct ps; [contradiction | discriminate]).
  destruct (length ps <? 5)%nat.
  - apply weighted_average_between.
    + now rewrite repeat_length.
    + destruct (length ps); [contradiction | discriminate].
    + apply ones_positive.
    + exact Hps.
  - apply weighted_average_between.
    + now rewrite length_map, np_linspace_length.
    + intros H. apply (f_equal (@length Q)) in H.
      rewrite length_map, np_linspace_length in H. simpl in H. contradiction.
    + apply exp_grid_positive; [exact np_exp_positive | reflexivity].
    + exact Hps.
Qed.

(** X10: with a non-empty stored history, [calculate_bananas_fair_value]
    of both files returns a value between the lowest and the highest stored
    mid price: any bounds on the stored prices bound the fair value. *)
Theorem bananas_fair_value_between_prices (self : Trader) (state : TradingState)
    (product : string) (history : History) (lo hi : Q) :
  historical_data self !! product = Some history ->
  prices history <> [] ->
  Forall (fun p => (lo <= p <= hi)%Q) (prices history) ->
  (exists value,
      Run.calculate_bananas_fair_value np_exp self state product = Some value /\
      (lo <= value <= hi)%Q) /\
  (exists value,
      Run2.calculate_bananas_fair_value np_exp self state product = Some value /\
      (lo <= value <= hi)%Q).
Proof.
  intros Hh Hne Hps. split.
  - unfold Run.calculate_bananas_fair_value. rewrite Hh. cbn [mbind option_bind].
    destruct (prices history) as [|p ps] eqn:E; [contradiction |].
    eexists; split; [reflexivity |]. now apply run_weights_between.
  - unfold Run2.calculate_bananas_fair_value. rewrite Hh. cbn [mbind option_bind].
    destruct (prices history) as [|p ps] eqn:E; [contradiction |].
    eexists; split; [reflexivity |]. now apply run2_weights_between.
Qed.

End RecencyAverage.

Lemma bananas_fair_value_between_prices_example :
  (exists value,
      Run.calculate_bananas_fair_value exp_stand_in two_price_trader
        (cheap_ask_state 0) "BANANAS" = Some value /\
      (4950 <= value <= 4952)%Q) /\
  (exists value,
      Run2.calculate_bananas_fair_value exp_stand_in two_price_trader
        (cheap_ask_state 0) "BANANAS" = Some value /\
      (4950 <= value <= 4952)%Q).
Proof.
  apply (bananas_fair_value_between_prices exp_stand_in exp_stand_in_positive
           two_price_trader (cheap_ask_state 0) "BANANAS" two_price_history).
  - vm_compute. reflexivity.
  - discriminate.
  - repeat constructor; vm_compute; discriminate.
Defined.

Lemma np_dot_uniform (ps : list Q) (t : Q) :
  (np_dot ps (map (fun w => w / t) (repeat 1 (length ps))) == np_sum ps / t)%Q.
Proof.
  induction ps as [|p ps IH]; simpl.
  - unfold Qdiv. ring.
  - rewrite IH. unfold Qdiv. ring.
Qed.

(** X11: in [Run2.0.py], with one to four stored mid prices the
    recency-weighted fair value is their arithmetic mean, whatever
    [np.exp] is. *)
Theorem early_fair_value_is_mean (np_exp : Q -> Q) (self : Trader)
    (state : TradingState) (product : string) (history : History) :
  historical_data self !! product = Some history ->
  prices history <> [] ->
  (length (prices history) < 5)%nat ->
  exists value,
    Run2.calculate_bananas_fair_value np_exp self state product = Some value /\
    (value == np_sum (prices history) /
              inject_Z (Z.of_nat (length (prices history))))%Q.
Proof.
  intros Hh Hne Hlen.
  unfold Run2.calculate_bananas_fair_value. rewrite Hh. cbn [mbind option_bind].
  destruct (prices history) as [|p ps] eqn:E; [contradiction |].
  eexists; split; [reflexivity |].
  unfold Run2.recency_weights. apply Nat.ltb_lt in Hlen. rewrite Hlen.
  unfold normalize. rewrite np_dot_uniform. now rewrite np_sum_repeat_1.
Qed.

(** Prices 4950 and 4952 give 4951. *)
Lemma early_fair_value_is_mean_example :
  exists value,
    Run2.calculate_bananas_fair_value exp_stand_in two_price_trader
      (cheap_ask_state 0) "BANANAS" = Some value /\
    (value == np_sum (prices two_price_history) /
              inject_Z (Z.of_nat (length (prices two_price_history))))%Q.
Proof.
  apply (early_fair_value_is_mean exp_stand_in two_price_trader (cheap_ask_state 0)
           "BANANAS" two_price_history).
  - vm_compute. reflexivity.
  - discriminate.
  - simpl. lia.
Defined.

(** ** [run3.py]: voucher fair value and orders *)

(** X12: the voucher fair value of [run3.py] is never negative and never
    below a fifth of the intrinsic value [max(0, rock - strike)]; for a
    non-negative timestamp at most seven periods are left and the fair
    value is at most the intrinsic value. *)
Theorem run3_fair_value_bounds (ts : Z) (rock : Q) (strike : Z) :
  0 <= ts ->
  let intrinsic := Qmax 0 (rock - inject_Z strike) in
  let fair := Run3.fair_value rock strike (Run3.time_left ts) in
  Run3.time_left ts <= 7 /\
  (0 <= fair)%Q /\ ((1 # 5) * intrinsic <= fair)%Q /\ (fair <= intrinsic)%Q.
Proof.
  intros Hts intrinsic fair.
  assert (Hleft : Run3.time_left ts <= 7).
  { unfold Run3.time_left. rewrite int_of_timestamp_ratio.
    pose proof (Z.quot_pos ts 100000 Hts ltac:(lia)). lia. }
  assert (Hint : (0 <= intrinsic)%Q) by apply Q.le_max_l.
  assert (Hfloor : (1 # 5 <= Run3.time_decay_factor (Run3.time_left ts))%Q).
  { unfold Run3.time_decay_factor.
    eapply Qle_trans; [|apply Q.le_max_l]. vm_compute. discriminate. }
  assert (Hcap : (Run3.time_decay_factor (Run3.time_left ts) <= 1)%Q).
  { unfold Run3.time_decay_factor. apply Q.max_lub; [vm_compute; discriminate |].
    apply Qle_shift_div_r; [reflexivity |].
    rewrite Qmult_1_l. change 7%Q with (inject_Z 7). now rewrite <- Zle_Qle. }
  unfold fair, Run3.fair_value. fold intrinsic.
  set (decay := Run3.time_decay_factor (Run3.time_left ts)) in *.
  assert (H1 : (intrinsic * (1 # 5) <= intrinsic * decay)%Q).
  { rewrite !(Qmult_comm intrinsic). now apply Qmult_le_compat_r. }
  assert (H2 : (intrinsic * decay <= intrinsic * 1)%Q).
  { rewrite !(Qmult_comm intrinsic). now apply Qmult_le_compat_r. }
  split; [exact Hleft |]. split; [|split]; lra.
Qed.

(** Timestamp 250000, rock at 10100, strike 9500: intrinsic 600, fair
    value 3000/7. *)
Lemma run3_fair_value_bounds_example :
  let intrinsic := Qmax 0 (10100 - inject_Z 9500) in
  let fair := Run3.fair_value 10100 9500 (Run3.time_left 250000) in
  Run3.time_left 250000 <= 7 /\
  (0 <= fair)%Q /\ ((1 # 5) * intrinsic <= fair)%Q /\ (fair <= intrinsic)%Q.
Proof.
  apply (run3_fair_value_bounds 250000 10100 9500). lia.
Defined.

Lemma run3_voucher_orders_sides (product : string) (od : OrderDepth)
    (rock : Q) (strike time_left pos limit : Z) :
  bids_positive od -> asks_negative od ->
  - limit <= pos <= limit ->
  exists orders,
    Run3.voucher_orders product od rock strike time_left pos limit = Some orders /\
    sides_within_limit pos limit orders /\
    (length orders <= 2)%nat /\
    Forall (fun o =>
      symbol o = product /\
      (0 < quantity o ->
       price o = best_ask_or_0 od /\
       (inject_Z (price o) < Run3.fair_value rock strike time_left)%Q) /\
      (quantity o < 0 ->
       price o = best_bid_or_0 od /\
       (Run3.fair_value rock strike time_left < inject_Z (price o))%Q) /\
      quantity o <> 0) orders.
Proof.
  intros Hb Ha Hpos. unfold Run3.voucher_orders.
  fold (best_bid_or_0 od). fold (best_ask_or_0 od).
  set (fair := Run3.fair_value rock strike time_left).
  destruct (Z.eqb_spec (best_ask_or_0 od) 0) as [Ea | Ea];
    destruct (Z.eqb_spec (best_bid_or_0 od) 0) as [Eb | Eb]; cbn [negb andb];
    try (destruct (best_ask_listed od Ea) as [ask_volume Eask];
         pose proof (getitem_ask_negative od _ _ Ha Eask); rewrite Eask);
    try (destruct (best_bid_listed od Eb) as [bid_volume Ebid];
         pose proof (getitem_bid_positive od _ _ Hb Ebid); rewrite Ebid);
    repeat match goal with
           | |- context [Py.Qltb ?a ?b && (?x <? ?y)] =>
               let E := fresh "Eband" in
               destruct (Py.Qltb a b) eqn:E; cbn [andb];
               [apply Qltb_lt in E; destruct (Z.ltb_spec x y) | clear E]
           end;
    cbn [mbind option_bind app];
    (eexists; split; [reflexivity |]);
    unfold sides_within_limit; cbn [buy_total sell_total fold_right quantity length];
    (split; [lia |]); (split; [lia |]);
    apply List.Forall_forall; intros o Ho; in_singletons;
    cbn [symbol price quantity];
    repeat match goal with
           | |- _ /\ _ => split
           | |- _ -> _ => intro
           end; try reflexivity; try assumption; try lia.
Qed.

(** X13: for a voucher with a well-formed book and a position within its
    limit, [run3.py] emits at most one buy, at the best ask and only when
    that is below the fair value, and at most one sell, at the best bid and
    only when that is above the fair value; if every order fills, neither
    the bought nor the sold quantity takes the position past the limit. *)
Theorem run3_orders_within_limit (product : string) (od : OrderDepth)
    (rock : Q) (strike time_left pos limit : Z) :
  bids_positive od -> asks_negative od ->
  - limit <= pos <= limit ->
  exists orders,
    Run3.voucher_orders product od rock strike time_left pos limit = Some orders /\
    sides_within_limit pos limit orders /\
    (length orders <= 2)%nat /\
    Forall (fun o =>
      symbol o = product /\
      (0 < quantity o ->
       price o = best_ask_or_0 od /\
       (inject_Z (price o) < Run3.fair_value rock strike time_left)%Q) /\
      (quantity o < 0 ->
       price o = best_bid_or_0 od /\
       (Run3.fair_value rock strike time_left < inject_Z (price o))%Q) /\
      quantity o <> 0) orders.
Proof. apply run3_voucher_orders_sides. Qed.

(** Position 0, limit 200, rock at 10100 and strike 9500 on
    [voucher_book]: one buy of 100 at the best ask 80. *)
Lemma run3_orders_within_limit_example :
  exists orders,
    Run3.voucher_orders "VOLCANIC_ROCK_VOUCHER_9500" voucher_book 10100 9500 5 0 200
      = Some orders /\
    sides_within_limit 0 200 orders /\
    (length orders <= 2)%nat /\
    Forall (fun o =>
      symbol o = "VOLCANIC_ROCK_VOUCHER_9500"%string /\
      (0 < quantity o ->
       price o = best_ask_or_0 voucher_book /\
       (inject_Z (price o) < Run3.fair_value 10100 9500 5)%Q) /\
      (quantity o < 0 ->
       price o = best_bid_or_0 voucher_book /\
       (Run3.fair_value 10100 9500 5 < inject_Z (price o))%Q) /\
      quantity o <> 0) orders.
Proof.
  apply (run3_orders_within_limit "VOLCANIC_ROCK_VOUCHER_9500" voucher_book
           10100 9500 5 0 200).
  - repeat constructor.
  - repeat constructor.
  - lia.
Defined.

Lemma run3_voucher_orders_defined (product : string) (od : OrderDepth)
    (rock : Q) (strike time_left pos limit : Z) :
  exists orders,
    Run3.voucher_orders product od rock strike time_left pos limit = Some orders.
Proof.
  unfold Run3.voucher_orders.
  fold (best_bid_or_0 od). fold (best_ask_or_0 od).
  destruct (Z.eqb_spec (best_ask_or_0 od) 0) as [Ea | Ea];
    destruct (Z.eqb_spec (best_bid_or_0 od) 0) as [Eb | Eb]; cbn [negb andb];
    try (destruct (best_ask_listed od Ea) as [ask_volume ->]);
    try (destruct (best_bid_listed od Eb) as [bid_volume ->]);
    repeat match goal with
           | |- context [Py.Qltb ?a ?b && (?x <? ?y)] =>
               destruct (Py.Qltb a b && (x <? y))
           end;
    cbn [mbind option_bind]; eauto.
Qed.

Lemma run3_fold_entries (state : TradingState) (l : list (string * Z))
    (result : gmap string (list Order)) :
  (forall p s, In (p, s) l -> In (p, s) vouchers) ->
  (forall p os, result !! p = Some os -> run3_entry_ok state p os) ->
  exists result',
    foldl (fun acc '(product, strike) =>
             acc ≫= fun result =>
               Run3.run_voucher state (Run3.rock_price state)
                 (Run3.time_left (timestamp state)) result product strike)
          (Some result) l = Some result' /\
    (Run3.rock_price state = None -> result' = result) /\
    (forall p os, result' !! p = Some os -> run3_entry_ok state p os).
Proof.
  revert result. induction l as [|[product strike] l IH]; intros result Hl Hok;
    cbn [foldl mbind option_bind].
  - eauto.
  - assert (Hin : In (product, strike) vouchers) by (apply Hl; now left).
    assert (Hlimit : Run3.position_limits !! product = Some 200).
    { unfold vouchers in Hin. simpl in Hin.
      repeat destruct Hin as [[= <- <-] | Hin]; try reflexivity. destruct Hin. }
    assert (Hl' : forall p s, In (p, s) l -> In (p, s) vouchers)
      by (intros p s Hp; apply Hl; now right).
    unfold Run3.run_voucher at 2.
    destruct (Py.getitem (order_depths state) product) as [od|] eqn:Eod;
      [|now apply IH].
    destruct (Run3.rock_price state) as [rock|] eqn:Erock.
    2: { destruct (IH result Hl' Hok) as (result' & Hfold & Hnone & Hok').
         exists result'. try rewrite Erock in Hfold. auto. }
    rewrite Hlimit. cbn [mbind option_bind].
    destruct (run3_voucher_orders_defined product od rock strike
                (Run3.time_left (timestamp state))
                (default 0 (position state !! product)) 200) as [orders Eorders].
    rewrite Eorders. cbn [mbind option_bind].
    destruct orders as [|o orders].
    + destruct (IH result Hl' Hok) as (result' & Hfold & _ & Hok').
      exists result'. try rewrite Erock in Hfold.
      split; [exact Hfold | split; [discriminate | exact Hok']].
    + destruct (IH (<[product := o :: orders]> result) Hl') as (result' & Hfold & _ & Hok').
      { intros p os. destruct (decide (product = p)) as [<- | Hne].
        - rewrite lookup_insert_eq. intros [= <-]. split; [discriminate |].
          exists od, strike, rock. auto.
        - rewrite lookup_insert_ne by exact Hne. apply Hok. }
      exists result'. try rewrite Erock in Hfold.
      split; [exact Hfold | split; [discriminate | exact Hok']].
Qed.

(** X14: [run] of [run3.py] raises nothing.  It stores the rock mid price
    under VOLCANIC_ROCK when the rock book is priceable and leaves the
    fair-value table alone otherwise; without a rock mid price it emits no
    order at all; and every entry of its result is the non-empty order list
    of a listed voucher present in the snapshot.  Conversions are 0 and the
    trader data is empty. *)
Theorem run3_run_result (fair_values : gmap string Q) (state : TradingState) :
  exists result,
    Run3.run fair_values state =
      Some (match Run3.rock_price state with
            | Some mid => <["VOLCANIC_ROCK"%string := mid]> fair_values
            | None => fair_values
            end, (result, 0, ""%string)) /\
    (Run3.rock_price state = None -> result = ∅) /\
    (forall product orders,
        result !! product = Some orders -> run3_entry_ok state product orders).
Proof.
  unfold Run3.run.
  destruct (run3_fold_entries state vouchers ∅) as (result & Hfold & Hnone & Hok).
  - auto.
  - intros p os. rewrite lookup_empty. discriminate.
  - exists result. rewrite Hfold. cbn [mbind option_bind]. auto.
Qed.

(** ** Profit margin of the level-walking loops *)

Section Margin.

Variables (voucher : string) (depth : OrderDepth) (fair_price : Q) (limit : Z).

Lemma margin_order_buy (within : Q -> Q -> Prop) (ask volume resting : Z) :
  within (inject_Z ask) (fair_price - 1.5)%Q ->
  Py.getitem (sell_orders depth) ask = Some resting ->
  0 < volume -> volume <= - resting ->
  margin_order within depth fair_price (mkOrder voucher ask volume).
Proof.
  intros Hband Hget Hpos Hle. unfold margin_order; cbn [price quantity].
  split; [|split]; [intros _ | intros H; lia | lia].
  split; [exact Hband | eauto].
Qed.

Lemma margin_order_sell (within : Q -> Q -> Prop) (bid volume resting : Z) :
  within (fair_price + 1.5)%Q (inject_Z bid) ->
  Py.getitem (buy_orders depth) bid = Some resting ->
  0 < volume -> volume <= resting ->
  margin_order within depth fair_price (mkOrder voucher bid (- volume)).
Proof.
  intros Hband Hget Hpos Hle. unfold margin_order; cbn [price quantity].
  split; [|split]; [intros H; lia | intros _ | lia].
  split; [exact Hband |]. exists resting. split; [exact Hget | lia].
Qed.

Lemma run5_buy_loop_margin (ask_prices : list Z) :
  forall (pos : Z) (orders0 : list Order) (result : Z * list Order),
    Run5.buy_loop voucher depth fair_price limit ask_prices pos orders0
      = Some result ->
    Forall (margin_order Qlt depth fair_price) orders0 ->
    Forall (margin_order Qlt depth fair_price) (snd result).
Proof.
  induction ask_prices as [|ask_price rest IH]; intros pos orders0 result;
    cbn [Run5.buy_loop].
  - intros [= <-]. auto.
  - destruct (Qle_bool (fair_price - 1.5) (inject_Z ask_price)) eqn:Eband;
      cbn [orb]; [intros [= <-]; auto |].
    destruct (limit <=? pos); [intros [= <-]; auto |].
    destruct (Py.getitem (sell_orders depth) ask_price) as [resting|] eqn:Eget;
      cbn [mbind option_bind]; [|discriminate].
    destruct (Z.ltb_spec 0 (Z.min (limit - pos) (- resting))) as [Hvol | Hvol].
    + intros Hrun Hall. apply (IH _ _ _ Hrun).
      apply List.Forall_app. split; [exact Hall |]. constructor; [|constructor].
      apply margin_order_buy with (resting := resting); try assumption; try lia.
      apply Qnot_le_lt. intros Hle. apply Qle_bool_iff in Hle. congruence.
    + apply IH.
Qed.

Lemma run5_sell_loop_margin (bid_prices : list Z) :
  forall (pos : Z) (orders0 : list Order) (result : Z * list Order),
    Run5.sell_loop voucher depth fair_price limit bid_prices pos orders0
      = Some result ->
    Forall (margin_order Qlt depth fair_price) orders0 ->
    Forall (margin_order Qlt depth fair_price) (snd result).
Proof.
  induction bid_prices as [|bid_price rest IH]; intros pos orders0 result;
    cbn [Run5.sell_loop].
  - intros [= <-]. auto.
  - destruct (Qle_bool (inject_Z bid_price) (fair_price + 1.5)) eqn:Eband;
      cbn [orb]; [intros [= <-]; auto |].
    destruct (pos <=? - limit); [intros [= <-]; auto |].
    destruct (Py.getitem (buy_orders depth) bid_price) as [resting|] eqn:Eget;
      cbn [mbind option_bind]; [|discriminate].
    destruct (Z.ltb_spec 0 (Z.min (limit + pos) resting)) as [Hvol | Hvol].
    + intros Hrun Hall. apply (IH _ _ _ Hrun).
      apply List.Forall_app. split; [exact Hall |]. constructor; [|constructor].
      apply margin_order_sell with (resting := resting); try assumption; try lia.
      apply Qnot_le_lt. intros Hle. apply Qle_bool_iff in Hle. congruence.
    + apply IH.
Qed.

Lemma run6_buy_loop_margin (asks : list Z) :
  forall (pos : Z) (orders0 : list Order) (result : Z * list Order),
    Run6.buy_loop voucher depth fair_price limit asks pos orders0 = Some result ->
    Forall (margin_order Qle depth fair_price) orders0 ->
    Forall (margin_order Qle depth fair_price) (snd result).
Proof.
  induction asks as [|ask rest IH]; intros pos orders0 result;
    cbn [Run6.buy_loop].
  - intros [= <-]. auto.
  - destruct (limit <=? pos); [intros [= <-]; auto |].
    destruct (Py.Qltb (fair_price - 1.5) (inject_Z ask)) eqn:Eband;
      [intros [= <-]; auto |].
    destruct (Py.getitem (sell_orders depth) ask) as [resting|] eqn:Eget;
      cbn [mbind option_bind]; [|discriminate].
    destruct (Z.ltb_spec 0 (Z.min (- resting) (limit - pos))) as [Hvol | Hvol].
    + intros Hrun Hall. apply (IH _ _ _ Hrun).
      apply List.Forall_app. split; [exact Hall |]. constructor; [|constructor].
      apply margin_order_buy with (resting := resting); try assumption; try lia.
      apply Qnot_lt_le. intros Hlt. apply Qltb_lt in Hlt. congruence.
    + apply IH.
Qed.

Lemma run6_sell_loop_margin (bids : list Z) :
  forall (pos : Z) (orders0 : list Order) (result : Z * list Order),
    Run6.sell_loop voucher depth fair_price limit bids pos orders0 = Some result ->
    Forall (margin_order Qle depth fair_price) orders0 ->
    Forall (margin_order Qle depth fair_price) (snd result).
Proof.
  induction bids as [|bid rest IH]; intros pos orders0 result;
    cbn [Run6.sell_loop].
  - intros [= <-]. auto.
  - destruct (pos <=? - limit); [intros [= <-]; auto |].
    destruct (Py.Qltb (inject_Z bid) (fair_price + 1.5)) eqn:Eband;
      [intros [= <-]; auto |].
    destruct (Py.getitem (buy_orders depth) bid) as [resting|] eqn:Eget;
      cbn [mbind option_bind]; [|discriminate].
    destruct (Z.ltb_spec 0 (Z.min resting (limit + pos))) as [Hvol | Hvol].
    + intros Hrun Hall. apply (IH _ _ _ Hrun).
      apply List.Forall_app. split; [exact Hall |]. constructor; [|constructor].
      apply margin_order_sell with (resting := resting); try assumption; try lia.
      apply Qnot_lt_le. intros Hlt. apply Qltb_lt in Hlt. congruence.
    + apply IH.
Qed.

Lemma run5_voucher_orders_margin (pos : Z) (orders : list Order) :
  Run5.voucher_orders voucher depth fair_price pos limit = Some orders ->
  Forall (margin_order Qlt depth fair_price) orders.
Proof.
  unfold Run5.voucher_orders.
  destruct (Run5.buy_loop _ _ _ _ _ _ _) as [[pos1 buys]|] eqn:Ebuy;
    cbn [mbind option_bind]; [|discriminate].
  destruct (Run5.sell_loop _ _ _ _ _ _ _) as [[pos2 sells]|] eqn:Esell;
    cbn [mbind option_bind]; [|discriminate].
  intros [= <-].
  apply (run5_sell_loop_margin _ _ _ _ Esell).
  apply (run5_buy_loop_margin _ _ _ _ Ebuy). constructor.
Qed.

Lemma run6_voucher_orders_margin (pos : Z) (orders : list Order) :
  Run6.voucher_orders voucher depth fair_price pos limit = Some orders ->
  Forall (margin_order Qle depth fair_price) orders.
Proof.
  unfold Run6.voucher_orders.
  destruct (Run6.buy_loop _ _ _ _ _ _ _) as [[pos1 buys]|] eqn:Ebuy;
    cbn [mbind option_bind]; [|discriminate].
  destruct (Run6.sell_loop _ _ _ _ _ _ _) as [[pos2 sells]|] eqn:Esell;
    cbn [mbind option_bind]; [|discriminate].
  intros [= <-].
  apply (run6_sell_loop_margin _ _ _ _ Esell).
  apply (run6_buy_loop_margin _ _ _ _ Ebuy). constructor.
Qed.

(** X15: every order of the level-walking loops keeps the margin of 1.5
    around the fair price and fits the level it trades against: a buy
    lifts an ask below [fair_price - 1.5] ([run5.py]; at most that in
    [Run6.py]) for no more than the quantity resting there, a sell hits a
    bid above [fair_price + 1.5] (at least that in [Run6.py]) for no more
    than the quantity bid there; no order has quantity zero. *)
Theorem level_walking_keeps_margin (pos : Z) (orders : list Order)
    (within : Q -> Q -> Prop) :
  (Run5.voucher_orders voucher depth fair_price pos limit = Some orders /\
   within = Qlt) \/
  (Run6.voucher_orders voucher depth fair_price pos limit = Some orders /\
   within = Qle) ->
  Forall (margin_order within depth fair_price) orders.
Proof.
  intros [[H ->] | [H ->]].
  - now apply (run5_voucher_orders_margin pos).
  - now apply (run6_voucher_orders_margin pos).
Qed.

End Margin.

(** Position 0, limit 200, fair price 100 on [voucher_book]: the asks 80
    and 90 are below 98.5, the bids 120 and 110 above 101.5, and the sizes
    100, 100, 150, 250 do not exceed the resting 100, 250, 150, 300. *)
Lemma level_walking_keeps_margin_example :
  Forall (margin_order Qlt voucher_book 100)
    [mkOrder "VOLCANIC_ROCK_VOUCHER_9500" 80 100;
     mkOrder "VOLCANIC_ROCK_VOUCHER_9500" 90 100;
     mkOrder "VOLCANIC_ROCK_VOUCHER_9500" 120 (-150);
     mkOrder "VOLCANIC_ROCK_VOUCHER_9500" 110 (-250)].
Proof.
  apply (level_walking_keeps_margin "VOLCANIC_ROCK_VOUCHER_9500" voucher_book
           100 200 0).
  left. split; reflexivity.
Defined.

(** ** [run5.py] and [Run6.py]: the whole of [run] *)

Section LevelWalkingDefined.

Variables (voucher : string) (depth : OrderDepth) (fair_price : Q) (limit : Z).







End LevelWalkingDefined.

Lemma voucher_limit_200 (voucher : string) (strike : Z) :
  In (voucher, strike) vouchers ->
  voucher_position_limits !! voucher = Some 200 /\
  Run6.position_limits !! voucher = Some 200.
Proof.
  unfold vouchers. simpl.
  intros Hin. repeat destruct Hin as [[= <- <-] | Hin];
    try (split; reflexivity). destruct Hin.
Qed.

Lemma voucher_listed (voucher : string) (strike : Z) :
  In (voucher, strike) vouchers -> In voucher (Py.keys vouchers).
Proof.
  intros Hin. unfold Py.keys. apply in_map_iff. exists (voucher, strike). auto.
Qed.


Section RunResults.

Variable math_exp : Q -> Q.




End RunResults.

(** ** [Run6.py]: MAGNIFICENT_MACARONS conversions *)

(** With integer prices both fee conditions say the same thing: the book is
    crossed by at least 5. *)
Lemma macaron_import_needs_cross (best_bid best_ask : Z) :
  Py.Qltb (inject_Z best_ask + 1 + 1 + 0.1) (inject_Z (best_bid + best_ask) / 2)
    = true ->
  best_ask + 5 <= best_bid.
Proof.
  intros H. apply Qltb_lt in H.
  unfold Qlt, Qdiv, Qmult, Qplus, Qinv, inject_Z in H. cbn in H. lia.
Qed.

Lemma macaron_export_needs_cross (best_bid best_ask : Z) :
  Py.Qltb (inject_Z (best_bid + best_ask) / 2) (inject_Z best_bid - 1 - 1) = true ->
  best_ask + 5 <= best_bid.
Proof.
  intros H. apply Qltb_lt in H.
  unfold Qlt, Qdiv, Qmult, Qminus, Qplus, Qopp, Qinv, inject_Z in H. cbn in H. lia.
Qed.

Lemma macaron_conversions_spec (state : TradingState) :
  exists conversions,
    Run6.macaron_conversions state = Some conversions /\
    - 10 <= conversions <= 10 /\
    (let pos := default 0 (position state !! "MAGNIFICENT_MACARONS"%string) in
     - 75 <= pos <= 75 -> - 75 <= pos + conversions <= 75) /\
    (conversions <> 0 ->
     exists mac_depth best_bid best_ask,
       Py.getitem (order_depths state) "MAGNIFICENT_MACARONS"%string
         = Some mac_depth /\
       In best_bid (Py.keys (buy_orders mac_depth)) /\
       In best_ask (Py.keys (sell_orders mac_depth)) /\
       best_ask + 5 <= best_bid).
Proof.
  unfold Run6.macaron_conversions.
  set (pos := default 0 (position state !! "MAGNIFICENT_MACARONS"%string)).
  destruct (Py.getitem (order_depths state) "MAGNIFICENT_MACARONS"%string)
    as [mac_depth|] eqn:Edepth.
  2: { exists 0. cbn zeta. repeat split; try lia. }
  change (Run6.position_limits !! "MAGNIFICENT_MACARONS"%string) with (Some 75).
  cbn [mbind option_bind].
  destruct (Py.sorted_reverse _) as [|best_bid bids] eqn:Ebids.
  { exists 0. cbn zeta. repeat split; try lia. }
  destruct (Py.sorted _) as [|best_ask asks] eqn:Easks.
  { exists 0. cbn zeta. repeat split; try lia. }
  assert (Hbid : In best_bid (Py.keys (buy_orders mac_depth))).
  { apply sorted_reverse_In. rewrite Ebids. now left. }
  assert (Hask : In best_ask (Py.keys (sell_orders mac_depth))).
  { apply sorted_In. rewrite Easks. now left. }
  destruct (getitem_keys _ _ Hbid) as [bid_volume Ebid].
  destruct (getitem_keys _ _ Hask) as [ask_volume Eask].
  rewrite Ebid, Eask. cbn [mbind option_bind].
  assert (Hcross : forall c, c <> 0 ->
            best_ask + 5 <= best_bid ->
            exists mac_depth' best_bid' best_ask',
              Some mac_depth = Some mac_depth' /\
              In best_bid' (Py.keys (buy_orders mac_depth')) /\
              In best_ask' (Py.keys (sell_orders mac_depth')) /\
              best_ask' + 5 <= best_bid')
    by (intros; exists mac_depth, best_bid, best_ask; auto).
  destruct (Py.Qltb (inject_Z best_ask + 1 + 1 + 0.1) _) eqn:Ebuy;
    destruct (Py.Qltb _ (inject_Z best_bid - 1 - 1)) eqn:Esell;
    cbn [andb];
    try apply macaron_import_needs_cross in Ebuy;
    try apply macaron_export_needs_cross in Esell;
    repeat match goal with
           | |- context [if ?x <? ?y then _ else _] =>
               destruct (Z.ltb_spec x y)
           end;
    cbn [mbind option_bind];
    (eexists; split; [reflexivity |]);
    (split; [lia |]); (split; [cbn zeta; lia |]);
    intros Hne; try (exfalso; lia); now apply (Hcross 1).
Qed.

(** X17: the conversion request of [Run6.py] is always defined, never
    exceeds 10 units either way, and from a MAGNIFICENT_MACARONS position
    within the limit of 75 the converted position stays within the limit. *)
Theorem macaron_conversions_within_limit (state : TradingState) :
  let pos := default 0 (position state !! "MAGNIFICENT_MACARONS"%string) in
  - 75 <= pos <= 75 ->
  exists conversions,
    Run6.macaron_conversions state = Some conversions /\
    - 10 <= conversions <= 10 /\
    - 75 <= pos + conversions <= 75.
Proof.
  intros pos Hpos.
  destruct (macaron_conversions_spec state) as (c & Hrun & Hten & Hlimit & _).
  exists c. split; [exact Hrun |]. split; [exact Hten |]. now apply Hlimit.
Qed.

(** Position 70 on a book crossed by 6 (bid 106 for 7, ask 100 for 4): the
    import of 4 and the export of 7 net to -3. *)
Lemma macaron_conversions_within_limit_example :
  exists conversions,
    Run6.macaron_conversions crossed_macaron_state = Some conversions /\
    - 10 <= conversions <= 10 /\
    - 75 <= 70 + conversions <= 75.
Proof.
  apply (macaron_conversions_within_limit crossed_macaron_state).
  vm_compute. split; discriminate.
Defined.

Lemma macaron_conversions_crossed_value :
  Run6.macaron_conversions crossed_macaron_state = Some (- 3).
Proof. vm_compute. reflexivity. Qed.

(** X18: [Run6.py] converts only on a crossed book.  If every bid of the
    MAGNIFICENT_MACARONS book is less than 5 above every ask, as on any
    uncrossed book, the conversion request is 0 whatever the position and
    the resting quantities. *)
Theorem macaron_conversions_need_crossed_book (state : TradingState)
    (mac_depth : OrderDepth) :
  Py.getitem (order_depths state) "MAGNIFICENT_MACARONS"%string = Some mac_depth ->
  (forall bid ask,
      In bid (Py.keys (buy_orders mac_depth)) ->
      In ask (Py.keys (sell_orders mac_depth)) -> bid < ask + 5) ->
  Run6.macaron_conversions state = Some 0.
Proof.
  intros Hdepth Huncrossed.
  destruct (macaron_conversions_spec state) as (c & Hrun & _ & _ & Hcross).
  destruct (Z.eq_dec c 0) as [-> | Hne]; [exact Hrun |].
  destruct (Hcross Hne) as (mac_depth' & bid & ask & Hdepth' & Hbid & Hask & Hle).
  rewrite Hdepth in Hdepth'. injection Hdepth' as <-.
  specialize (Huncrossed bid ask Hbid Hask). lia.
Qed.

(** Best bid 99, best ask 101: nothing is converted. *)
Lemma macaron_conversions_need_crossed_book_example :
  Run6.macaron_conversions quiet_macaron_state = Some 0.
Proof.
  apply (macaron_conversions_need_crossed_book quiet_macaron_state
           {| buy_orders := [(99, 30); (98, 12)];
              sell_orders := [(101, -4); (108, -30)] |}).
  - reflexivity.
  - cbn. intros bid ask [<- | [<- | []]] [<- | [<- | []]]; lia.
Defined.

Section Run6Result.

Variable math_exp : Q -> Q.


End Run6Result.

(** ** [Run7.py]: the countdown *)

(** X20: for a non-negative timestamp the countdown of [Run7.py] stays
    between 1 and 7, never grows as the timestamp grows, and is at its
    floor of 1 from timestamp 600000 on. *)
Theorem days_left_countdown (ts1 ts2 : Z) :
  0 <= ts1 <= ts2 ->
  1 <= Run7.days_left ts2 <= Run7.days_left ts1 /\
  Run7.days_left ts1 <= 7 /\
  (600000 <= ts1 -> Run7.days_left ts1 = 1).
Proof.
  intros [H1 H2]. unfold Run7.days_left. rewrite !int_of_timestamp_ratio.
  rewrite !Z.quot_div_nonneg by lia.
  pose proof (Z.div_le_mono ts1 ts2 100000 ltac:(lia) H2).
  pose proof (Z.div_pos ts1 100000 H1 ltac:(lia)).
  split; [lia |]. split; [lia |].
  intros Hlate.
  pose proof (Z.div_le_mono 600000 ts1 100000 ltac:(lia) Hlate) as Hsix.
  change (600000 / 100000) with 6 in Hsix. lia.
Qed.

(** Timestamps 250000 and 650000: 5 days, then 1. *)
Lemma days_left_countdown_example :
  1 <= Run7.days_left 650000 <= Run7.days_left 250000 /\
  Run7.days_left 250000 <= 7 /\
  (600000 <= 250000 -> Run7.days_left 250000 = 1).
Proof.
  apply (days_left_countdown 250000 650000). lia.
Defined.

(** ** [run8.py] *)

Lemma run8_limit_positive (product : string) :
  0 < default 20 (Run8.position_limits !! product).
Proof.
  unfold Run8.position_limits. cbn [list_to_map foldr curry uncurry fst snd].
  rewrite lookup_insert. case_decide; [cbn; lia |].
  rewrite lookup_insert. case_decide; [cbn; lia |].
  rewrite lookup_insert. case_decide; [cbn; lia |].
  rewrite lookup_empty. cbn. lia.
Qed.





Lemma run8_quotes_sides (product : string)
    (best_bid best_ask position limit : Z) :
  0 < limit ->
  let orders := Run8.quotes product best_bid best_ask position limit in
  orders <> [] /\ (length orders <= 2)%nat /\
  Forall (fun o => symbol o = product /\ 0 < Z.abs (quantity o) <= 5) orders /\
  (limit <= position -> Forall (fun o => quantity o < 0) orders) /\
  (position <= - limit -> Forall (fun o => 0 < quantity o) orders) /\
  (- limit <= position <= limit -> sides_within_limit position limit orders).
Proof.
  intros Hlimit. unfold Run8.quotes, sides_within_limit.
  destruct (Z.ltb_spec 0 (Z.min 5 (limit - position)));
    destruct (Z.ltb_spec 0 (Z.min 5 (limit + position)));
    cbn [app length buy_total sell_total fold_right quantity];
    try (exfalso; lia);
    (split; [discriminate |]); (split; [lia |]);
    (split; [repeat constructor; cbn [quantity]; lia |]);
    (split; [intros; repeat constructor; cbn [quantity]; lia |]);
    (split; [intros; repeat constructor; cbn [quantity]; lia |]);
    intros; lia.
Qed.

(** X22: with a positive limit [run8.py] always quotes something: one or
    two orders of between 1 and 5 units each.  At or beyond the limit it
    quotes only the side that reduces the position, and from a position
    within the limit neither the bought nor the sold quantity can take the
    position past the limit. *)
Theorem run8_quotes_within_limit (product : string)
    (best_bid best_ask position limit : Z) :
  0 < limit ->
  let orders := Run8.quotes product best_bid best_ask position limit in
  orders <> [] /\ (length orders <= 2)%nat /\
  Forall (fun o => symbol o = product /\ 0 < Z.abs (quantity o) <= 5) orders /\
  (limit <= position -> Forall (fun o => quantity o < 0) orders) /\
  (position <= - limit -> Forall (fun o => 0 < quantity o) orders) /\
  (- limit <= position <= limit -> sides_within_limit position limit orders).
Proof. apply run8_quotes_sides. Qed.

(** Position 18 of 20: buy 2, sell 5. *)
Lemma run8_quotes_within_limit_example :
  let orders := Run8.quotes "PEARLS" 9998 10003 18 20 in
  orders <> [] /\ (length orders <= 2)%nat /\
  Forall (fun o => symbol o = "PEARLS"%string /\ 0 < Z.abs (quantity o) <= 5)
         orders /\
  (20 <= 18 -> Forall (fun o => quantity o < 0) orders) /\
  (18 <= - 20 -> Forall (fun o => 0 < quantity o) orders) /\
  (- 20 <= 18 <= 20 -> sides_within_limit 18 20 orders).
Proof.
  apply (run8_quotes_within_limit "PEARLS" 9998 10003 18 20). lia.
Defined.

Lemma getitem_not_listed `{EqDecision K} {V} (d : list (K * V)) (k : K) :
  ~ In k (Py.keys d) -> Py.getitem d k = None.
Proof.
  induction d as [|[k' v] d IH]; simpl; [reflexivity |].
  intros Hnot. destruct (decide (k' = k)) as [-> | _]; [tauto |].
  apply IH. tauto.
Qed.

Lemma run8_product_lookup (state : TradingState)
    (result : gmap string (list Order)) (product : string) (od : OrderDepth) :
  Run8.run_product state result product od !! product =
  match buy_orders od, sell_orders od with
  | _ :: _, _ :: _ =>
      Some (Run8.quotes product (best_bid_or_0 od) (best_ask_or_0 od)
              (default 0 (position state !! product))
              (default 20 (Run8.position_limits !! product)))
  | _, _ => result !! product
  end.
Proof.
  unfold Run8.run_product, best_bid_or_0, best_ask_or_0, Py.max_default,
    Py.min_default, Py.keys.
  destruct (buy_orders od) as [|[bid ?] bids]; [reflexivity |].
  destruct (sell_orders od) as [|[ask ?] asks]; [reflexivity |].
  cbn [map fst]. now rewrite lookup_insert_eq.
Qed.

Lemma run8_product_other (state : TradingState)
    (result : gmap string (list Order)) (product p : string) (od : OrderDepth) :
  product <> p ->
  Run8.run_product state result product od !! p = result !! p.
Proof.
  intros Hne. unfold Run8.run_product.
  destruct (Py.keys (buy_orders od)); [reflexivity |].
  destruct (Py.keys (sell_orders od)); [reflexivity |].
  now rewrite lookup_insert_ne.
Qed.

Lemma run8_fold_lookup (state : TradingState) (l : list (string * OrderDepth)) :
  List.NoDup (Py.keys l) ->
  forall (result : gmap string (list Order)) (p : string),
    foldl (fun result '(product, order_depth) =>
             Run8.run_product state result product order_depth) result l !! p =
    match Py.getitem l p with
    | Some od =>
        match buy_orders od, sell_orders od with
        | _ :: _, _ :: _ =>
            Some (Run8.quotes p (best_bid_or_0 od) (best_ask_or_0 od)
                    (default 0 (position state !! p))
                    (default 20 (Run8.position_limits !! p)))
        | _, _ => result !! p
        end
    | None => result !! p
    end.
Proof.
  induction l as [|[product od] l IH]; intros Hnodup result p;
    cbn [foldl Py.getitem]; [reflexivity |].
  cbn [Py.keys map fst] in Hnodup. apply List.NoDup_cons_iff in Hnodup as [Hnew Hrest].
  rewrite (IH Hrest). destruct (decide (product = p)) as [<- | Hne].
  - rewrite (getitem_not_listed l product Hnew). apply run8_product_lookup.
  - rewrite (run8_product_other state result product p od Hne).
    destruct (Py.getitem l p) as [od'|]; reflexivity.
Qed.

(** X23: [run] of [run8.py], which has no operation that can raise,
    returns 0 conversions, empty trader data, and an entry for exactly the
    products of the snapshot whose book has bids and asks; the entry holds
    the quotes computed from that book's best prices and is never empty. *)
Theorem run8_run_result (state : TradingState) :
  List.NoDup (Py.keys (order_depths state)) ->
  exists result,
    Run8.run state = (result, 0, ""%string) /\
    (forall product orders,
        result !! product = Some orders -> run8_entry_ok state product orders) /\
    (forall product od,
        Py.getitem (order_depths state) product = Some od ->
        buy_orders od <> [] -> sell_orders od <> [] ->
        is_Some (result !! product)).
Proof.
  intros Hnodup. unfold Run8.run. eexists. split; [reflexivity |].
  split.
  - intros product orders. rewrite (run8_fold_lookup state _ Hnodup).
    rewrite lookup_empty.
    destruct (Py.getitem (order_depths state) product) as [od|] eqn:Eod;
      [|discriminate].
    destruct (buy_orders od) as [|b bs] eqn:Eb; [discriminate |].
    destruct (sell_orders od) as [|a asks] eqn:Ea; [discriminate |].
    intros [= <-]. split.
    + apply run8_quotes_sides, run8_limit_positive.
    + exists od. split; [exact Eod |]. rewrite Eb, Ea.
      split; [discriminate |]. split; [discriminate |].
      reflexivity.
  - intros product od Hget Hb Ha. rewrite (run8_fold_lookup state _ Hnodup), Hget.
    destruct (buy_orders od); [contradiction |].
    destruct (sell_orders od); [contradiction |]. eauto.
Qed.

(** On [two_sided_state] both products get an entry. *)
Lemma run8_run_result_example :
  exists result,
    Run8.run two_sided_state = (result, 0, ""%string) /\
    (forall product orders,
        result !! product = Some orders ->
        run8_entry_ok two_sided_state product orders) /\
    (forall product od,
        Py.getitem (order_depths two_sided_state) product = Some od ->
        buy_orders od <> [] -> sell_orders od <> [] ->
        is_Some (result !! product)).
Proof.
  apply (run8_run_result two_sided_state).
  repeat constructor; cbn; intros H; decompose [or] H; discriminate || assumption.
Defined.

(** ** [Run4.py] *)

Lemma run4_best_ask_listed (depth : OrderDepth) (ask : Z) :
  Run4.best_ask depth = Some ask ->
  exists resting, Py.getitem (sell_orders depth) ask = Some resting.
Proof.
  unfold Run4.best_ask, Py.min_default. intros H. apply getitem_keys.
  destruct (Py.keys (sell_orders depth)) as [|k ks]; [discriminate |].
  injection H as <-. apply fold_min_In.
Qed.

Lemma run4_best_bid_listed (depth : OrderDepth) (bid : Z) :
  Run4.best_bid depth = Some bid ->
  exists resting, Py.getitem (buy_orders depth) bid = Some resting.
Proof.
  unfold Run4.best_bid, Py.max_default. intros H. apply getitem_keys.
  destruct (Py.keys (buy_orders depth)) as [|k ks]; [discriminate |].
  injection H as <-. apply fold_max_In.
Qed.

Lemma run4_voucher_orders_sides (product : string) (depth : OrderDepth)
    (fair_value : Q) (pos limit : Z) :
  exists orders,
    Run4.voucher_orders product depth (Run4.best_bid depth) (Run4.best_ask depth)
      fair_value pos limit = Some orders /\
    (length orders <= 2)%nat /\
    Forall (run4_order_ok product depth fair_value) orders /\
    (- limit <= pos <= limit -> sides_within_limit pos limit orders).
Proof.
  unfold Run4.voucher_orders.
  destruct (Run4.best_ask depth) as [ask|] eqn:Eask;
    destruct (Run4.best_bid depth) as [bid|] eqn:Ebid;
    try (destruct (run4_best_ask_listed depth ask Eask) as [ask_volume ->]);
    try (destruct (run4_best_bid_listed depth bid Ebid) as [bid_volume ->]);
    repeat match goal with
           | |- context [Py.Qltb ?a ?b && (?x <? ?y)] =>
               let E := fresh "Eband" in
               destruct (Py.Qltb a b) eqn:E; cbn [andb];
               [apply Qltb_lt in E; destruct (Z.ltb_spec x y) | clear E]
           end;
    cbn [mbind option_bind];
    repeat match goal with
           | |- context [if 0 <? ?v then _ else _] => destruct (Z.ltb_spec 0 v)
           end;
    cbn [mbind option_bind app];
    (eexists; split; [reflexivity |]);
    unfold sides_within_limit; cbn [buy_total sell_total fold_right quantity length];
    (split; [lia |]);
    (split; [|intros; lia]);
    repeat (apply List.Forall_cons || apply List.Forall_nil);
    unfold run4_order_ok; cbn [symbol price quantity];
    repeat match goal with
           | |- _ /\ _ => split
           | |- _ -> _ => intro
           end; try reflexivity; try assumption; try lia.
Qed.

(** X24: for any book, well-formed or not, and any position, the voucher
    logic of [Run4.py] raises nothing and emits at most one buy, at the
    best ask and only when that is below the fair value, and at most one
    sell, at the best bid and only when that is above it; no order has
    quantity zero, and from a position within the limit neither the bought
    nor the sold quantity takes the position past the limit. *)
Theorem run4_orders_within_limit (product : string) (depth : OrderDepth)
    (fair_value : Q) (pos limit : Z) :
  - limit <= pos <= limit ->
  exists orders,
    Run4.voucher_orders product depth (Run4.best_bid depth) (Run4.best_ask depth)
      fair_value pos limit = Some orders /\
    (length orders <= 2)%nat /\
    Forall (run4_order_ok product depth fair_value) orders /\
    sides_within_limit pos limit orders.
Proof.
  intros Hpos.
  destruct (run4_voucher_orders_sides product depth fair_value pos limit)
    as (orders & Hrun & Hlen & Hok & Hsides).
  exists orders. auto.
Qed.

(** On [malformed_book], whose best ask carries +500, [Run4.py] drops the
    buy that [run3.py] would emit with quantity -500. *)
Lemma run4_orders_within_limit_example :
  exists orders,
    Run4.voucher_orders "VOLCANIC_ROCK_VOUCHER_9500" malformed_book
      (Run4.best_bid malformed_book) (Run4.best_ask malformed_book)
      100 0 200 = Some orders /\
    (length orders <= 2)%nat /\
    Forall (run4_order_ok "VOLCANIC_ROCK_VOUCHER_9500" malformed_book 100) orders /\
    sides_within_limit 0 200 orders.
Proof.
  apply (run4_orders_within_limit "VOLCANIC_ROCK_VOUCHER_9500" malformed_book
           100 0 200).
  lia.
Defined.

Lemma run4_drops_what_run3_emits :
  Run4.voucher_orders "VOLCANIC_ROCK_VOUCHER_9500" malformed_book
    (Run4.best_bid malformed_book) (Run4.best_ask malformed_book)
    (Run3.fair_value 10100 9500 5) 0 200 = Some [] /\
  Run3.voucher_orders "VOLCANIC_ROCK_VOUCHER_9500" malformed_book 10100 9500 5 0 200
    = Some [mkOrder "VOLCANIC_ROCK_VOUCHER_9500" 80 (-500)].
Proof. split; vm_compute; reflexivity. Qed.

Lemma timestamp_periods (ts : Z) :
  0 <= ts ->
  (0 <= inject_Z (ts / 100000))%Q /\
  (inject_Z (ts / 100000) <= inject_Z ts / 100000)%Q /\
  (ts mod 100000 = 0 -> (inject_Z ts / 100000 == inject_Z (ts / 100000))%Q).
Proof.
  intros Hts. split; [|split].
  - change 0%Q with (inject_Z 0). rewrite <- Zle_Qle. apply Z.div_pos; lia.
  - apply Qle_shift_div_l; [reflexivity |].
    change 100000%Q with (inject_Z 100000).
    rewrite <- inject_Z_mult, <- Zle_Qle. div_lia.
  - intros Hmod. unfold Qeq, Qdiv, Qmult, Qinv, inject_Z. cbn. div_lia.
Qed.

Lemma run3_time_left_periods (ts : Z) :
  0 <= ts ->
  (inject_Z (Run3.time_left ts) == 7 - inject_Z (ts / 100000))%Q.
Proof.
  intros Hts. unfold Run3.time_left. rewrite int_of_timestamp_ratio.
  rewrite Z.quot_div_nonneg by lia.
  unfold Zminus. rewrite inject_Z_plus, inject_Z_opp. reflexivity.
Qed.

Lemma run4_decay_vs_run3 (ts : Z) :
  0 <= ts ->
  let decay4 := Run4.decay (Run4.time_left ts) in
  let decay3 := Run3.time_decay_factor (Run3.time_left ts) in
  (1 # 5 <= decay4)%Q /\ (decay4 <= decay3)%Q /\ (decay3 <= 1)%Q /\
  (ts mod 100000 = 0 -> (decay4 == decay3)%Q).
Proof.
  intros Hts decay4 decay3.
  destruct (timestamp_periods ts Hts) as (Hk0 & Hkq & Hexact).
  pose proof (run3_time_left_periods ts Hts) as Hleft.
  subst decay4 decay3.
  unfold Run4.decay, Run4.time_left, Run3.time_decay_factor.
  set (q := (inject_Z ts / 100000)%Q) in *.
  set (k := inject_Z (ts / 100000)) in *.
  set (left3 := inject_Z (Run3.time_left ts)) in *.
  set (left4 := Qmax 0.1 (7 - q)).
  destruct (Q.max_spec 0.1 (7 - q)) as [[H1 E1] | [H1 E1]]; fold left4 in E1;
    destruct (Q.max_spec 0.2 (left4 / 7)) as [[H2 E2] | [H2 E2]];
    destruct (Q.max_spec 0.2 (left3 / 7)) as [[H3 E3] | [H3 E3]];
    rewrite E2, E3; unfold Qdiv in *; change (/ 7)%Q with (1 # 7)%Q in *;
    (split; [lra |]); (split; [lra |]); (split; [lra |]);
    intros Hmod; specialize (Hexact Hmod); try lra.
Qed.

(** X25: [Run4.py] replaces the whole-period countdown of [run3.py] by a
    continuous one.  For a non-negative timestamp its voucher fair value is
    never negative and never above that of [run3.py] at the same rock price
    and strike, and the two agree at every period boundary (timestamps that
    are multiples of 100000). *)
Theorem run4_fair_value_below_run3 (ts : Z) (rock : Q) (strike : Z) :
  0 <= ts ->
  let fair4 := Run4.fair_value rock strike (Run4.decay (Run4.time_left ts)) in
  let fair3 := Run3.fair_value rock strike (Run3.time_left ts) in
  (0 <= fair4)%Q /\ (fair4 <= fair3)%Q /\
  (ts mod 100000 = 0 -> (fair4 == fair3)%Q).
Proof.
  intros Hts fair4 fair3.
  destruct (run4_decay_vs_run3 ts Hts) as (Hfloor & Hle & _ & Heq).
  subst fair4 fair3. unfold Run4.fair_value, Run3.fair_value.
  set (intrinsic := Qmax 0 (rock - inject_Z strike)).
  assert (Hint : (0 <= intrinsic)%Q) by apply Q.le_max_l.
  set (decay4 := Run4.decay (Run4.time_left ts)) in *.
  set (decay3 := Run3.time_decay_factor (Run3.time_left ts)) in *.
  split; [|split].
  - apply Qmult_le_0_compat; [exact Hint | lra].
  - rewrite !(Qmult_comm intrinsic). now apply Qmult_le_compat_r.
  - intros Hmod. now rewrite (Heq Hmod).
Qed.

(** Timestamp 250000, rock at 10100, strike 9500: 4.5 periods give
    600 * 4.5 / 7, the 5 whole periods of [run3.py] give 600 * 5 / 7. *)
Lemma run4_fair_value_below_run3_example :
  let fair4 := Run4.fair_value 10100 9500 (Run4.decay (Run4.time_left 250000)) in
  let fair3 := Run3.fair_value 10100 9500 (Run3.time_left 250000) in
  (0 <= fair4)%Q /\ (fair4 <= fair3)%Q /\
  (250000 mod 100000 = 0 -> (fair4 == fair3)%Q).
Proof.
  apply (run4_fair_value_below_run3 250000 10100 9500). lia.
Defined.

Lemma run4_voucher_limit_200 (product : string) (strike : Z) :
  In (product, strike) vouchers ->
  Run4.position_limits !! product = Some 200.
Proof.
  unfold vouchers. simpl.
  intros Hin. repeat destruct Hin as [[= <- <-] | Hin]; try reflexivity.
  destruct Hin.
Qed.

Lemma run4_fold_entries (state : TradingState) (rock_mid decay : Q)
    (l : list (string * Z)) (orders : gmap string (list Order)) :
  (forall v s, In (v, s) l -> In (v, s) vouchers) ->
  (forall v os, orders !! v = Some os -> run4_entry_ok state v os) ->
  exists orders',
    foldl (fun acc '(product, strike_price) =>
             acc ≫= fun orders =>
               Run4.run_voucher state rock_mid decay orders product strike_price)
          (Some orders) l = Some orders' /\
    (forall v os, orders' !! v = Some os -> run4_entry_ok state v os).
Proof.
  revert orders. induction l as [|[product strike] l IH]; intros orders Hl Hok;
    cbn [foldl mbind option_bind]; [eauto |].
  assert (Hin : In (product, strike) vouchers) by (apply Hl; now left).
  assert (Hl' : forall v s, In (v, s) l -> In (v, s) vouchers)
    by (intros v s Hv; apply Hl; now right).
  unfold Run4.run_voucher at 2.
  destruct (Py.getitem (order_depths state) product) as [depth|] eqn:Edepth;
    [|now apply IH].
  set (fair := Run4.fair_value rock_mid strike decay).
  set (pos := default 0 (position state !! product)).
  destruct (run4_voucher_orders_sides product depth fair pos 200)
    as (product_orders & Eorders & Hlen & Hall & Hsides).
  assert (Hstep : forall orders1,
            (limit ← Run4.position_limits !! product;
             product_orders ←
               Run4.voucher_orders product depth (Run4.best_bid depth)
                 (Run4.best_ask depth) fair pos limit;
             Some (match product_orders with
                   | [] => orders
                   | _ => <[product := product_orders]> orders
                   end)) = Some orders1 ->
            forall v os, orders1 !! v = Some os -> run4_entry_ok state v os).
  { rewrite (run4_voucher_limit_200 product strike Hin). cbn [mbind option_bind].
    rewrite Eorders. cbn [mbind option_bind].
    destruct product_orders as [|o product_orders]; intros orders1 [= <-];
      [exact Hok |].
    intros v os. destruct (decide (product = v)) as [<- | Hne].
    - rewrite lookup_insert_eq. intros [= <-].
      split; [discriminate |]. split; [exact Hlen |].
      split; [now apply (voucher_listed _ strike) |].
      split; [exists depth, fair; auto | exact Hsides].
    - rewrite lookup_insert_ne by exact Hne. apply Hok. }
  assert (Hdefined : exists orders1,
            (limit ← Run4.position_limits !! product;
             product_orders ←
               Run4.voucher_orders product depth (Run4.best_bid depth)
                 (Run4.best_ask depth) fair pos limit;
             Some (match product_orders with
                   | [] => orders
                   | _ => <[product := product_orders]> orders
                   end)) = Some orders1).
  { rewrite (run4_voucher_limit_200 product strike Hin). cbn [mbind option_bind].
    rewrite Eorders. cbn [mbind option_bind]. eauto. }
  destruct Hdefined as [orders1 Eorders1].
  destruct (Run4.best_bid depth) as [bid|] eqn:Ebid;
    destruct (Run4.best_ask depth) as [ask|] eqn:Eask;
    try (rewrite Eorders1; cbn [mbind option_bind];
         apply IH; [exact Hl' | exact (Hstep orders1 Eorders1)]).
  now apply IH.
Qed.

Lemma run4_best_bid_none (depth : OrderDepth) :
  Run4.best_bid depth = None <-> buy_orders depth = [].
Proof.
  unfold Run4.best_bid, Py.max_default, Py.keys.
  destruct (buy_orders depth); cbn [map]; split; congruence.
Qed.

Lemma run4_best_ask_none (depth : OrderDepth) :
  Run4.best_ask depth = None <-> sell_orders depth = [].
Proof.
  unfold Run4.best_ask, Py.min_default, Py.keys.
  destruct (sell_orders depth); cbn [map]; split; congruence.
Qed.

(** X26: [run] of [Run4.py] raises nothing and returns 0 conversions and
    empty trader data.  Without a VOLCANIC_ROCK book quoted on both sides
    it returns no order and leaves the fair-value table alone; otherwise
    it writes only the VOLCANIC_ROCK entry of the table, and every entry of
    its result holds one or two orders of a listed voucher whose book is
    in the snapshot, within the limit of 200 on both sides. *)
Theorem run4_run_result (fair_values : gmap string Q) (state : TradingState) :
  exists fair_values' result,
    Run4.run fair_values state = Some (fair_values', (result, 0, ""%string)) /\
    (~ rock_book_priceable state -> fair_values' = fair_values /\ result = ∅) /\
    (rock_book_priceable state -> is_Some (fair_values' !! "VOLCANIC_ROCK"%string)) /\
    (forall product,
        product <> "VOLCANIC_ROCK"%string ->
        fair_values' !! product = fair_values !! product) /\
    (forall product orders,
        result !! product = Some orders -> run4_entry_ok state product orders).
Proof.
  assert (Hnone : forall v os,
             (∅ : gmap string (list Order)) !! v = Some os ->
             run4_entry_ok state v os)
    by (intros v os; rewrite lookup_empty; discriminate).
  unfold Run4.run, rock_book_priceable.
  destruct (Py.getitem (order_depths state) "VOLCANIC_ROCK"%string)
    as [rock_depth|] eqn:Erock.
  2: { exists fair_values, ∅. split; [reflexivity |]. split; [auto |].
       split; [intros (? & [=] & _) | auto]. }
  destruct (Run4.best_bid rock_depth) as [rock_bid|] eqn:Ebid.
  2: { exists fair_values, ∅. split; [reflexivity |]. split; [auto |].
       split; [|auto]. intros (d & [= <-] & Hb & _).
       apply run4_best_bid_none in Ebid. contradiction. }
  destruct (Run4.best_ask rock_depth) as [rock_ask|] eqn:Eask.
  2: { exists fair_values, ∅. split; [reflexivity |]. split; [auto |].
       split; [|auto]. intros (d & [= <-] & _ & Ha).
       apply run4_best_ask_none in Eask. contradiction. }
  destruct (run4_fold_entries state (inject_Z (rock_bid + rock_ask) / 2)
              (Run4.decay (Run4.time_left (timestamp state))) vouchers ∅)
    as (orders & -> & Hok); [auto | exact Hnone |].
  cbn [mbind option_bind]. eexists _, orders. split; [reflexivity |].
  split.
  { intros Hnot. destruct Hnot. exists rock_depth. split; [reflexivity |].
    split; intros E.
    - apply run4_best_bid_none in E. congruence.
    - apply run4_best_ask_none in E. congruence. }
  split; [intros _; rewrite lookup_insert_eq; eauto |].
  split; [|exact Hok].
  intros product Hne. now rewrite lookup_insert_ne.
Qed.

(** ** [Run7.py]: z-score trading *)

Lemma z_above_1_margin (num std_dev : Q) :
  (0 <= std_dev)%Q -> Run7.z_above_1 num std_dev = true -> (std_dev < num)%Q.
Proof.
  intros Hstd. unfold Run7.z_above_1.
  destruct (Qeq_bool std_dev 0) eqn:Ezero.
  - apply Qeq_bool_iff in Ezero. intros H. apply Qltb_lt in H. lra.
  - intros H. apply Qltb_lt in H.
    assert (Hne : ~ (std_dev == 0)%Q).
    { intros E. apply Qeq_bool_iff in E. congruence. }
    assert (Hpos : (0 < std_dev)%Q).
    { destruct (Qle_lt_or_eq _ _ Hstd) as [Hlt | Heq]; [exact Hlt |].
      destruct Hne. now symmetry. }
    apply (Qmult_lt_compat_r _ _ std_dev Hpos) in H.
    rewrite Qmult_1_l, (Qmult_comm (num / std_dev)), Qmult_div_r in H by exact Hne.
    exact H.
Qed.

Lemma run7_voucher_actions_spec (voucher : string) (od : OrderDepth)
    (best_bid best_ask : Z) (fair_value std_dev : Q) (pos limit : Z) (pnl0 : Q) :
  In best_bid (Py.keys (buy_orders od)) ->
  In best_ask (Py.keys (sell_orders od)) ->
  exists actions pnl1,
    Run7.voucher_actions voucher od best_bid best_ask fair_value std_dev
      pos limit pnl0 = Some (actions, pnl1) /\
    (length actions <= 2)%nat /\
    (pnl1 == pnl0 - notional actions)%Q /\
    (- limit <= pos <= limit -> sides_within_limit pos limit actions) /\
    ((0 <= std_dev)%Q ->
     Forall (run7_order_ok voucher best_bid best_ask fair_value std_dev) actions).
Proof.
  intros Hbid Hask. unfold Run7.voucher_actions.
  destruct (getitem_keys _ _ Hbid) as [bid_volume ->].
  destruct (getitem_keys _ _ Hask) as [ask_volume ->].
  destruct (Run7.z_above_1 (fair_value - inject_Z best_ask) std_dev) eqn:Ebuy;
    destruct (Run7.z_above_1 (inject_Z best_bid - fair_value) std_dev) eqn:Esell;
    cbn [andb];
    repeat match goal with
           | |- context [if ?x <? ?y then _ else _] => destruct (Z.ltb_spec x y)
           end;
    cbn [mbind option_bind app];
    repeat match goal with
           | |- context [if ?x <? ?y then _ else _] => destruct (Z.ltb_spec x y)
           end;
    cbn [mbind option_bind app];
    (eexists _, _; split; [reflexivity |]);
    unfold sides_within_limit, notional;
    cbn [buy_total sell_total fold_right price quantity length];
    (split; [lia |]);
    (split; [rewrite ?Z.mul_opp_r, ?inject_Z_opp; ring |]);
    (split; [intros; lia |]);
    intros Hstd;
    repeat (apply List.Forall_cons || apply List.Forall_nil);
    unfold run7_order_ok; cbn [symbol price quantity];
    repeat match goal with
           | |- _ /\ _ => split
           | |- _ -> _ => intro
           end; try reflexivity; try lia;
    now apply z_above_1_margin.
Qed.

(** X27: the order logic of [Run7.py] at the best prices of a book raises
    nothing and emits at most one buy at the best ask and one sell at the
    best bid, none of quantity zero; the realized PnL moves by exactly
    minus the signed notional of what it emits; from a position within the
    limit neither side takes the position past it; and with a non-negative
    standard deviation a buy needs the ask more than one deviation below
    the fair value, a sell the bid more than one deviation above it. *)
Theorem run7_actions_booked (voucher : string) (od : OrderDepth)
    (best_bid best_ask : Z) (fair_value std_dev : Q) (pos limit : Z) (pnl0 : Q) :
  In best_bid (Py.keys (buy_orders od)) ->
  In best_ask (Py.keys (sell_orders od)) ->
  - limit <= pos <= limit ->
  (0 <= std_dev)%Q ->
  exists actions pnl1,
    Run7.voucher_actions voucher od best_bid best_ask fair_value std_dev
      pos limit pnl0 = Some (actions, pnl1) /\
    (length actions <= 2)%nat /\
    (pnl1 == pnl0 - notional actions)%Q /\
    sides_within_limit pos limit actions /\
    Forall (run7_order_ok voucher best_bid best_ask fair_value std_dev) actions.
Proof.
  intros Hbid Hask Hpos Hstd.
  destruct (run7_voucher_actions_spec voucher od best_bid best_ask fair_value
              std_dev pos limit pnl0 Hbid Hask)
    as (actions & pnl1 & Hrun & Hlen & Hpnl & Hsides & Hok).
  exists actions, pnl1. auto 10.
Qed.

(** Fair value 650 and deviation 3 on [voucher_book] (best bid 120, best
    ask 80) at position 0 of 200: buy 100 at 80, booked as -8000. *)
Lemma run7_actions_booked_example :
  exists actions pnl1,
    Run7.voucher_actions "VOLCANIC_ROCK_VOUCHER_9500" voucher_book 120 80 650 3
      0 200 0 = Some (actions, pnl1) /\
    (length actions <= 2)%nat /\
    (pnl1 == 0 - notional actions)%Q /\
    sides_within_limit 0 200 actions /\
    Forall (run7_order_ok "VOLCANIC_ROCK_VOUCHER_9500" 120 80 650 3) actions.
Proof.
  apply (run7_actions_booked "VOLCANIC_ROCK_VOUCHER_9500" voucher_book 120 80
           650 3 0 200 0).
  - cbn. auto.
  - cbn. auto.
  - lia.
  - vm_compute. discriminate.
Defined.

Lemma max_default_listed (l : list Z) (k : Z) :
  Py.max_default Some None l = Some k -> In k l.
Proof.
  destruct l as [|x xs]; [discriminate |]. cbn [Py.max_default].
  intros [= <-]. apply fold_max_In.
Qed.

Lemma min_default_listed (l : list Z) (k : Z) :
  Py.min_default Some None l = Some k -> In k l.
Proof.
  destruct l as [|x xs]; [discriminate |]. cbn [Py.min_default].
  intros [= <-]. apply fold_min_In.
Qed.

Lemma logs_kept_refl (h : gmap string (list Q)) : logs_kept_or_bounded h h.
Proof. intros p. now left. Qed.

Lemma logs_kept_trans (h1 h2 h3 : gmap string (list Q)) :
  logs_kept_or_bounded h1 h2 -> logs_kept_or_bounded h2 h3 ->
  logs_kept_or_bounded h1 h3.
Proof.
  intros H12 H23 p. destruct (H23 p) as [E | Hb]; [|now right].
  rewrite E. apply H12.
Qed.

Lemma logs_kept_log_price (h : gmap string (list Q)) (product : string) (x : Q) :
  logs_kept_or_bounded h (Run7.log_price h product x).
Proof.
  intros p. destruct (decide (p = product)) as [-> | Hne].
  - right. rewrite log_price_lookup. eexists. split; [reflexivity |].
    apply last_n_length.
  - left. now apply log_price_other.
Qed.

Lemma vouchers_distinct : List.NoDup (Py.keys vouchers).
Proof.
  unfold vouchers. cbn [Py.keys map fst].
  repeat (apply List.NoDup_cons; [cbn; intros H; decompose [or] H; discriminate || assumption |]).
  apply List.NoDup_nil.
Qed.

Section Run7Run.

Variable py_pow : Q -> Q -> Q.
Variable np_std : list Q -> Q.
Variable format_trader_data : Q -> Q -> Q -> string.

Lemma run7_voucher_step (state : TradingState) (rock_price : option Q)
    (days_left : Z) (self : Run7.Self) (orders : gmap string (list Order))
    (voucher : string) (strike : Z) :
  In (voucher, strike) vouchers ->
  orders !! voucher = None ->
  exists self' orders',
    Run7.run_voucher py_pow np_std state rock_price days_left (self, orders)
      voucher strike = Some (self', orders') /\
    (Run7.pnl self' == Run7.pnl self - notional (default [] (orders' !! voucher)))%Q /\
    (forall v, v <> voucher -> orders' !! v = orders !! v) /\
    (forall os, orders' !! voucher = Some os -> run7_entry_ok state voucher os) /\
    logs_kept_or_bounded (Run7.history self) (Run7.history self') /\
    (rock_price = None -> self' = self /\ orders' = orders).
Proof.
  intros Hin Hfresh.
  assert (Hskip : exists self' orders',
             Some (self, orders) = Some (self', orders') /\
             (Run7.pnl self' == Run7.pnl self
                - notional (default [] (orders' !! voucher)))%Q /\
             (forall v, v <> voucher -> orders' !! v = orders !! v) /\
             (forall os, orders' !! voucher = Some os ->
                         run7_entry_ok state voucher os) /\
             logs_kept_or_bounded (Run7.history self) (Run7.history self') /\
             (rock_price = None -> self' = self /\ orders' = orders)).
  { exists self, orders. split; [reflexivity |].
    split; [rewrite Hfresh; cbn; ring |]. split; [auto |].
    split; [rewrite Hfresh; discriminate |].
    split; [apply logs_kept_refl | auto]. }
  unfold Run7.run_voucher.
  destruct (Py.getitem (order_depths state) voucher) as [od|] eqn:Eod;
    [|exact Hskip].
  destruct rock_price as [rock|]; [|exact Hskip].
  destruct (Py.max_default Some None _) as [best_bid|] eqn:Ebid; [|exact Hskip].
  destruct (Py.min_default Some None _) as [best_ask|] eqn:Eask; [|exact Hskip].
  clear Hskip.
  destruct (voucher_limit_200 voucher strike Hin) as [-> _].
  cbn [mbind option_bind].
  set (fair := Run7.calculate_fair_value py_pow rock strike days_left).
  set (logged := Run7.log_price (Run7.history self) voucher
                   (inject_Z (best_ask + best_bid) / 2)).
  set (std_dev := Run7.get_std_dev np_std logged voucher 3).
  set (pos := default 0 (position state !! voucher)).
  destruct (run7_voucher_actions_spec voucher od best_bid best_ask fair std_dev
              pos 200 (Run7.pnl self)
              (max_default_listed _ _ Ebid) (min_default_listed _ _ Eask))
    as (actions & pnl1 & -> & Hlen & Hpnl & Hsides & _).
  cbn [mbind option_bind].
  eexists _, _. split; [reflexivity |]. cbn [Run7.pnl Run7.history].
  destruct actions as [|o actions].
  - split; [rewrite Hfresh; exact Hpnl |]. split; [auto |].
    split; [rewrite Hfresh; discriminate |].
    split; [apply logs_kept_log_price | discriminate].
  - split; [rewrite lookup_insert_eq; exact Hpnl |].
    split; [intros v Hne; now rewrite lookup_insert_ne |].
    split; [|split; [apply logs_kept_log_price | discriminate]].
    intros os. rewrite lookup_insert_eq. intros [= <-].
    split; [discriminate |]. split; [exact Hlen |].
    split; [now apply (voucher_listed _ strike) |].
    split; [rewrite Eod; eauto | exact Hsides].
Qed.

Lemma booked_agree (result result' : gmap string (list Order))
    (l : list (string * Z)) :
  (forall v, In v (Py.keys l) -> result' !! v = result !! v) ->
  booked result' l = booked result l.
Proof.
  induction l as [|[v s] l IH]; intros Hagree; cbn [booked fold_right fst];
    [reflexivity |].
  fold (booked result' l). fold (booked result l).
  rewrite IH by (intros v' Hv'; apply Hagree; now right).
  rewrite Hagree by now left. reflexivity.
Qed.

Lemma run7_fold_result (state : TradingState) (rock_price : option Q)
    (days_left : Z) (l : list (string * Z)) :
  (forall v s, In (v, s) l -> In (v, s) vouchers) ->
  List.NoDup (Py.keys l) ->
  forall (self : Run7.Self) (orders : gmap string (list Order)),
    (forall v, In v (Py.keys l) -> orders !! v = None) ->
    exists self' orders',
      foldl (fun acc '(voucher, strike) =>
               acc ≫= fun acc =>
                 Run7.run_voucher py_pow np_std state rock_price days_left acc
                   voucher strike)
            (Some (self, orders)) l = Some (self', orders') /\
      (Run7.pnl self' == Run7.pnl self - booked orders' l)%Q /\
      (forall v, ~ In v (Py.keys l) -> orders' !! v = orders !! v) /\
      (forall v os, In v (Py.keys l) -> orders' !! v = Some os ->
                    run7_entry_ok state v os) /\
      logs_kept_or_bounded (Run7.history self) (Run7.history self') /\
      (rock_price = None -> self' = self /\ orders' = orders).
Proof.
  induction l as [|[voucher strike] l IH]; intros Hl Hnodup self orders Hfresh;
    cbn [foldl mbind option_bind].
  - exists self, orders. split; [reflexivity |].
    split; [cbn; ring |]. split; [auto |]. split; [intros v os [] |].
    split; [apply logs_kept_refl | auto].
  - cbn [Py.keys map fst] in Hnodup, Hfresh.
    apply List.NoDup_cons_iff in Hnodup as [Hnew Hrest].
    destruct (run7_voucher_step state rock_price days_left self orders
                voucher strike)
      as (self1 & orders1 & -> & Hpnl1 & Hother1 & Hok1 & Hlogs1 & Hnone1).
    { apply Hl. now left. }
    { apply Hfresh. now left. }
    destruct (IH (fun v s Hv => Hl v s (or_intror Hv)) Hrest self1 orders1)
      as (self' & orders' & Hfold & Hpnl & Hother & Hok & Hlogs & Hnone).
    { intros v Hv. rewrite Hother1.
      - apply Hfresh. now right.
      - intros ->. contradiction. }
    exists self', orders'. split; [exact Hfold |].
    split.
    { cbn [booked fold_right fst]. fold (booked orders' l).
      rewrite (Hother voucher Hnew). rewrite Hpnl, Hpnl1. ring. }
    split.
    { intros v Hv. cbn [Py.keys map fst] in Hv.
      rewrite Hother by (intros Hin; apply Hv; now right).
      apply Hother1. intros ->. apply Hv. now left. }
    split.
    { intros v os Hv. cbn [Py.keys map fst] in Hv. destruct Hv as [<- | Hv].
      - rewrite (Hother voucher Hnew). apply Hok1.
      - now apply Hok. }
    split; [exact (logs_kept_trans _ _ _ Hlogs1 Hlogs) |].
    intros Hrock. destruct (Hnone1 Hrock) as [-> ->]. now apply Hnone.
Qed.

(** X28: [run] of [Run7.py] raises nothing and asks for no conversion.
    Its realized PnL moves by exactly minus the signed notional of the
    orders it returns; every entry of the result holds one or two orders of
    a listed voucher whose book is in the snapshot, within the limit of 200
    on both sides; every price log is either left as it was or holds at
    most 300 prices; and without a rock mid price the trader state is
    unchanged and no order is returned. *)
Theorem run7_run_result (self : Run7.Self) (state : TradingState) :
  exists self' result trader_data,
    Run7.run py_pow np_std format_trader_data self state =
      Some (self', (result, 0, trader_data)) /\
    (Run7.pnl self' == Run7.pnl self - booked result vouchers)%Q /\
    (forall voucher orders,
        result !! voucher = Some orders -> run7_entry_ok state voucher orders) /\
    logs_kept_or_bounded (Run7.history self) (Run7.history self') /\
    (Run7.get_mid_price
       (Py.getitem (order_depths state) "VOLCANIC_ROCK"%string) = None ->
     self' = self /\ result = ∅).
Proof.
  unfold Run7.run.
  set (rock_price := Run7.get_mid_price
                       (Py.getitem (order_depths state) "VOLCANIC_ROCK"%string)).
  set (self0 := match rock_price with
                | Some price =>
                    if Qeq_bool price 0 then self
                    else Run7.mkSelf
                           (Run7.log_price (Run7.history self)
                              "VOLCANIC_ROCK"%string price)
                           (Run7.pnl self)
                | None => self
                end).
  assert (Hself0 : Run7.pnl self0 = Run7.pnl self /\
                   logs_kept_or_bounded (Run7.history self) (Run7.history self0) /\
                   (rock_price = None -> self0 = self)).
  { subst self0. destruct rock_price as [price|].
    - destruct (Qeq_bool price 0); cbn [Run7.pnl Run7.history].
      + split; [reflexivity |]. split; [apply logs_kept_refl | auto].
      + split; [reflexivity |]. split; [apply logs_kept_log_price | discriminate].
    - split; [reflexivity |]. split; [apply logs_kept_refl | auto]. }
  destruct Hself0 as (Hpnl0 & Hlogs0 & Hnone0).
  destruct (run7_fold_result state rock_price
              (Run7.days_left (timestamp state)) vouchers
              ltac:(auto) vouchers_distinct self0 ∅)
    as (self' & result & -> & Hpnl & Hother & Hok & Hlogs & Hnone).
  { intros v _. apply lookup_empty. }
  cbn [mbind option_bind]. eexists _, _, _. split; [reflexivity |].
  split; [rewrite Hpnl, Hpnl0; reflexivity |].
  split.
  { intros voucher orders Hlookup.
    destruct (decide (voucher ∈ Py.keys vouchers)) as [Hin | Hout];
      rewrite list_elem_of_In in *.
    - now apply Hok.
    - rewrite (Hother voucher Hout), lookup_empty in Hlookup. discriminate. }
  split; [exact (logs_kept_trans _ _ _ Hlogs0 Hlogs) |].
  intros Hrock. destruct (Hnone Hrock) as [-> ->]. split; [now apply Hnone0 | reflexivity].
Qed.

End Run7Run.
